(** * Echoes backend (backend/app.py): a shallow embedding and its properties

    The backend serves two routes.  [scrape] looks a request up in a TTL
    cache and otherwise fetches posts from one of three source adapters;
    [analyze] runs four text extractors over a batch of texts.

    Modelling conventions.
    - A Python [str] is the list of its Unicode code points ([pystr]);
      [bytes] is a list of integers below 256.
    - A [datetime] is the number of microseconds since the Unix epoch (UTC),
      the resolution of Python's datetime.
    - Code that raises is embedded in a small writer/error monad [M]: a
      computation yields the trace of its calls to the outside world and
      either a value or the exception it raised.
    - What the outside world answers (HTTP responses, the parsed feed, the
      scraper's output, the clocks, the NLP models) is read from records
      ([World], [Nlp]); the theorems hold for every such record.
    - Three kinds of calls are taken to return in the main model: the NLP
      libraries, the [print] of the Twitter adapter's handler and the date
      arithmetic of its query.  [Raising] gives the functions that make
      them with those calls free to raise, and agrees with the main model
      whenever they return. *)

From Stdlib Require Import ZArith List Bool Ascii String Lia QArith.
From Stdlib Require Import DecimalString DecimalZ Permutation Sorted.
Import ListNotations.
Local Open Scope Z_scope.

(* ================================================================== *)
(** ** Python strings *)

Module Py.

Definition pystr := list Z.
Definition pybytes := list Z.

(** A literal: the code points of an ASCII string. *)
Definition lit (s : string) : pystr :=
  map (fun a => Z.of_N (N_of_ascii a)) (list_ascii_of_string s).

Fixpoint pystr_eqb (a b : pystr) : bool :=
  match a, b with
  | [], [] => true
  | x :: a', y :: b' => (x =? y) && pystr_eqb a' b'
  | _, _ => false
  end.

(** [a < b] on str: lexicographic on code points. *)
Fixpoint pystr_ltb (a b : pystr) : bool :=
  match a, b with
  | _, [] => false
  | [], _ :: _ => true
  | x :: a', y :: b' => (x <? y) || ((x =? y) && pystr_ltb a' b')
  end.

(** [str.isspace] for one character: the characters Python's [str.strip()]
    removes (bidirectional type WS, B or S, or category Zs). *)
Definition isspace (c : Z) : bool :=
  ((9 <=? c) && (c <=? 13)) || ((28 <=? c) && (c <=? 32)) ||
  (c =? 133) || (c =? 160) || (c =? 5760) ||
  ((8192 <=? c) && (c <=? 8202)) || (c =? 8232) || (c =? 8233) ||
  (c =? 8239) || (c =? 8287) || (c =? 12288).

Fixpoint lstrip (s : pystr) : pystr :=
  match s with
  | c :: s' => if isspace c then lstrip s' else s
  | [] => []
  end.

Definition rstrip (s : pystr) : pystr := rev (lstrip (rev s)).

(** [s.strip()] *)
Definition strip (s : pystr) : pystr := rstrip (lstrip s).

(** Truthiness of a str: [bool(s)]. *)
Definition truthy (s : pystr) : bool :=
  match s with [] => false | _ :: _ => true end.

(** [str(n)] for an int. *)
Definition str_of_int (n : Z) : pystr :=
  lit (NilEmpty.string_of_int (Z.to_int n)).

Definition hex_digit (d : Z) : Z :=
  if d <? 10 then 48 + d else 87 + d.

(** [n] written with [k] lowercase hexadecimal digits, as ['{:0kx}'] does
    for [0 <= n < 16^k]. *)
Fixpoint hex (k : nat) (n : Z) : pystr :=
  match k with
  | O => []
  | S k' => hex k' (Z.shiftr n 4) ++ [hex_digit (Z.land n 15)]
  end.

(** [s.encode()]: UTF-8; [None] stands for UnicodeEncodeError (a lone
    surrogate). *)
Definition utf8_char (c : Z) : option pybytes :=
  if c <? 128 then Some [c]
  else if c <? 2048 then
    Some [Z.lor 192 (Z.shiftr c 6); Z.lor 128 (Z.land c 63)]
  else if (55296 <=? c) && (c <=? 57343) then None
  else if c <? 65536 then
    Some [Z.lor 224 (Z.shiftr c 12);
          Z.lor 128 (Z.land (Z.shiftr c 6) 63);
          Z.lor 128 (Z.land c 63)]
  else
    Some [Z.lor 240 (Z.shiftr c 18);
          Z.lor 128 (Z.land (Z.shiftr c 12) 63);
          Z.lor 128 (Z.land (Z.shiftr c 6) 63);
          Z.lor 128 (Z.land c 63)].

Fixpoint encode (s : pystr) : option pybytes :=
  match s with
  | [] => Some []
  | c :: s' =>
      match utf8_char c, encode s' with
      | Some b, Some bs => Some (b ++ bs)
      | _, _ => None
      end
  end.

(** [sep.join(l)] *)
Fixpoint join (sep : pystr) (l : list pystr) : pystr :=
  match l with
  | [] => []
  | [x] => x
  | x :: l' => x ++ sep ++ join sep l'
  end.

End Py.
Import Py.

(* ================================================================== *)
(** ** json.dumps(payload, sort_keys=True) *)

Module Json.

(** The values a request payload holds. *)
Inductive value :=
| JStr (s : pystr)
| JInt (n : Z).

Definition dict := list (pystr * value).

(** The escape json.dumps applies to one character with [ensure_ascii]:
    everything outside [' '..'~'], the quote and the backslash. *)
Definition escape_char (c : Z) : pystr :=
  if c =? 92 then lit "\\"
  else if c =? 34 then [92; 34]
  else if c =? 8 then lit "\b"
  else if c =? 12 then lit "\f"
  else if c =? 10 then lit "\n"
  else if c =? 13 then lit "\r"
  else if c =? 9 then lit "\t"
  else if (32 <=? c) && (c <=? 126) then [c]
  else if c <? 65536 then lit "\u" ++ hex 4 c
  else
    let n := c - 65536 in
    let s1 := Z.lor 55296 (Z.land (Z.shiftr n 10) 1023) in
    let s2 := Z.lor 56320 (Z.land n 1023) in
    lit "\u" ++ hex 4 s1 ++ lit "\u" ++ hex 4 s2.

Definition encode_str (s : pystr) : pystr :=
  [34] ++ flat_map escape_char s ++ [34].

Definition encode_value (v : value) : pystr :=
  match v with
  | JStr s => encode_str s
  | JInt n => str_of_int n
  end.

(** [sorted(d.items())] by key: insertion into a list sorted by key. *)
Fixpoint insert_item (kv : pystr * value) (d : dict) : dict :=
  match d with
  | [] => [kv]
  | kv' :: d' =>
      if pystr_ltb (fst kv) (fst kv') then kv :: d
      else kv' :: insert_item kv d'
  end.

Definition sort_items (d : dict) : dict := fold_right insert_item [] d.

Definition encode_item (kv : pystr * value) : pystr :=
  encode_str (fst kv) ++ lit ": " ++ encode_value (snd kv).

Definition dumps_sorted (d : dict) : pystr :=
  lit "{" ++ join (lit ", ") (map encode_item (sort_items d)) ++ lit "}".

End Json.

(* ================================================================== *)
(** ** hashlib.sha256 (FIPS 180-4) on 32-bit words carried in Z *)

Module Sha256.

Definition mask32 (x : Z) : Z := Z.land x 4294967295.
Definition add32 (x y : Z) : Z := mask32 (x + y).
Definition rotr (n x : Z) : Z :=
  Z.lor (Z.shiftr x n) (mask32 (Z.shiftl x (32 - n))).
Definition not32 (x : Z) : Z := Z.lxor x 4294967295.

Definition ch (x y z : Z) := Z.lxor (Z.land x y) (Z.land (not32 x) z).
Definition maj (x y z : Z) :=
  Z.lxor (Z.lxor (Z.land x y) (Z.land x z)) (Z.land y z).
Definition bsig0 x := Z.lxor (Z.lxor (rotr 2 x) (rotr 13 x)) (rotr 22 x).
Definition bsig1 x := Z.lxor (Z.lxor (rotr 6 x) (rotr 11 x)) (rotr 25 x).
Definition ssig0 x := Z.lxor (Z.lxor (rotr 7 x) (rotr 18 x)) (Z.shiftr x 3).
Definition ssig1 x := Z.lxor (Z.lxor (rotr 17 x) (rotr 19 x)) (Z.shiftr x 10).

(** The primes below [n], by trial division. *)
Definition is_prime (n : Z) : bool :=
  (2 <=? n) &&
  forallb (fun d => negb (n mod Z.of_nat d =? 0)) (seq 2 (Z.to_nat n - 2)).

Definition primes_below (n : nat) : list Z :=
  filter is_prime (map Z.of_nat (seq 0 n)).

(** The integer cube root, one bit at a time from bit [bits - 1] down. *)
Fixpoint cube_root_bits (bits : nat) (n r : Z) : Z :=
  match bits with
  | O => r
  | S b =>
      let c := r + Z.shiftl 1 (Z.of_nat b) in
      cube_root_bits b n (if c * c * c <=? n then c else r)
  end.

Definition cube_root (n : Z) : Z := cube_root_bits 40 n 0.

(** The round constants: the first 32 bits of the fractional parts of the
    cube roots of the first 64 primes (FIPS 180-4, section 4.2.2). *)
Definition round_constants : list Z :=
  Eval vm_compute in
    map (fun p => mask32 (cube_root (Z.shiftl p 96))) (primes_below 312).

(** The initial hash value: the same of the square roots of the first 8
    primes (section 5.3.3). *)
Definition initial_state : list Z :=
  Eval vm_compute in
    map (fun p => mask32 (Z.sqrt (Z.shiftl p 64))) (primes_below 20).

(** Big-endian bytes of a [k]-byte integer. *)
Fixpoint be_bytes (k : nat) (n : Z) : pybytes :=
  match k with
  | O => []
  | S k' => be_bytes k' (Z.shiftr n 8) ++ [Z.land n 255]
  end.

(** Padding: 0x80, zeros up to 56 mod 64, then the bit length on 8 bytes. *)
Definition pad (msg : pybytes) : pybytes :=
  let len := Z.of_nat (List.length msg) in
  let zeros := Z.to_nat ((55 - len) mod 64) in
  msg ++ [128] ++ repeat 0 zeros ++ be_bytes 8 (8 * len).

Fixpoint words (fuel : nat) (b : pybytes) : list Z :=
  match fuel, b with
  | S f, b0 :: b1 :: b2 :: b3 :: rest =>
      (Z.lor (Z.lor (Z.lor (Z.shiftl b0 24) (Z.shiftl b1 16))
                    (Z.shiftl b2 8)) b3) :: words f rest
  | _, _ => []
  end.

(** The message schedule, newest word first: the head is W(t-1). *)
Fixpoint schedule (n : nat) (w : list Z) : list Z :=
  match n with
  | O => w
  | S n' =>
      let wt := add32 (add32 (add32 (ssig1 (nth 1 w 0)) (nth 6 w 0))
                             (ssig0 (nth 14 w 0))) (nth 15 w 0)
      in schedule n' (wt :: w)
  end.

Definition round (st : list Z) (kw : Z * Z) : list Z :=
  match st with
  | [a; b; c; d; e; f; g; h] =>
      let t1 := add32 (add32 (add32 (add32 h (bsig1 e)) (ch e f g))
                             (fst kw)) (snd kw) in
      let t2 := add32 (bsig0 a) (maj a b c) in
      [add32 t1 t2; a; b; c; add32 d t1; e; f; g]
  | _ => st
  end.

Definition compress (st : list Z) (block : list Z) : list Z :=
  let w := rev (schedule 48 (rev block)) in
  let st' := fold_left round (combine round_constants w) st in
  map (fun p => add32 (fst p) (snd p)) (combine st st').

Fixpoint blocks (fuel : nat) (w : list Z) : list (list Z) :=
  match fuel, w with
  | S f, _ :: _ => firstn 16 w :: blocks f (skipn 16 w)
  | _, _ => []
  end.

Definition digest_words (msg : pybytes) : list Z :=
  let p := pad msg in
  let w := words (List.length p) p in
  fold_left compress (blocks (List.length w) w) initial_state.

(** [hashlib.sha256(msg).hexdigest()] *)
Definition hexdigest (msg : pybytes) : pystr :=
  flat_map (hex 8) (digest_words msg).

End Sha256.

(* ================================================================== *)
(** ** hashlib.md5 (RFC 1321), little-endian 32-bit words carried in Z *)

Module Md5.

Definition mask32 (x : Z) : Z := Z.land x 4294967295.
Definition add32 (x y : Z) : Z := mask32 (x + y).
Definition rotl (n x : Z) : Z :=
  Z.lor (mask32 (Z.shiftl x n)) (Z.shiftr x (32 - n)).
Definition not32 (x : Z) : Z := Z.lxor x 4294967295.

Definition sines : list Z :=
  [ 0xd76aa478; 0xe8c7b756; 0x242070db; 0xc1bdceee;
    0xf57c0faf; 0x4787c62a; 0xa8304613; 0xfd469501;
    0x698098d8; 0x8b44f7af; 0xffff5bb1; 0x895cd7be;
    0x6b901122; 0xfd987193; 0xa679438e; 0x49b40821;
    0xf61e2562; 0xc040b340; 0x265e5a51; 0xe9b6c7aa;
    0xd62f105d; 0x02441453; 0xd8a1e681; 0xe7d3fbc8;
    0x21e1cde6; 0xc33707d6; 0xf4d50d87; 0x455a14ed;
    0xa9e3e905; 0xfcefa3f8; 0x676f02d9; 0x8d2a4c8a;
    0xfffa3942; 0x8771f681; 0x6d9d6122; 0xfde5380c;
    0xa4beea44; 0x4bdecfa9; 0xf6bb4b60; 0xbebfbc70;
    0x289b7ec6; 0xeaa127fa; 0xd4ef3085; 0x04881d05;
    0xd9d4d039; 0xe6db99e5; 0x1fa27cf8; 0xc4ac5665;
    0xf4292244; 0x432aff97; 0xab9423a7; 0xfc93a039;
    0x655b59c3; 0x8f0ccc92; 0xffeff47d; 0x85845dd1;
    0x6fa87e4f; 0xfe2ce6e0; 0xa3014314; 0x4e0811a1;
    0xf7537e82; 0xbd3af235; 0x2ad7d2bb; 0xeb86d391 ].

Definition shifts : list Z :=
  [ 7; 12; 17; 22; 7; 12; 17; 22; 7; 12; 17; 22; 7; 12; 17; 22;
    5; 9; 14; 20; 5; 9; 14; 20; 5; 9; 14; 20; 5; 9; 14; 20;
    4; 11; 16; 23; 4; 11; 16; 23; 4; 11; 16; 23; 4; 11; 16; 23;
    6; 10; 15; 21; 6; 10; 15; 21; 6; 10; 15; 21; 6; 10; 15; 21 ].

Definition initial_state : list Z :=
  [ 0x67452301; 0xefcdab89; 0x98badcfe; 0x10325476 ].

(** Little-endian bytes of a [k]-byte integer. *)
Fixpoint le_bytes (k : nat) (n : Z) : pybytes :=
  match k with
  | O => []
  | S k' => Z.land n 255 :: le_bytes k' (Z.shiftr n 8)
  end.

Definition pad (msg : pybytes) : pybytes :=
  let len := Z.of_nat (List.length msg) in
  let zeros := Z.to_nat ((55 - len) mod 64) in
  msg ++ [128] ++ repeat 0 zeros ++ le_bytes 8 (8 * len).

Fixpoint words (fuel : nat) (b : pybytes) : list Z :=
  match fuel, b with
  | S f, b0 :: b1 :: b2 :: b3 :: rest =>
      (Z.lor (Z.lor (Z.lor b0 (Z.shiftl b1 8)) (Z.shiftl b2 16))
             (Z.shiftl b3 24)) :: words f rest
  | _, _ => []
  end.

Definition step (block : list Z) (st : list Z) (i : Z) : list Z :=
  match st with
  | [a; b; c; d] =>
      let '(f, g) :=
        if i <? 16 then (Z.lor (Z.land b c) (Z.land (not32 b) d), i)
        else if i <? 32 then
          (Z.lor (Z.land d b) (Z.land (not32 d) c), (5 * i + 1) mod 16)
        else if i <? 48 then (Z.lxor (Z.lxor b c) d, (3 * i + 5) mod 16)
        else (Z.lxor c (Z.lor b (not32 d)), (7 * i) mod 16) in
      let n := Z.to_nat i in
      let x := add32 (add32 (add32 f a) (nth n sines 0))
                     (nth (Z.to_nat g) block 0) in
      [d; add32 b (rotl (nth n shifts 0) x); b; c]
  | _ => st
  end.

Definition compress (st : list Z) (block : list Z) : list Z :=
  let st' := fold_left (step block) (map Z.of_nat (seq 0 64)) st in
  map (fun p => add32 (fst p) (snd p)) (combine st st').

Fixpoint blocks (fuel : nat) (w : list Z) : list (list Z) :=
  match fuel, w with
  | S f, _ :: _ => firstn 16 w :: blocks f (skipn 16 w)
  | _, _ => []
  end.

(** [hashlib.md5(msg).hexdigest()] *)
Definition hexdigest (msg : pybytes) : pystr :=
  let p := pad msg in
  let w := words (List.length p) p in
  let st := fold_left compress (blocks (List.length w) w) initial_state in
  flat_map (hex 2) (flat_map (le_bytes 4) st).

End Md5.

(* ================================================================== *)
(** ** datetime: microseconds since the epoch, and the civil calendar *)

Module Datetime.

Definition datetime := Z.

Definition us_per_second : Z := 1000000.
Definition us_per_day : Z := 86400 * us_per_second.

(** [timedelta(days=d)] *)
Definition timedelta_days (d : Z) : Z := d * us_per_day.

(** [int(dt.timestamp())]: whole seconds, truncated towards zero. *)
Definition timestamp_int (dt : datetime) : Z := Z.quot dt us_per_second.

Definition is_leap (y : Z) : bool :=
  ((y mod 4 =? 0) && negb (y mod 100 =? 0)) || (y mod 400 =? 0).

Definition days_in_month (y m : Z) : Z :=
  if m =? 2 then (if is_leap y then 29 else 28)
  else if (m =? 4) || (m =? 6) || (m =? 9) || (m =? 11) then 30
  else 31.

(** Days from 1970-01-01 to the proleptic Gregorian date y-m-d. *)
Definition days_from_civil (y m d : Z) : Z :=
  let y' := if m <=? 2 then y - 1 else y in
  let era := y' / 400 in
  let yoe := y' - era * 400 in
  let doy := (153 * (if 2 <? m then m - 3 else m + 9) + 2) / 5 + d - 1 in
  let doe := yoe * 365 + yoe / 4 - yoe / 100 + doy in
  era * 146097 + doe - 719468.

(** The inverse: the date of a day number. *)
Definition civil_from_days (z : Z) : Z * Z * Z :=
  let z' := z + 719468 in
  let era := z' / 146097 in
  let doe := z' - era * 146097 in
  let yoe := (doe - doe / 1460 + doe / 36524 - doe / 146096) / 365 in
  let doy := doe - (365 * yoe + yoe / 4 - yoe / 100) in
  let mp := (5 * doy + 2) / 153 in
  let d := doy - (153 * mp + 2) / 5 + 1 in
  let m := if mp <? 10 then mp + 3 else mp - 9 in
  ((if m <=? 2 then yoe + era * 400 + 1 else yoe + era * 400), m, d).

(** [datetime(y, mo, d, h, mi, s, tzinfo=timezone.utc)]; [None] stands for
    the ValueError raised on a field out of range. *)
Definition datetime_of_fields (f : Z * Z * Z * Z * Z * Z) : option datetime :=
  let '(y, mo, d, h, mi, s) := f in
  if (1 <=? y) && (y <=? 9999) && (1 <=? mo) && (mo <=? 12) &&
     (1 <=? d) && (d <=? days_in_month y mo) &&
     (0 <=? h) && (h <=? 23) && (0 <=? mi) && (mi <=? 59) &&
     (0 <=? s) && (s <=? 59)
  then Some ((days_from_civil y mo d * 86400 + h * 3600 + mi * 60 + s)
             * us_per_second)
  else None.

(** [n] in decimal, zero-padded to [k] digits ([n >= 0]). *)
Definition zero_pad (k : nat) (n : Z) : pystr :=
  let s := str_of_int n in
  repeat 48 (k - List.length s) ++ s.

(** [dt.date().isoformat()] *)
Definition date_isoformat (dt : datetime) : pystr :=
  let '(y, m, d) := civil_from_days (dt / us_per_day) in
  zero_pad 4 y ++ lit "-" ++ zero_pad 2 m ++ lit "-" ++ zero_pad 2 d.

End Datetime.
Import Datetime.

(* ================================================================== *)
(** ** Values, exceptions, the trace of outside calls, and the monad *)

Import Json.

(** The exceptions the program meets; all are subclasses of Exception. *)
Inductive exn :=
| HTTPException (status_code : Z) (detail : pystr)
| AttributeError (name : pystr)
| KeyError (key : pystr)
| ValueError
| UnicodeEncodeError
| LibraryError (what : pystr).

Inductive outcome (A : Type) :=
| Return (a : A)
| Raise (e : exn).
Arguments Return {A} a.
Arguments Raise {A} e.

(** The calls that leave the process, in the order they are made. *)
Inductive event :=
| EvHttpGet (url : pystr) (headers params : dict) (timeout : Z)
| EvFeedParse (url : pystr)
| EvSubprocess (cmd : list pystr)
| EvPrint (e : exn)
| EvYake (document : pystr)
| EvSpacy (document : pystr)
| EvVader (text : pystr).

Definition M (A : Type) : Type := list event * outcome A.

Definition ret {A} (a : A) : M A := ([], Return a).
Definition raise {A} (e : exn) : M A := ([], Raise e).
Definition emit (ev : event) : M unit := ([ev], Return tt).
Definition lift {A} (o : outcome A) : M A := ([], o).

Definition bind {A B} (m : M A) (k : A -> M B) : M B :=
  match m with
  | (l, Return a) => let (l', o) := k a in (l ++ l', o)
  | (l, Raise e) => (l, Raise e)
  end.

(** [try: m except Exception as e: h e] *)
Definition try_except {A} (m : M A) (h : exn -> M A) : M A :=
  match m with
  | (l, Return a) => (l, Return a)
  | (l, Raise e) => let (l', o) := h e in (l ++ l', o)
  end.

Notation "x <- m ;; k" := (bind m (fun x => k))
  (at level 61, m at next level, right associativity).
Notation "m ;;; k" := (bind m (fun _ => k))
  (at level 61, right associativity).

Definition trace {A} (m : M A) : list event := fst m.
Definition result {A} (m : M A) : outcome A := snd m.

(* ================================================================== *)
(** ** The canonical post and the upstream payloads *)

(** A post is the dict the adapters build.  [id] and [author] carry what
    the upstream sent ([None] is Python's None); a news post has no author
    key. *)
Module Post.
Record t := {
  id : option value;
  platform : pystr;
  author : option (option value);
  created_utc : Z;
  permalink : pystr;
  text : pystr
}.
End Post.

(** One child of the Reddit listing, read with [d.get]: [None] is a key the
    child does not have.  [rc_created_utc] is the instant
    [datetime.fromtimestamp] makes of the JSON number, in microseconds. *)
Record reddit_child := {
  rc_id : option value;
  rc_author : option value;
  rc_created_utc : option Z;
  rc_title : option pystr;
  rc_selftext : option pystr;
  rc_permalink : option pystr
}.

(** [requests.get]'s answer: the status and what [r.json()] gives, already
    reduced to its [data.children] (empty when either key is missing). *)
Record response := {
  status_code : Z;
  json : outcome (list reddit_child)
}.

(** One entry of the parsed feed.  [None] is an attribute the entry does not
    have; [fe_published_parsed] is the (year, month, day, hour, minute,
    second) prefix of the struct_time when the attribute is present and not
    None. *)
Record feed_entry := {
  fe_published_parsed : option (Z * Z * Z * Z * Z * Z);
  fe_title : option pystr;
  fe_summary : option pystr;
  fe_link : option pystr
}.

(** One line of the scraper's output once [json.loads] and the reads of
    [tweet["id"]], [tweet["user"]["username"]], [tweet["date"]],
    [tweet["url"]] and [tweet["content"]] went through; [tw_date] is the
    instant [datetime.fromisoformat] makes of the date. *)
Record tweet := {
  tw_id : value;
  tw_username : value;
  tw_date : Z;
  tw_url : pystr;
  tw_content : pystr
}.

(** What the outside world answers during one request. *)
Record World := {
  (** [_utc_now()] *)
  utc_now : datetime;
  (** [datetime.utcnow()] *)
  utcnow : datetime;
  (** [requests.get(url, headers=..., params=..., timeout=...)] *)
  requests_get : pystr -> dict -> dict -> Z -> outcome response;
  (** [feedparser.parse(url).entries] *)
  feedparser_parse : pystr -> list feed_entry;
  (** [subprocess.run(cmd, capture_output=True, text=True, check=True)]:
      the lines of its stdout, or what it raised. *)
  subprocess_run : list pystr -> outcome (list pystr);
  (** [json.loads(line)] and the field reads of the loop body: the tweet,
      or the first exception one of them raised. *)
  parse_tweet : pystr -> outcome tweet;
  (** The successive readings of the cache's timer (nanoseconds of
      [time.monotonic]). *)
  timer : nat -> Z
}.

(* ================================================================== *)
(** ** Helpers *)

(** [hashlib.sha256(s.encode()).hexdigest()] and the md5 twin. *)
Definition sha256_hex (s : pystr) : M pystr :=
  match encode s with
  | Some b => ret (Sha256.hexdigest b)
  | None => raise UnicodeEncodeError
  end.

Definition md5_hex (s : pystr) : M pystr :=
  match encode s with
  | Some b => ret (Md5.hexdigest b)
  | None => raise UnicodeEncodeError
  end.

Definition _cache_key (prefix : pystr) (payload : dict) : M pystr :=
  sha256_hex (prefix ++ dumps_sorted payload).

Definition clamp (v lo hi : Z) : Z := Z.max lo (Z.min hi v).

(** [d.get(k, '')] on an optional string. *)
Definition get_or_empty (o : option pystr) : pystr :=
  match o with Some s => s | None => [] end.

(** [requests.utils.quote(s)]: percent-encoding of the UTF-8 bytes, the
    unreserved characters and '/' kept. *)
Definition quote_safe (b : Z) : bool :=
  ((65 <=? b) && (b <=? 90)) || ((97 <=? b) && (b <=? 122)) ||
  ((48 <=? b) && (b <=? 57)) ||
  (b =? 95) || (b =? 46) || (b =? 45) || (b =? 126) || (b =? 47).

Definition upper_hex_digit (d : Z) : Z :=
  if d <? 10 then 48 + d else 55 + d.

Definition quote_byte (b : Z) : pystr :=
  if quote_safe b then [b]
  else [37; upper_hex_digit (Z.shiftr b 4); upper_hex_digit (Z.land b 15)].

Definition quote (s : pystr) : M pystr :=
  match encode s with
  | Some b => ret (flat_map quote_byte b)
  | None => raise UnicodeEncodeError
  end.

(* ================================================================== *)
(** ** Scrapers *)

Definition reddit_url : pystr := lit "https://www.reddit.com/search.json".
Definition reddit_headers : dict :=
  [(lit "User-Agent", JStr (lit "osint-scraper-bot"))].
Definition reddit_params (keyword : pystr) : dict :=
  [(lit "q", JStr keyword); (lit "sort", JStr (lit "new"));
   (lit "limit", JInt 100)].

(** The body of the loop over the listing's children. *)
Fixpoint reddit_loop (cutoff : datetime) (children : list reddit_child)
  : list Post.t :=
  match children with
  | [] => []
  | d :: rest =>
      let created :=
        match rc_created_utc d with Some t => t | None => 0 end in
      if created <? cutoff then reddit_loop cutoff rest
      else
        let text := strip (get_or_empty (rc_title d) ++ lit " " ++
                           get_or_empty (rc_selftext d)) in
        if negb (truthy text) then reddit_loop cutoff rest
        else
          {| Post.id := rc_id d;
             Post.platform := lit "reddit";
             Post.author := Some (rc_author d);
             Post.created_utc := timestamp_int created;
             Post.permalink :=
               lit "https://reddit.com" ++ get_or_empty (rc_permalink d);
             Post.text := text |} :: reddit_loop cutoff rest
  end.

Definition scrape_reddit (w : World) (keyword : pystr) (days : Z)
  : M (list Post.t) :=
  let params := reddit_params keyword in
  emit (EvHttpGet reddit_url reddit_headers params 20) ;;;
  r <- lift (requests_get w reddit_url reddit_headers params 20) ;;
  if negb (status_code r =? 200) then
    raise (HTTPException 502 (lit "Reddit fetch failed"))
  else
    data <- lift (json r) ;;
    let now := utc_now w in
    let cutoff := now - timedelta_days days in
    ret (reddit_loop cutoff data).

(** The body of the loop over the feed's entries. *)
Fixpoint news_loop (now cutoff : datetime) (entries : list feed_entry)
  : M (list Post.t) :=
  match entries with
  | [] => ret []
  | e :: rest =>
      published <-
        match fe_published_parsed e with
        | Some f =>
            match datetime_of_fields f with
            | Some t => ret t
            | None => raise ValueError
            end
        | None => ret now
        end ;;
      if published <? cutoff then news_loop now cutoff rest
      else
        let text := strip (get_or_empty (fe_title e) ++ lit " " ++
                           get_or_empty (fe_summary e)) in
        link <- match fe_link e with
                | Some l => ret l
                | None => raise (AttributeError (lit "link"))
                end ;;
        ident <- md5_hex (if truthy link then link else text) ;;
        items <- news_loop now cutoff rest ;;
        ret ({| Post.id := Some (JStr ident);
                Post.platform := lit "news";
                Post.author := None;
                Post.created_utc := timestamp_int published;
                Post.permalink := link;
                Post.text := text |} :: items)
  end.

Definition scrape_news (w : World) (keyword : pystr) (days : Z)
  : M (list Post.t) :=
  q <- quote keyword ;;
  let feed_url :=
    lit "https://news.google.com/rss/search?q=" ++ q ++
    lit "&hl=en-US&gl=US&ceid=US:en" in
  emit (EvFeedParse feed_url) ;;;
  let entries := feedparser_parse w feed_url in
  let now := utc_now w in
  let cutoff := now - timedelta_days days in
  news_loop now cutoff (firstn 50 entries).

(** The loop over the scraper's lines; [n] is [len(items)] on entry. *)
Fixpoint twitter_loop (w : World) (lines : list pystr) (n : nat)
  : M (list Post.t) :=
  match lines with
  | [] => ret []
  | line :: rest =>
      tw <- lift (parse_tweet w line) ;;
      let item :=
        {| Post.id := Some (tw_id tw);
           Post.platform := lit "twitter";
           Post.author := Some (Some (tw_username tw));
           Post.created_utc := timestamp_int (tw_date tw);
           Post.permalink := tw_url tw;
           Post.text := tw_content tw |} in
      if (100 <=? S n)%nat then ret [item]
      else items <- twitter_loop w rest (S n) ;; ret (item :: items)
  end.

Definition scrape_twitter (w : World) (keyword : pystr) (days : Z)
  (use_snscrape : bool) : M (list Post.t) :=
  if negb use_snscrape then ret []
  else
    try_except
      (let since := date_isoformat (utcnow w - timedelta_days days) in
       let query := keyword ++ lit " since:" ++ since ++ lit " lang:en" in
       let cmd := [lit "snscrape"; lit "--jsonl"; lit "twitter-search";
                   query] in
       emit (EvSubprocess cmd) ;;;
       result <- lift (subprocess_run w cmd) ;;
       twitter_loop w result 0)
      (fun e => emit (EvPrint e) ;;; ret []).

(* ================================================================== *)
(** ** cachetools.TTLCache(maxsize=128, ttl=600)

    The cache's entries in least-recently-used-first order, each with the
    time at which it expires.  Times are readings of the cache's timer. *)

Module TTLCache.

Record link := {
  lk_key : pystr;
  lk_value : list Post.t;
  lk_expires : Z
}.

Definition t := list link.

Definition maxsize : nat := 128.
Definition ttl : Z := 600 * 1000000000.

Definition empty : t := [].

Fixpoint find (k : pystr) (c : t) : option link :=
  match c with
  | [] => None
  | l :: c' => if pystr_eqb (lk_key l) k then Some l else find k c'
  end.

Definition remove (k : pystr) (c : t) : t :=
  filter (fun l => negb (pystr_eqb (lk_key l) k)) c.

(** [key in cache]: present and not expired; the cache is not touched. *)
Definition contains (c : t) (k : pystr) (time : Z) : bool :=
  match find k c with
  | Some l => time <? lk_expires l
  | None => false
  end.

(** [cache.expire(time)]: drop what has expired (the library walks its
    entries in expiry order up to the first live one, which is the same
    under a timer that does not run backwards). *)
Definition expire (c : t) (time : Z) : t :=
  filter (fun l => time <? lk_expires l) c.

(** [cache[key]]: the entry becomes the most recently used; an expired or
    absent key raises KeyError. *)
Definition getitem (c : t) (k : pystr) (time : Z)
  : t * outcome (list Post.t) :=
  match find k c with
  | None => (c, Raise (KeyError k))
  | Some l =>
      let c' := remove k c ++ [l] in
      if time <? lk_expires l then (c', Return (lk_value l))
      else (c', Raise (KeyError k))
  end.

(** [cache[key] = value]: expire, make room by evicting from the least
    recently used end, store with a fresh time-to-live. *)
Definition setitem (c : t) (k : pystr) (v : list Post.t) (time : Z) : t :=
  let c1 := expire c time in
  let entry := {| lk_key := k; lk_value := v; lk_expires := time + ttl |} in
  match find k c1 with
  | Some _ => remove k c1 ++ [entry]
  | None => skipn (S (List.length c1) - maxsize) c1 ++ [entry]
  end.

End TTLCache.

(* ================================================================== *)
(** ** Models and routes *)

Record ScrapeRequest := {
  keyword : pystr;
  platform : pystr;
  timeframe_days : Z
}.

(** [req.dict()]: the declared fields, in declaration order. *)
Definition req_dict (req : ScrapeRequest) : dict :=
  [(lit "keyword", JStr (keyword req));
   (lit "platform", JStr (platform req));
   (lit "timeframe_days", JInt (timeframe_days req))].

(** [req.<name>]: an attribute of the model is one of its declared fields;
    any other name raises AttributeError. *)
Fixpoint dict_get (name : pystr) (d : dict) : option value :=
  match d with
  | [] => None
  | (k, v) :: d' => if pystr_eqb k name then Some v else dict_get name d'
  end.

Definition req_getattr (req : ScrapeRequest) (name : pystr) : M value :=
  match dict_get name (req_dict req) with
  | Some v => ret v
  | None => raise (AttributeError name)
  end.

(** Truthiness of a value read from the request. *)
Definition value_truthy (v : value) : bool :=
  match v with
  | JStr s => truthy s
  | JInt n => negb (n =? 0)
  end.

Record ScrapeResponse := {
  cached : bool;
  items : list Post.t
}.

(** The dispatch of [scrape] on a cache miss: the adapter call whose result
    becomes [items]. *)
Definition fetch_items (w : World) (req : ScrapeRequest) : M (list Post.t) :=
  if pystr_eqb (platform req) (lit "reddit") then
    scrape_reddit w (keyword req) (clamp (timeframe_days req) 1 30)
  else if pystr_eqb (platform req) (lit "news") then
    scrape_news w (keyword req) (clamp (timeframe_days req) 1 30)
  else
    flag <- req_getattr req (lit "use_twitter_snscrape") ;;
    scrape_twitter w (keyword req) (clamp (timeframe_days req) 1 30)
                   (value_truthy flag).

(** The route: the cache after the request, the trace and the response (or
    the exception that reaches the framework). *)
Definition scrape (w : World) (cache : TTLCache.t) (req : ScrapeRequest)
  : TTLCache.t * M ScrapeResponse :=
  match _cache_key (lit "scrape") (req_dict req) with
  | (l, Raise e) => (cache, (l, Raise e))
  | (l, Return key) =>
      if TTLCache.contains cache key (timer w 0) then
        match TTLCache.getitem cache key (timer w 1) with
        | (cache', Return v) =>
            (cache', (l, Return {| cached := true; items := v |}))
        | (cache', Raise e) => (cache', (l, Raise e))
        end
      else
        match fetch_items w req with
        | (l', Return its) =>
            (TTLCache.setitem cache key its (timer w 1),
             (l ++ l', Return {| cached := false; items := its |}))
        | (l', Raise e) => (cache, (l ++ l', Raise e))
        end
  end.

(* ================================================================== *)
(** ** Text analytics *)

(** The optional NLP capabilities as the module found them at import time,
    and the Unicode tables behind [\w] and [str.lower].  Scores are the
    decimals the libraries report, carried as rationals; the library calls
    are taken to return. *)
Record Nlp := {
  _HAS_YAKE : bool;
  (** [yake.KeywordExtractor(lan="en", n=1, top=20).extract_keywords(doc)] *)
  yake_extract_keywords : pystr -> list (pystr * Q);
  (** [_HAS_SPACY and _NLP] *)
  _HAS_SPACY : bool;
  (** [(e.text, e.label_) for e in _NLP(doc).ents] *)
  nlp_ents : pystr -> list (pystr * pystr);
  (** [sia.polarity_scores(t)["compound"]] *)
  polarity_compound : pystr -> Q;
  (** [c.isalnum()] *)
  isalnum : Z -> bool;
  (** [s.lower()] *)
  lower : pystr -> pystr
}.

Definition is_word (nlp : Nlp) (c : Z) : bool := isalnum nlp c || (c =? 95).

(** What a finished candidate contributes: a match needs the '#' and at
    least one word character. *)
Definition flush_tag (cur : option pystr) : list pystr :=
  match cur with
  | Some tag => if (1 <? List.length tag)%nat then [tag] else []
  | None => []
  end.

(** [re.findall(r"#\w+", s)], scanning left to right; [cur] is the match
    being extended. *)
Fixpoint findall_hashtags (nlp : Nlp) (cur : option pystr) (s : pystr)
  : list pystr :=
  match s with
  | [] => flush_tag cur
  | c :: s' =>
      if is_word nlp c then
        match cur with
        | Some tag => findall_hashtags nlp (Some (tag ++ [c])) s'
        | None => findall_hashtags nlp None s'
        end
      else if c =? 35 then flush_tag cur ++ findall_hashtags nlp (Some [35]) s'
      else flush_tag cur ++ findall_hashtags nlp None s'
  end.

Definition extract_hashtags (nlp : Nlp) (texts : list pystr) : list pystr :=
  flat_map (findall_hashtags nlp None) texts.

Definition is_ascii_letter (c : Z) : bool :=
  ((65 <=? c) && (c <=? 90)) || ((97 <=? c) && (c <=? 122)).

Definition flush_word (cur : pystr) : list pystr :=
  if (3 <=? List.length cur)%nat then [cur] else [].

(** [re.findall(r"[A-Za-z]{3,}", s)] *)
Fixpoint findall_words (cur : pystr) (s : pystr) : list pystr :=
  match s with
  | [] => flush_word cur
  | c :: s' =>
      if is_ascii_letter c then findall_words (cur ++ [c]) s'
      else flush_word cur ++ findall_words [] s'
  end.

(** [Counter(words)]: the counts, in first-seen order. *)
Fixpoint counter_add (w : pystr) (cnt : list (pystr * Z)) : list (pystr * Z) :=
  match cnt with
  | [] => [(w, 1)]
  | (w', n) :: cnt' =>
      if pystr_eqb w' w then (w', n + 1) :: cnt'
      else (w', n) :: counter_add w cnt'
  end.

Definition counter (words : list pystr) : list (pystr * Z) :=
  fold_left (fun cnt w => counter_add w cnt) words [].

(** A stable sort by a key, as [sorted] is: [leb a b] says [a] may stand
    before [b]. *)
Fixpoint insert_by {A} (leb : A -> A -> bool) (x : A) (l : list A) : list A :=
  match l with
  | [] => [x]
  | y :: l' => if leb x y then x :: l else y :: insert_by leb x l'
  end.

Definition sorted_by {A} (leb : A -> A -> bool) (l : list A) : list A :=
  fold_right (insert_by leb) [] l.

(** [Counter.most_common(n)]: by descending count, ties in first-seen
    order. *)
Definition most_common (n : nat) (cnt : list (pystr * Z)) : list (pystr * Z) :=
  firstn n (sorted_by (fun a b => snd b <=? snd a) cnt).

Definition extract_keywords (nlp : Nlp) (texts : list pystr)
  : M (list pystr) :=
  let full := join (lit " ") texts in
  if _HAS_YAKE nlp then
    emit (EvYake full) ;;;
    let kws := yake_extract_keywords nlp full in
    ret (map fst (sorted_by (fun a b => Qle_bool (snd a) (snd b)) kws))
  else
    let words := findall_words [] (lower nlp full) in
    ret (map fst (most_common 20 (counter words))).

Definition entity_labels : list pystr :=
  [lit "ORG"; lit "PRODUCT"; lit "PERSON"; lit "GPE"; lit "EVENT"].

(** [list({...})]: the distinct strings; a set's order is not specified,
    first occurrences are kept here. *)
Fixpoint distinct (l : list pystr) : list pystr :=
  match l with
  | [] => []
  | x :: l' => x :: filter (fun y => negb (pystr_eqb x y)) (distinct l')
  end.

Definition named_entities (nlp : Nlp) (texts : list pystr)
  : M (list pystr) :=
  if negb (_HAS_SPACY nlp) then ret []
  else
    let full := join (lit " ") texts in
    emit (EvSpacy full) ;;;
    let ents := nlp_ents nlp full in
    ret (distinct
           (map fst
              (filter (fun e => existsb (pystr_eqb (snd e)) entity_labels)
                      ents))).

Record Sentiment := {
  positive : Z;
  neutral : Z;
  negative : Z
}.

(** One iteration of the loop of [sentiment_scores]. *)
Definition sentiment_step (nlp : Nlp) (counts : Sentiment) (t : pystr)
  : Sentiment :=
  let score := polarity_compound nlp t in
  if Qle_bool (5 # 100) score then
    {| positive := positive counts + 1;
       neutral := neutral counts;
       negative := negative counts |}
  else if Qle_bool score (- (5 # 100)) then
    {| positive := positive counts;
       neutral := neutral counts;
       negative := negative counts + 1 |}
  else
    {| positive := positive counts;
       neutral := neutral counts + 1;
       negative := negative counts |}.

Definition sentiment_scores (nlp : Nlp) (texts : list pystr) : M Sentiment :=
  (map EvVader texts,
   Return (fold_left (sentiment_step nlp) texts
             {| positive := 0; neutral := 0; negative := 0 |})).

(** The report is the dict [analyze] returns; [samples] is [None] when the
    dict has no such key. *)
Record AnalysisReport := {
  keywords : list pystr;
  entities : list pystr;
  hashtags : list pystr;
  sentiment : Sentiment;
  samples : option (list pystr)
}.

Definition analyze (nlp : Nlp) (req_texts : list pystr) : M AnalysisReport :=
  let texts := filter (fun t => truthy (strip t)) req_texts in
  match texts with
  | [] =>
      ret {| keywords := []; entities := []; hashtags := [];
             sentiment := {| positive := 0; neutral := 0; negative := 0 |};
             samples := None |}
  | _ :: _ =>
      kw <- extract_keywords nlp texts ;;
      ents <- named_entities nlp texts ;;
      let tags := extract_hashtags nlp texts in
      sent <- sentiment_scores nlp texts ;;
      ret {| keywords := kw; entities := ents; hashtags := tags;
             sentiment := sent; samples := Some (firstn 10 texts) |}
  end.

(* ================================================================== *)
(** ** When a call raises

    Above, three kinds of calls are taken to return: the calls to the NLP
    libraries, the [print] of the Twitter adapter's handler, and the date
    arithmetic of its query.  [Raising] gives the functions that make them
    with those calls free to raise; they are the functions above whenever
    the calls return. *)

(** What the calls to the NLP libraries do: return a value, or raise. *)
Record NlpCalls := {
  (** [yake.KeywordExtractor(lan="en", n=1, top=20).extract_keywords(doc)] *)
  call_yake : pystr -> outcome (list (pystr * Q));
  (** [_NLP(doc)], read as [(e.text, e.label_) for e in _NLP(doc).ents] *)
  call_spacy : pystr -> outcome (list (pystr * pystr));
  (** [sia.polarity_scores(t)["compound"]] *)
  call_vader : pystr -> outcome Q
}.

(** The counts after a text of the given score. *)
Definition sentiment_count (counts : Sentiment) (score : Q) : Sentiment :=
  if Qle_bool (5 # 100) score then
    {| positive := positive counts + 1;
       neutral := neutral counts;
       negative := negative counts |}
  else if Qle_bool score (- (5 # 100)) then
    {| positive := positive counts;
       neutral := neutral counts;
       negative := negative counts + 1 |}
  else
    {| positive := positive counts;
       neutral := neutral counts + 1;
       negative := negative counts |}.

(** [datetime.min] and [datetime.max]. *)
Definition datetime_min : datetime := days_from_civil 1 1 1 * us_per_day.
Definition datetime_max : datetime :=
  (days_from_civil 9999 12 31 + 1) * us_per_day - 1.

(** [dt - timedelta(days=days)]: OverflowError when the timedelta is out of
    its range, or the difference is out of the calendar. *)
Definition minus_days (dt : datetime) (days : Z) : outcome datetime :=
  if (Z.abs days <=? 999999999) &&
     (datetime_min <=? dt - timedelta_days days) &&
     (dt - timedelta_days days <=? datetime_max)
  then Return (dt - timedelta_days days)
  else Raise (LibraryError (lit "OverflowError")).

Module Raising.

Definition extract_keywords (nlp : Nlp) (calls : NlpCalls)
  (texts : list pystr) : M (list pystr) :=
  let full := join (lit " ") texts in
  if _HAS_YAKE nlp then
    emit (EvYake full) ;;;
    kws <- lift (call_yake calls full) ;;
    ret (map fst (sorted_by (fun a b => Qle_bool (snd a) (snd b)) kws))
  else
    let words := findall_words [] (lower nlp full) in
    ret (map fst (most_common 20 (counter words))).

Definition named_entities (nlp : Nlp) (calls : NlpCalls)
  (texts : list pystr) : M (list pystr) :=
  if negb (_HAS_SPACY nlp) then ret []
  else
    let full := join (lit " ") texts in
    emit (EvSpacy full) ;;;
    ents <- lift (call_spacy calls full) ;;
    ret (distinct
           (map fst
              (filter (fun e => existsb (pystr_eqb (snd e)) entity_labels)
                      ents))).

(** The loop of [sentiment_scores] from the counts so far. *)
Fixpoint sentiment_loop (calls : NlpCalls) (counts : Sentiment)
  (texts : list pystr) : M Sentiment :=
  match texts with
  | [] => ret counts
  | t :: rest =>
      emit (EvVader t) ;;;
      score <- lift (call_vader calls t) ;;
      sentiment_loop calls (sentiment_count counts score) rest
  end.

Definition sentiment_scores (calls : NlpCalls) (texts : list pystr)
  : M Sentiment :=
  sentiment_loop calls {| positive := 0; neutral := 0; negative := 0 |} texts.

Definition analyze (nlp : Nlp) (calls : NlpCalls) (req_texts : list pystr)
  : M AnalysisReport :=
  let texts := filter (fun t => truthy (strip t)) req_texts in
  match texts with
  | [] =>
      ret {| keywords := []; entities := []; hashtags := [];
             sentiment := {| positive := 0; neutral := 0; negative := 0 |};
             samples := None |}
  | _ :: _ =>
      kw <- extract_keywords nlp calls texts ;;
      ents <- named_entities nlp calls texts ;;
      let tags := extract_hashtags nlp texts in
      sent <- sentiment_scores calls texts ;;
      ret {| keywords := kw; entities := ents; hashtags := tags;
             sentiment := sent; samples := Some (firstn 10 texts) |}
  end.

(** [print] is what the handler's [print("...", e)] does with the
    exception it is given: return, or raise. *)
Definition scrape_twitter (w : World) (print : exn -> outcome unit)
  (keyword : pystr) (days : Z) (use_snscrape : bool) : M (list Post.t) :=
  if negb use_snscrape then ret []
  else
    try_except
      (since_day <- lift (minus_days (utcnow w) days) ;;
       let since := date_isoformat since_day in
       let query := keyword ++ lit " since:" ++ since ++ lit " lang:en" in
       let cmd := [lit "snscrape"; lit "--jsonl"; lit "twitter-search";
                   query] in
       emit (EvSubprocess cmd) ;;;
       result <- lift (subprocess_run w cmd) ;;
       twitter_loop w result 0)
      (fun e => emit (EvPrint e) ;;; lift (print e) ;;; ret []).

End Raising.

(* ================================================================== *)
(** ** The vocabulary of the statements, and the data of the examples *)

Definition ascii_only (s : pystr) : Prop := Forall (fun c => c < 128) s.

(** The text [json.dumps(req.dict(), sort_keys=True)] up to the value of
    [timeframe_days]. *)
Definition payload_head (kw pl : pystr) : pystr :=
  lit "{" ++ encode_str (lit "keyword") ++ lit ": " ++ encode_str kw ++
  lit ", " ++ encode_str (lit "platform") ++ lit ": " ++ encode_str pl ++
  lit ", " ++ encode_str (lit "timeframe_days") ++ lit ": ".

(** The text that is hashed for a request. *)
Definition key_text (req : ScrapeRequest) : pystr :=
  lit "scrape" ++ dumps_sorted (req_dict req).

(** The key [scrape] computes for a request. *)
Definition cache_key_of (req : ScrapeRequest) : pystr :=
  Sha256.hexdigest (key_text req).

(** The value a computation returned, if it did not raise. *)
Definition returned {A} (m : M A) : option A :=
  match snd m with Return a => Some a | Raise _ => None end.

Module Fixture.

(** 2023-11-14 22:13:20 UTC. *)
Definition now : datetime := 1700000000000000.

(** A world in which nothing upstream answers. *)
Definition offline : World :=
  {| utc_now := now;
     utcnow := now;
     requests_get := fun _ _ _ _ => Raise (LibraryError (lit "ConnectionError"));
     feedparser_parse := fun _ => [];
     subprocess_run := fun _ => Raise (LibraryError (lit "FileNotFoundError"));
     parse_tweet := fun _ => Raise ValueError;
     timer := fun n => Z.of_nat n |}.

Definition with_feed (w : World) (entries : list feed_entry) : World :=
  {| utc_now := utc_now w;
     utcnow := utcnow w;
     requests_get := requests_get w;
     feedparser_parse := fun _ => entries;
     subprocess_run := subprocess_run w;
     parse_tweet := parse_tweet w;
     timer := timer w |}.

Definition with_reddit (w : World) (r : response) : World :=
  {| utc_now := utc_now w;
     utcnow := utcnow w;
     requests_get := fun _ _ _ _ => Return r;
     feedparser_parse := feedparser_parse w;
     subprocess_run := subprocess_run w;
     parse_tweet := parse_tweet w;
     timer := timer w |}.

Definition with_scraper (w : World) (run : outcome (list pystr))
  (parse : pystr -> outcome tweet) : World :=
  {| utc_now := utc_now w;
     utcnow := utcnow w;
     requests_get := requests_get w;
     feedparser_parse := feedparser_parse w;
     subprocess_run := fun _ => run;
     parse_tweet := parse;
     timer := timer w |}.

(** The same world [dt] timer units later. *)
Definition later (w : World) (dt : Z) : World :=
  {| utc_now := utc_now w;
     utcnow := utcnow w;
     requests_get := requests_get w;
     feedparser_parse := feedparser_parse w;
     subprocess_run := subprocess_run w;
     parse_tweet := parse_tweet w;
     timer := fun n => dt + timer w n |}.

(** A feed entry published at the given fields. *)
Definition entry (title : string) (published : Z * Z * Z * Z * Z * Z)
  : feed_entry :=
  {| fe_published_parsed := Some published;
     fe_title := Some (lit title);
     fe_summary := Some (lit "summary");
     fe_link := Some (lit "https://example.org/" ++ lit title) |}.

Definition fresh : feed_entry := entry "fresh" (2023, 11, 14, 12, 0, 0).
Definition stale : feed_entry := entry "stale" (2020, 1, 1, 0, 0, 0).

Definition request (kw pl : string) (days : Z) : ScrapeRequest :=
  {| keyword := lit kw; platform := lit pl; timeframe_days := days |}.

End Fixture.

(** Where the timestamp of a news post comes from: the capture-time now, or
    the publish time of one of the entries. *)
Definition news_stamp (now cutoff : datetime) (es : list feed_entry)
  (p : Post.t) : Prop :=
  exists t, Post.created_utc p = timestamp_int t /\ cutoff <= t /\
    (t = now \/
     exists e f, In e es /\ fe_published_parsed e = Some f /\
                 datetime_of_fields f = Some t).

(** What the Reddit loop reads from a child, and the test it keeps it by. *)
Definition reddit_created (d : reddit_child) : datetime :=
  match rc_created_utc d with Some t => t | None => 0 end.

Definition reddit_text (d : reddit_child) : pystr :=
  strip (get_or_empty (rc_title d) ++ lit " " ++ get_or_empty (rc_selftext d)).

Definition reddit_keeps (cutoff : datetime) (d : reddit_child) : bool :=
  negb (reddit_created d <? cutoff) && truthy (reddit_text d).

Definition reddit_post (d : reddit_child) : Post.t :=
  {| Post.id := rc_id d;
     Post.platform := lit "reddit";
     Post.author := Some (rc_author d);
     Post.created_utc := timestamp_int (reddit_created d);
     Post.permalink := lit "https://reddit.com" ++ get_or_empty (rc_permalink d);
     Post.text := reddit_text d |}.

Definition reddit_events (kw : pystr) : list event :=
  [EvHttpGet reddit_url reddit_headers (reddit_params kw) 20].

Definition twitter_cmd (w : World) (kw : pystr) (days : Z) : list pystr :=
  [lit "snscrape"; lit "--jsonl"; lit "twitter-search";
   kw ++ lit " since:" ++ date_isoformat (utcnow w - timedelta_days days) ++
   lit " lang:en"].

Definition twitter_post (tw : tweet) : Post.t :=
  {| Post.id := Some (tw_id tw);
     Post.platform := lit "twitter";
     Post.author := Some (Some (tw_username tw));
     Post.created_utc := timestamp_int (tw_date tw);
     Post.permalink := tw_url tw;
     Post.text := tw_content tw |}.

Module FixtureNlp.

Definition ascii_lower (c : Z) : Z :=
  if (65 <=? c) && (c <=? 90) then c + 32 else c.

(** No yake, no spaCy; a polarity that reads the first character ('+',
    '-' or anything else); ASCII tables. *)
Definition plain : Nlp :=
  {| _HAS_YAKE := false;
     yake_extract_keywords := fun _ => [];
     _HAS_SPACY := false;
     nlp_ents := fun _ => [];
     polarity_compound := fun t =>
       match t with
       | 43 :: _ => (1 # 2)%Q
       | 45 :: _ => (- (1 # 2))%Q
       | _ => (0 # 1)%Q
       end;
     isalnum := fun c => is_ascii_letter c || ((48 <=? c) && (c <=? 57));
     lower := map ascii_lower |}.

End FixtureNlp.

Definition count_if (f : pystr -> bool) (l : list pystr) : Z :=
  Z.of_nat (List.length (filter f l)).

(** The three classes of the sentiment loop. *)
Definition is_positive (nlp : Nlp) (t : pystr) : bool :=
  Qle_bool (5 # 100) (polarity_compound nlp t).
Definition is_negative (nlp : Nlp) (t : pystr) : bool :=
  Qle_bool (polarity_compound nlp t) (- (5 # 100)).
Definition is_neutral (nlp : Nlp) (t : pystr) : bool :=
  negb (is_positive nlp t) && negb (is_negative nlp t).

Definition zero_report : AnalysisReport :=
  {| keywords := []; entities := []; hashtags := [];
     sentiment := {| positive := 0; neutral := 0; negative := 0 |};
     samples := None |}.

Definition filtered (req_texts : list pystr) : list pystr :=
  filter (fun t => truthy (strip t)) req_texts.

(** The calls of libraries that return what [nlp] says. *)
Definition returning (nlp : Nlp) : NlpCalls :=
  {| call_yake := fun doc => Return (yake_extract_keywords nlp doc);
     call_spacy := fun doc => Return (nlp_ents nlp doc);
     call_vader := fun t => Return (polarity_compound nlp t) |}.

(** Every library call [analyze] makes on the texts returns. *)
Definition calls_return (nlp : Nlp) (calls : NlpCalls) (texts : list pystr)
  : Prop :=
  (_HAS_YAKE nlp = true ->
   exists kws, call_yake calls (join (lit " ") texts) = Return kws) /\
  (_HAS_SPACY nlp = true ->
   exists ents, call_spacy calls (join (lit " ") texts) = Return ents) /\
  (forall t, In t texts -> exists score, call_vader calls t = Return score).

(** One of the library calls [analyze] makes on the texts raises [e]. *)
Definition call_raises (nlp : Nlp) (calls : NlpCalls) (texts : list pystr)
  (e : exn) : Prop :=
  (_HAS_YAKE nlp = true /\
   call_yake calls (join (lit " ") texts) = Raise e) \/
  (_HAS_SPACY nlp = true /\
   call_spacy calls (join (lit " ") texts) = Raise e) \/
  (exists t, In t texts /\ call_vader calls t = Raise e).

Module FixtureCalls.

(** The plain configuration with a spaCy model loaded. *)
Definition spacy_on : Nlp :=
  {| _HAS_YAKE := false;
     yake_extract_keywords := yake_extract_keywords FixtureNlp.plain;
     _HAS_SPACY := true;
     nlp_ents := nlp_ents FixtureNlp.plain;
     polarity_compound := polarity_compound FixtureNlp.plain;
     isalnum := isalnum FixtureNlp.plain;
     lower := lower FixtureNlp.plain |}.

(** A spaCy model with the library's limit on the length of a document
    ([nlp.max_length], 1,000,000 characters); the other calls return. *)
Definition limited : NlpCalls :=
  {| call_yake := fun _ => Return [];
     call_spacy := fun doc =>
       if 1000000 <? Z.of_nat (List.length doc) then Raise ValueError
       else Return [];
     call_vader := fun t => Return (polarity_compound FixtureNlp.plain t) |}.

End FixtureCalls.

(** Whether an exception is the HTTPException the adapters raise on an
    upstream failure. *)
Definition is_http_exception (e : exn) : bool :=
  match e with HTTPException _ _ => true | _ => false end.

(** The world whose feeds are cut to their first [n] entries. *)
Definition first_entries (n : nat) (w : World) : World :=
  {| utc_now := utc_now w;
     utcnow := utcnow w;
     requests_get := requests_get w;
     feedparser_parse := fun url => firstn n (feedparser_parse w url);
     subprocess_run := subprocess_run w;
     parse_tweet := parse_tweet w;
     timer := timer w |}.

(** The news adapter as the claim describes it: the recency filter over the
    whole feed, the cap of 50 on what passes. *)
Definition scrape_news_filter_then_cap (w : World) (keyword : pystr)
  (days : Z) : M (list Post.t) :=
  q <- quote keyword ;;
  let feed_url :=
    lit "https://news.google.com/rss/search?q=" ++ q ++
    lit "&hl=en-US&gl=US&ceid=US:en" in
  emit (EvFeedParse feed_url) ;;;
  let entries := feedparser_parse w feed_url in
  let now := utc_now w in
  let cutoff := now - timedelta_days days in
  its <- news_loop now cutoff entries ;;
  ret (firstn 50 its).

Module FixtureC5.

(** A Reddit child created an hour before [Fixture.now]. *)
Definition child : reddit_child :=
  {| rc_id := Some (JStr (lit "abc"));
     rc_author := Some (JStr (lit "alice"));
     rc_created_utc := Some (Fixture.now - 3600 * us_per_second);
     rc_title := Some (lit "hello");
     rc_selftext := None;
     rc_permalink := Some (lit "/r/x/abc") |}.

(** The same child stamped an hour after [Fixture.now]. *)
Definition child_ahead : reddit_child :=
  {| rc_id := Some (JStr (lit "abd"));
     rc_author := Some (JStr (lit "bob"));
     rc_created_utc := Some (Fixture.now + 3600 * us_per_second);
     rc_title := Some (lit "hello");
     rc_selftext := None;
     rc_permalink := Some (lit "/r/x/abd") |}.

Definition listing (children : list reddit_child) : World :=
  Fixture.with_reddit Fixture.offline
    {| status_code := 200; json := Return children |}.

(** A tweet of 2023-11-13 01:00:00 UTC: the day the query's [since:] names
    for a one-day window at [Fixture.now], and 21 hours before the
    cutoff. *)
Definition early_tweet : tweet :=
  {| tw_id := JInt 1724000000000000000;
     tw_username := JStr (lit "carol");
     tw_date := 1699837200 * us_per_second;
     tw_url := lit "https://twitter.com/carol/status/1724000000000000000";
     tw_content := lit "climate talks" |}.

Definition scraper : World :=
  Fixture.with_scraper Fixture.offline (Return [lit "{...}"])
    (fun _ => Return early_tweet).

End FixtureC5.

(* ================================================================== *)
(** ** The vocabulary of the further properties *)

Definition news_text (e : feed_entry) : pystr :=
  strip (get_or_empty (fe_title e) ++ lit " " ++ get_or_empty (fe_summary e)).

(** The post the news loop builds for an entry. *)
Definition news_post (e : feed_entry) (published : datetime)
  (link ident : pystr) : Post.t :=
  {| Post.id := Some (JStr ident);
     Post.platform := lit "news";
     Post.author := None;
     Post.created_utc := timestamp_int published;
     Post.permalink := link;
     Post.text := news_text e |}.

(** The posts of the news loop come from its entries, in their order: each
    is built from an entry that has a link, and its id is the MD5 of the
    link, or of the text when the link is empty. *)
Definition from_entry (cutoff : datetime) (es : list feed_entry)
  (p : Post.t) : Prop :=
  exists e published link ident,
    In e es /\ p = news_post e published link ident /\
    fe_link e = Some link /\
    md5_hex (if truthy link then link else news_text e) = ret ident /\
    cutoff <= published.

(** The tweets of the lines, or the exception of the first line that does
    not parse. *)
Fixpoint parse_lines (w : World) (lines : list pystr) : outcome (list tweet) :=
  match lines with
  | [] => Return []
  | line :: rest =>
      match parse_tweet w line with
      | Raise e => Raise e
      | Return tw =>
          match parse_lines w rest with
          | Raise e => Raise e
          | Return tws => Return (tw :: tws)
          end
      end
  end.

Definition news_url (q : pystr) : pystr :=
  lit "https://news.google.com/rss/search?q=" ++ q ++
  lit "&hl=en-US&gl=US&ceid=US:en".

(** An entry the news loop cannot turn into a post: its date fields are out
    of range, or it falls inside the window and has no link. *)
Definition malformed_entry (now cutoff : datetime) (e : feed_entry) : Prop :=
  (exists f, fe_published_parsed e = Some f /\ datetime_of_fields f = None) \/
  (fe_link e = None /\
   ((fe_published_parsed e = None /\ cutoff <= now) \/
    exists f t, fe_published_parsed e = Some f /\
                datetime_of_fields f = Some t /\ cutoff <= t)).

(** The cache after a history of requests, each with the world it met,
    starting from the empty cache of a fresh process. *)
Definition serve (cache : TTLCache.t) (call : World * ScrapeRequest)
  : TTLCache.t :=
  fst (scrape (fst call) cache (snd call)).

Definition cache_after (calls : list (World * ScrapeRequest)) : TTLCache.t :=
  fold_left serve calls TTLCache.empty.

(** An entry is sound for a history when it holds what an adapter returned
    for a request of the history with that key, and expires 600 seconds
    after it was stored. *)
Definition entry_from (calls : list (World * ScrapeRequest))
  (l : TTLCache.link) : Prop :=
  exists w req,
    In (w, req) calls /\
    TTLCache.lk_key l = cache_key_of req /\
    returned (fetch_items w req) = Some (TTLCache.lk_value l) /\
    TTLCache.lk_expires l = timer w 1 + TTLCache.ttl.

Definition cache_ok (calls : list (World * ScrapeRequest)) (c : TTLCache.t)
  : Prop :=
  (List.length c <= TTLCache.maxsize)%nat /\
  NoDup (map TTLCache.lk_key c) /\
  Forall (entry_from calls) c.

Definition is_lower_hex (c : Z) : bool :=
  ((48 <=? c) && (c <=? 57)) || ((97 <=? c) && (c <=? 102)).

(** A well-formed tag: '#' followed by at least one word character and
    nothing but word characters. *)
Definition is_tag (nlp : Nlp) (tag : pystr) : Prop :=
  exists body, tag = 35 :: body /\ body <> [] /\
               forallb (is_word nlp) body = true.

(** The match being extended is '#' followed by word characters. *)
Definition partial_tag (nlp : Nlp) (cur : option pystr) : Prop :=
  match cur with
  | None => True
  | Some tag => exists body, tag = 35 :: body /\
                             forallb (is_word nlp) body = true
  end.

(** The count a counter holds for a word, 0 when it has none. *)
Fixpoint lookup (w : pystr) (cnt : list (pystr * Z)) : Z :=
  match cnt with
  | [] => 0
  | (w', n) :: cnt' => if pystr_eqb w' w then n else lookup w cnt'
  end.

(** How many times a word occurs in a list of words. *)
Definition occurrences (w : pystr) (words : list pystr) : Z :=
  Z.of_nat (List.length (filter (pystr_eqb w) words)).

(** The words the fallback path counts. *)
Definition fallback_words (nlp : Nlp) (texts : list pystr) : list pystr :=
  findall_words [] (lower nlp (join (lit " ") texts)).

Definition is_long_word (w : pystr) : Prop :=
  (3 <= List.length w)%nat /\ forallb is_ascii_letter w = true.

(** The code points a str can hold. *)
Definition code_point (c : Z) : Prop := 0 <= c < 1114112.
Definition surrogate (c : Z) : Prop := 55296 <= c <= 57343.

(** What [quote] lets through: unreserved characters, '/' and '%'. *)
Definition url_char (c : Z) : bool := quote_safe c || (c =? 37).

(** A Unicode scalar value: a code point that is not a surrogate. *)
Definition scalar (c : Z) : Prop := 0 <= c < 1114112 /\ ~ surrogate c.

(** The two-character escapes: a character and the letter after the
    backslash. *)
Definition short_escapes : list (Z * Z) :=
  [(92, 92); (34, 34); (8, 98); (12, 102); (10, 110); (13, 114); (9, 116)].

(** The two halves of the surrogate pair for a code point above the basic
    plane, [n] being the code point less 65536. *)
Definition high_surrogate (n : Z) : Z :=
  Z.lor 55296 (Z.land (Z.shiftr n 10) 1023).
Definition low_surrogate (n : Z) : Z :=
  Z.lor 56320 (Z.land n 1023).

(** The four shapes of an escaped character. *)
Inductive escape_form (c : Z) : pystr -> Prop :=
| EfShort (x : Z) :
    In (c, x) short_escapes -> escape_form c [92; x]
| EfPlain :
    32 <= c <= 126 -> c <> 34 -> c <> 92 -> escape_form c [c]
| EfHex (h : pystr) :
    h = hex 4 c -> 0 <= c < 65536 -> ~ surrogate c ->
    escape_form c (92 :: 117 :: h)
| EfPair (h l : pystr) :
    h = hex 4 (high_surrogate (c - 65536)) ->
    l = hex 4 (low_surrogate (c - 65536)) ->
    65536 <= c < 1114112 ->
    escape_form c (92 :: 117 :: h ++ 92 :: 117 :: l).

Definition known (keys : list pystr) (w : pystr) : bool :=
  existsb (pystr_eqb w) keys.

(** The cache holds for [key] the value [v], due to expire at [expires],
    with at most [n] entries used more recently than it. *)
Definition holds (c : TTLCache.t) (key : pystr) (v : list Post.t)
  (expires : Z) (n : nat) : Prop :=
  exists pre l post,
    c = pre ++ l :: post /\
    TTLCache.find key pre = None /\
    TTLCache.lk_key l = key /\
    TTLCache.lk_value l = v /\
    TTLCache.lk_expires l = expires /\
    (List.length post <= n)%nat.

(** [n] news requests for "climate" that differ in [timeframe_days], each
    served while the feed is empty. *)
Definition others (n : nat) : list (World * ScrapeRequest) :=
  map (fun d => (Fixture.offline,
                 {| keyword := lit "climate"; platform := lit "news";
                    timeframe_days := Z.of_nat d |}))
      (seq 100 n).

(** What the handler of the Twitter adapter makes of an exception raised
    after the calls [l]: it prints it and the adapter returns the empty
    list, unless the print itself raises. *)
Definition handled (print : exn -> outcome unit) (l : list event) (e : exn)
  : M (list Post.t) :=
  (l ++ [EvPrint e],
   match print e with
   | Return _ => Return []
   | Raise e' => Raise e'
   end).

Module FixtureConsole.

(** A console that prints. *)
Definition console (e : exn) : outcome unit := Return tt.

(** A console whose encoding cannot take the handler's message. *)
Definition ascii_console (e : exn) : outcome unit := Raise UnicodeEncodeError.

End FixtureConsole.

(** * Properties *)

(** ** Known answers of the library models *)

Example sha256_constants :
  List.length Sha256.round_constants = 64%nat /\
  hd 0 Sha256.round_constants = 0x428a2f98 /\
  last Sha256.round_constants 0 = 0xc67178f2 /\
  hd 0 Sha256.initial_state = 0x6a09e667 /\
  last Sha256.initial_state 0 = 0x5be0cd19.
Proof. vm_compute. repeat split; reflexivity. Qed.

(** Known answers (FIPS 180-4 examples). *)
Example sha256_empty :
  Sha256.hexdigest [] =
  lit "e3b0c44298fc1c149afbf4c8996fb92427ae41e4649b934ca495991b7852b855".
Proof. vm_compute. reflexivity. Qed.

Example sha256_abc :
  Sha256.hexdigest (lit "abc") =
  lit "ba7816bf8f01cfea414140de5dae2223b00361a396177a9cb410ff61f20015ad".
Proof. vm_compute. reflexivity. Qed.

Example sha256_two_blocks :
  Sha256.hexdigest
    (lit "abcdbcdecdefdefgefghfghighijhijkijkljklmklmnlmnomnopnopq") =
  lit "248d6a61d20638b8e5c026930c3e6039a33ce45964ff2167f6ecedd419db06c1".
Proof. vm_compute. reflexivity. Qed.

(** Known answers (RFC 1321, appendix A.5). *)
Example md5_empty :
  Md5.hexdigest [] = lit "d41d8cd98f00b204e9800998ecf8427e".
Proof. vm_compute. reflexivity. Qed.

Example md5_abc :
  Md5.hexdigest (lit "abc") = lit "900150983cd24fb0d6963f7d28e17f72".
Proof. vm_compute. reflexivity. Qed.

Example md5_alphabet :
  Md5.hexdigest (lit "abcdefghijklmnopqrstuvwxyz") =
  lit "c3fcd3d76192e4007dfb496cca67e13b".
Proof. vm_compute. reflexivity. Qed.

Example date_isoformat_epoch : date_isoformat 0 = lit "1970-01-01".
Proof. reflexivity. Qed.

Example date_isoformat_2023 :
  date_isoformat 1700000000000000 = lit "2023-11-14".
Proof. vm_compute. reflexivity. Qed.

Example datetime_of_fields_2023 :
  datetime_of_fields (2023, 11, 14, 22, 13, 20) = Some 1700000000000000.
Proof. vm_compute. reflexivity. Qed.

Example datetime_of_fields_leap :
  datetime_of_fields (2024, 2, 29, 0, 0, 0) = Some 1709164800000000 /\
  datetime_of_fields (2023, 2, 29, 0, 0, 0) = None.
Proof. split; vm_compute; reflexivity. Qed.

(** ** Strings *)

Lemma pystr_eqb_spec (a b : pystr) : pystr_eqb a b = true <-> a = b.
Proof.
  revert b; induction a as [|x a IH]; intros [|y b]; simpl;
    try (split; [discriminate | congruence]); try tauto.
  rewrite andb_true_iff, Z.eqb_eq, IH.
  split; [intros [-> ->]; reflexivity | intros H; inversion H; auto].
Qed.

Lemma pystr_eqb_refl (a : pystr) : pystr_eqb a a = true.
Proof. apply pystr_eqb_spec; reflexivity. Qed.

Lemma pystr_eqb_neq (a b : pystr) : a <> b -> pystr_eqb a b = false.
Proof.
  intros H; destruct (pystr_eqb a b) eqn:E; [|reflexivity].
  apply pystr_eqb_spec in E; contradiction.
Qed.

Lemma ascii_only_app (a b : pystr) :
  ascii_only a -> ascii_only b -> ascii_only (a ++ b).
Proof. intros; apply Forall_app; split; assumption. Qed.

Lemma encode_ascii (s : pystr) : ascii_only s -> encode s = Some s.
Proof.
  induction 1 as [|c s Hc _ IH]; simpl; [reflexivity|].
  unfold utf8_char. destruct (Z.ltb_spec c 128); [|lia].
  rewrite IH; reflexivity.
Qed.

Lemma lit_inj (s1 s2 : string) : lit s1 = lit s2 -> s1 = s2.
Proof.
  unfold lit; intros H.
  rewrite <- (string_of_list_ascii_of_string s1),
          <- (string_of_list_ascii_of_string s2).
  f_equal. revert H.
  generalize (list_ascii_of_string s1) (list_ascii_of_string s2).
  induction l as [|a l IH]; intros [|b l']; simpl; try discriminate; auto.
  intros H; inversion H as [[Hab Hl]].
  apply N2Z.inj in Hab.
  rewrite <- (ascii_N_embedding a), <- (ascii_N_embedding b), Hab.
  f_equal; auto.
Qed.

Lemma str_of_int_inj (n m : Z) : str_of_int n = str_of_int m -> n = m.
Proof.
  unfold str_of_int; intros H. apply lit_inj in H.
  assert (E : Some (Z.to_int n) = Some (Z.to_int m))
    by (rewrite <- !NilEmpty.isi, H; reflexivity).
  inversion E as [E'].
  rewrite <- (DecimalZ.of_to n), <- (DecimalZ.of_to m), E'; reflexivity.
Qed.

Lemma hex_digit_ascii (d : Z) : 0 <= d < 16 -> hex_digit d < 128.
Proof. unfold hex_digit; intros; destruct (d <? 10); lia. Qed.

Lemma hex_ascii (k : nat) (n : Z) : ascii_only (hex k n).
Proof.
  revert n; induction k as [|k IH]; intros n; simpl; [constructor|].
  apply ascii_only_app; [apply IH|].
  constructor; [|constructor].
  apply hex_digit_ascii.
  change 15 with (Z.ones 4). rewrite Z.land_ones by lia.
  apply Z.mod_pos_bound; reflexivity.
Qed.

Lemma string_of_uint_ascii (d : Decimal.uint) :
  ascii_only (lit (NilEmpty.string_of_uint d)).
Proof.
  induction d; simpl; try (constructor; [reflexivity | assumption]).
  constructor.
Qed.

Lemma str_of_int_ascii (n : Z) : ascii_only (str_of_int n).
Proof.
  unfold str_of_int. destruct (Z.to_int n) as [d|d]; simpl.
  - apply string_of_uint_ascii.
  - constructor; [reflexivity | apply string_of_uint_ascii].
Qed.

Lemma escape_char_ascii (c : Z) : ascii_only (escape_char c).
Proof.
  assert (U : ascii_only (lit "\u")) by (repeat constructor).
  unfold escape_char.
  repeat match goal with
  | |- context [if ?b then _ else _] => destruct b eqn:?
  end;
  try (repeat constructor; fail).
  - constructor; [|constructor].
    match goal with
    | H : (_ && _) = true |- _ =>
        apply andb_true_iff in H as [_ H]; apply Z.leb_le in H; lia
    end.
  - apply ascii_only_app; [exact U | apply hex_ascii].
  - apply ascii_only_app; [exact U|].
    apply ascii_only_app; [apply hex_ascii|].
    apply ascii_only_app; [exact U | apply hex_ascii].
Qed.

Lemma encode_str_ascii (s : pystr) : ascii_only (encode_str s).
Proof.
  unfold encode_str. apply ascii_only_app; [repeat constructor|].
  apply ascii_only_app; [|repeat constructor].
  induction s as [|c s IH]; simpl; [constructor|].
  apply ascii_only_app; [apply escape_char_ascii | exact IH].
Qed.

(** ** str.strip *)

Lemma lstrip_nil_iff (s : pystr) : lstrip s = [] <-> forallb isspace s = true.
Proof.
  induction s as [|c s IH]; simpl; [tauto|].
  destruct (isspace c); simpl; [exact IH|].
  split; discriminate.
Qed.

Lemma lstrip_head (s : pystr) (c : Z) (r : pystr) :
  lstrip s = c :: r -> isspace c = false.
Proof.
  induction s as [|x s IH]; simpl; [discriminate|].
  destruct (isspace x) eqn:E; [exact IH|].
  intros H; inversion H; subst; exact E.
Qed.

Lemma lstrip_idem (s : pystr) : lstrip (lstrip s) = lstrip s.
Proof.
  destruct (lstrip s) as [|c r] eqn:E; [reflexivity|].
  simpl. rewrite (lstrip_head _ _ _ E). reflexivity.
Qed.

Lemma lstrip_snoc (a : pystr) (c : Z) :
  isspace c = false -> lstrip (a ++ [c]) = lstrip a ++ [c].
Proof.
  intros Hc. induction a as [|x a IH]; simpl; [rewrite Hc; reflexivity|].
  destruct (isspace x); [exact IH | reflexivity].
Qed.

Lemma rstrip_cons (c : Z) (r : pystr) :
  isspace c = false -> rstrip (c :: r) = c :: rstrip r.
Proof.
  intros Hc. unfold rstrip. simpl.
  rewrite (lstrip_snoc _ _ Hc), rev_app_distr. reflexivity.
Qed.

Lemma rstrip_idem (s : pystr) : rstrip (rstrip s) = rstrip s.
Proof. unfold rstrip. rewrite rev_involutive, lstrip_idem. reflexivity. Qed.

Lemma forallb_rev {A} (f : A -> bool) (l : list A) :
  forallb f (rev l) = forallb f l.
Proof.
  induction l as [|x l IH]; [reflexivity|].
  simpl. rewrite forallb_app, IH. simpl. rewrite andb_true_r, andb_comm.
  reflexivity.
Qed.

Lemma rstrip_nil_iff (s : pystr) : rstrip s = [] <-> forallb isspace s = true.
Proof.
  unfold rstrip. rewrite <- (forallb_rev isspace s), <- lstrip_nil_iff.
  split; intros H.
  - apply (f_equal (@rev Z)) in H. rewrite rev_involutive in H. exact H.
  - rewrite H. reflexivity.
Qed.

Lemma strip_idem (s : pystr) : strip (strip s) = strip s.
Proof.
  unfold strip. destruct (lstrip s) as [|c r] eqn:E; [reflexivity|].
  pose proof (lstrip_head _ _ _ E) as Hc.
  rewrite (rstrip_cons _ _ Hc). simpl. rewrite Hc.
  rewrite <- (rstrip_cons _ _ Hc). apply rstrip_idem.
Qed.

Lemma strip_nil_iff (s : pystr) : strip s = [] <-> forallb isspace s = true.
Proof.
  unfold strip. rewrite rstrip_nil_iff.
  destruct (lstrip s) as [|c r] eqn:E.
  - apply lstrip_nil_iff in E. rewrite E. simpl. tauto.
  - pose proof (lstrip_head _ _ _ E) as Hc. simpl. rewrite Hc. simpl.
    split; [discriminate|]. intros H. apply lstrip_nil_iff in H. congruence.
Qed.

(** What [strip] leaves has no whitespace at either end. *)
Lemma strip_ends (s : pystr) :
  match strip s with
  | [] => True
  | c :: _ => isspace c = false /\ isspace (last (strip s) 0) = false
  end.
Proof.
  destruct (strip s) as [|c r] eqn:E; [exact I|].
  assert (Hl : lstrip (strip s) = strip s).
  { unfold strip at 1 2. destruct (lstrip s) as [|x y] eqn:El; [reflexivity|].
    pose proof (lstrip_head _ _ _ El) as Hx.
    rewrite (rstrip_cons _ _ Hx). simpl. rewrite Hx. reflexivity. }
  assert (Hr : rstrip (strip s) = strip s) by (unfold strip; apply rstrip_idem).
  rewrite E in Hl, Hr. split.
  - simpl in Hl. destruct (isspace c) eqn:Hc; [|reflexivity].
    exfalso. assert (Hlen := f_equal (@List.length Z) Hl). simpl in Hlen.
    assert (forall t : pystr, (List.length (lstrip t) <= List.length t)%nat).
    { induction t as [|x t IH]; simpl; [lia|].
      destruct (isspace x); simpl; lia. }
    specialize (H r). lia.
  - unfold rstrip in Hr. apply (f_equal (@rev Z)) in Hr.
    rewrite rev_involutive in Hr.
    destruct (rev (c :: r)) as [|z t] eqn:Er.
    + apply (f_equal (@rev Z)) in Er. rewrite rev_involutive in Er.
      discriminate.
    + assert (Hz : isspace z = false) by (apply (lstrip_head _ _ _ Hr)).
      assert (El : c :: r = rev t ++ [z]).
      { rewrite <- (rev_involutive (c :: r)), Er. reflexivity. }
      rewrite El, last_last. exact Hz.
Qed.

(** ** The cache key *)

Lemma dumps_req_dict (req : ScrapeRequest) :
  dumps_sorted (req_dict req) =
  payload_head (keyword req) (platform req) ++
  str_of_int (timeframe_days req) ++ lit "}".
Proof.
  unfold dumps_sorted, payload_head, req_dict.
  change (sort_items ?d) with d.
  cbn [map join encode_item encode_value fst snd].
  repeat rewrite <- app_assoc. reflexivity.
Qed.

Ltac ascii_parts :=
  repeat lazymatch goal with
  | |- ascii_only (_ ++ _) => apply ascii_only_app
  | |- ascii_only (encode_str _) => apply encode_str_ascii
  | |- ascii_only (str_of_int _) => apply str_of_int_ascii
  | |- ascii_only (lit _) => repeat constructor
  end.

Lemma key_text_ascii (req : ScrapeRequest) : ascii_only (key_text req).
Proof.
  unfold key_text. rewrite dumps_req_dict. unfold payload_head.
  ascii_parts.
Qed.

(** Computing the key never raises. *)
Lemma cache_key_returns (req : ScrapeRequest) :
  _cache_key (lit "scrape") (req_dict req) = ret (cache_key_of req).
Proof.
  unfold _cache_key, sha256_hex.
  change (lit "scrape" ++ dumps_sorted (req_dict req)) with (key_text req).
  rewrite encode_ascii by apply key_text_ascii. reflexivity.
Qed.


(** ** clamp *)



Lemma clamp_inside (v : Z) : 1 <= v <= 30 -> clamp v 1 30 = v.
Proof. unfold clamp; lia. Qed.

(** ** The monad *)

Lemma bind_ret_l {A B} (a : A) (k : A -> M B) : bind (ret a) k = k a.
Proof. unfold bind, ret. destruct (k a); reflexivity. Qed.

Lemma bind_raise {A B} (e : exn) (k : A -> M B) : bind (raise e) k = raise e.
Proof. reflexivity. Qed.

Lemma bind_returns {A B} (m : M A) (k : A -> M B) (l : list event) (b : B) :
  bind m k = (l, Return b) ->
  exists l1 a l2, m = (l1, Return a) /\ k a = (l2, Return b) /\ l = l1 ++ l2.
Proof.
  destruct m as [l1 [a|e]]; simpl; [|discriminate].
  destruct (k a) as [l2 o] eqn:E. intros H; inversion H; subst.
  exists l1, a, l2; auto.
Qed.

Lemma bind_raises {A B} (m : M A) (k : A -> M B) (l : list event) (e : exn) :
  bind m k = (l, Raise e) ->
  (exists l1, m = (l1, Raise e)) \/
  (exists l1 a l2, m = (l1, Return a) /\ k a = (l2, Raise e)).
Proof.
  destruct m as [l1 [a|e1]]; cbn [bind].
  - destruct (k a) as [l2 o] eqn:E. intros H; inversion H; subst.
    right. exists l1, a, l2. auto.
  - intros H; inversion H; subst. left. exists l. reflexivity.
Qed.

Lemma bind_lift_return {A B} (a : A) (k : A -> M B) :
  bind (lift (Return a)) k = k a.
Proof. exact (bind_ret_l a k). Qed.

(** ** C1: where the clamp sits relative to the cache key *)

Lemma req_getattr_flag (req : ScrapeRequest) :
  req_getattr req (lit "use_twitter_snscrape") =
  raise (AttributeError (lit "use_twitter_snscrape")).
Proof. reflexivity. Qed.




(** Known answers, as CPython's json, hashlib and urllib give them. *)
Example key_text_climate :
  key_text (Fixture.request "climate" "news" 400) =
  lit "scrape{" ++ [34] ++ lit "keyword" ++ [34] ++ lit ": " ++
  [34] ++ lit "climate" ++ [34] ++ lit ", " ++
  [34] ++ lit "platform" ++ [34] ++ lit ": " ++
  [34] ++ lit "news" ++ [34] ++ lit ", " ++
  [34] ++ lit "timeframe_days" ++ [34] ++ lit ": 400}".
Proof. vm_compute. reflexivity. Qed.

Example cache_key_climate_400 :
  cache_key_of (Fixture.request "climate" "news" 400) =
  lit "2a978cce1fb205f39470441bfbad33f0363f341ee2889c89f8ef3a47671b80fd".
Proof. vm_compute. reflexivity. Qed.

Example cache_key_climate_30 :
  cache_key_of (Fixture.request "climate" "news" 30) =
  lit "4270a964b2b7641327790413de8f1ae381ff6a0b014af815d4ea156dcd7fc17f".
Proof. vm_compute. reflexivity. Qed.

Example encode_str_escapes :
  encode_str [97; 34; 98; 92; 99; 10; 233; 128512; 127; 9] =
  [34; 97; 92; 34; 98; 92; 92; 99; 92; 110; 92; 117; 48; 48; 101; 57;
   92; 117; 100; 56; 51; 100; 92; 117; 100; 101; 48; 48;
   92; 117; 48; 48; 55; 102; 92; 116; 34].
Proof. vm_compute. reflexivity. Qed.

Example cache_key_escapes :
  cache_key_of {| keyword := [97; 34; 98; 92; 99; 10; 233; 128512; 127; 9];
                  platform := lit "x"; timeframe_days := -5 |} =
  lit "b0b2a7617f410d2905359b7496b979338c4dd38fd954fcc527c3cbd058e9684d".
Proof. vm_compute. reflexivity. Qed.

Example quote_keyword :
  quote (lit "climate change/" ++ [233] ++ lit "~_" ++ [128512]) =
  ret (lit "climate%20change/%C3%A9~_%F0%9F%98%80").
Proof. vm_compute. reflexivity. Qed.

Example md5_link :
  md5_hex (lit "https://example.org/fresh") =
  ret (lit "79d3538d072e0e52d724ff9b80e315c9").
Proof. vm_compute. reflexivity. Qed.

Example strip_unicode_space :
  strip ([32; 28; 31; 133; 160; 32] ++ lit "x" ++ [8203; 32]) =
  lit "x" ++ [8203].
Proof. vm_compute. reflexivity. Qed.

(** ** The adapters' loops *)

Lemma ret_inv {A} (a : A) (l : list event) (b : A) :
  ret a = (l, Return b) -> l = [] /\ a = b.
Proof. unfold ret; intros H; inversion H; auto. Qed.

Lemma news_stamp_cons (now cutoff : datetime) (e : feed_entry)
  (es : list feed_entry) (p : Post.t) :
  news_stamp now cutoff es p -> news_stamp now cutoff (e :: es) p.
Proof.
  intros (t & Hc & Hle & [Hn | (e' & f & Hin & Hp & Hd)]);
    exists t; repeat split; auto.
  right; exists e', f; simpl; auto.
Qed.

Lemma news_loop_spec (now cutoff : datetime) (es : list feed_entry) :
  forall l posts,
    news_loop now cutoff es = (l, Return posts) ->
    (List.length posts <= List.length es)%nat /\
    Forall (news_stamp now cutoff es) posts.
Proof.
  induction es as [|e es IH]; intros l posts H.
  - inversion H; subst. split; [simpl; lia | constructor].
  - cbn [news_loop] in H.
    apply bind_returns in H as (l1 & published & l2 & Hpub & H & ->).
    assert (Hstamp : published = now \/
              exists f, fe_published_parsed e = Some f /\
                        datetime_of_fields f = Some published).
    { destruct (fe_published_parsed e) as [f|].
      - destruct (datetime_of_fields f) eqn:Ef; [|discriminate].
        apply ret_inv in Hpub as [_ ->]. right; exists f; auto.
      - apply ret_inv in Hpub as [_ ->]. left; reflexivity. }
    destruct (Z.ltb_spec published cutoff) as [Hlt | Hge].
    + destruct (IH _ _ H) as [Hlen Hall]. split; [simpl; lia|].
      eapply Forall_impl; [|exact Hall]. intros p; apply news_stamp_cons.
    + apply bind_returns in H as (l3 & link & l4 & _ & H & ->).
      apply bind_returns in H as (l5 & ident & l6 & _ & H & ->).
      apply bind_returns in H as (l7 & items & l8 & Hrec & H & ->).
      apply ret_inv in H as [_ <-].
      destruct (IH _ _ Hrec) as [Hlen Hall]. split; [simpl; lia|].
      constructor.
      * exists published. cbn [Post.created_utc].
        repeat split; [lia|].
        destruct Hstamp as [-> | (f & Hf & Hd)]; [left; reflexivity|].
        right; exists e, f; simpl; auto.
      * eapply Forall_impl; [|exact Hall]. intros p; apply news_stamp_cons.
Qed.

Lemma reddit_loop_cons (cutoff : datetime) (d : reddit_child)
  (children : list reddit_child) :
  reddit_loop cutoff (d :: children) =
  if reddit_keeps cutoff d then reddit_post d :: reddit_loop cutoff children
  else reddit_loop cutoff children.
Proof.
  cbn [reddit_loop].
  unfold reddit_keeps, reddit_post, reddit_created, reddit_text.
  destruct (_ <? cutoff); cbn [negb andb]; [reflexivity|].
  destruct (truthy _); reflexivity.
Qed.

Lemma reddit_loop_filter (cutoff : datetime) (children : list reddit_child) :
  reddit_loop cutoff children =
  map reddit_post (filter (reddit_keeps cutoff) children).
Proof.
  induction children as [|d cs IH]; [reflexivity|].
  rewrite reddit_loop_cons. cbn [filter].
  destruct (reddit_keeps cutoff d); cbn [map]; rewrite IH; reflexivity.
Qed.

Lemma truthy_nonempty (s : pystr) : truthy s = true <-> s <> [].
Proof. destruct s; simpl; split; congruence. Qed.

Lemma scrape_reddit_trace (w : World) (kw : pystr) (days : Z) :
  trace (scrape_reddit w kw days) = reddit_events kw.
Proof.
  unfold scrape_reddit, trace, lift, emit, bind, raise, ret.
  destruct (requests_get w _ _ _ _) as [r|e]; [|reflexivity].
  destruct (negb (status_code r =? 200)); [reflexivity|].
  destruct (json r); reflexivity.
Qed.

Lemma scrape_reddit_ok (w : World) (kw : pystr) (days : Z)
  (r : response) (children : list reddit_child) :
  requests_get w reddit_url reddit_headers (reddit_params kw) 20 = Return r ->
  status_code r = 200 ->
  json r = Return children ->
  scrape_reddit w kw days =
  (reddit_events kw,
   Return (reddit_loop (utc_now w - timedelta_days days) children)).
Proof.
  intros Hr Hs Hj. unfold scrape_reddit, lift, emit, bind, raise, ret.
  rewrite Hr, Hs, Hj. reflexivity.
Qed.

Lemma scrape_reddit_not_200 (w : World) (kw : pystr) (days : Z)
  (r : response) :
  requests_get w reddit_url reddit_headers (reddit_params kw) 20 = Return r ->
  status_code r <> 200 ->
  scrape_reddit w kw days =
  (reddit_events kw, Raise (HTTPException 502 (lit "Reddit fetch failed"))).
Proof.
  intros Hr Hs. unfold scrape_reddit, lift, emit, bind, raise, ret.
  rewrite Hr. apply Z.eqb_neq in Hs. rewrite Hs. reflexivity.
Qed.

Lemma scrape_reddit_returned (w : World) (kw : pystr) (days : Z)
  (posts : list Post.t) :
  returned (scrape_reddit w kw days) = Some posts ->
  exists r children,
    requests_get w reddit_url reddit_headers (reddit_params kw) 20 = Return r /\
    status_code r = 200 /\ json r = Return children /\
    posts = reddit_loop (utc_now w - timedelta_days days) children.
Proof.
  unfold returned, scrape_reddit, lift, emit, bind, raise, ret.
  destruct (requests_get w _ _ _ _) as [r|e] eqn:Hr; [|discriminate].
  destruct (Z.eqb_spec (status_code r) 200) as [Hs|Hs]; [|discriminate].
  cbn [negb]. destruct (json r) as [children|e] eqn:Hj; [|discriminate].
  cbn. intros H; inversion H; subst. exists r, children; auto.
Qed.

(** Every post of the Reddit adapter has a non-empty text: the loop skips
    a child whose title and body strip to nothing. *)
Lemma scrape_reddit_text_nonempty (w : World) (kw : pystr) (days : Z)
  (posts : list Post.t) :
  returned (scrape_reddit w kw days) = Some posts ->
  Forall (fun p => Post.text p <> []) posts.
Proof.
  intros H. apply scrape_reddit_returned in H as (r & cs & _ & _ & _ & ->).
  rewrite reddit_loop_filter. apply Forall_forall. intros p Hin.
  apply in_map_iff in Hin as (d & <- & Hd).
  apply filter_In in Hd as [_ Hk]. unfold reddit_keeps in Hk.
  apply andb_true_iff in Hk as [_ Ht]. apply truthy_nonempty; exact Ht.
Qed.

(** ** The cache *)

Lemma find_some (k : pystr) (c : TTLCache.t) (l : TTLCache.link) :
  TTLCache.find k c = Some l -> In l c /\ TTLCache.lk_key l = k.
Proof.
  induction c as [|x c IH]; simpl; [discriminate|].
  destruct (pystr_eqb (TTLCache.lk_key x) k) eqn:E.
  - intros H; inversion H; subst. apply pystr_eqb_spec in E. auto.
  - intros H. destruct (IH H). auto.
Qed.

Lemma find_none (k : pystr) (c : TTLCache.t) :
  TTLCache.find k c = None <-> ~ In k (map TTLCache.lk_key c).
Proof.
  induction c as [|x c IH]; simpl; [tauto|].
  destruct (pystr_eqb (TTLCache.lk_key x) k) eqn:E.
  - apply pystr_eqb_spec in E. split; [discriminate | tauto].
  - rewrite IH. split; [|tauto].
    intros H [Hx | Hin]; [|tauto].
    rewrite Hx, pystr_eqb_refl in E. discriminate.
Qed.

Lemma find_app (k : pystr) (a b : TTLCache.t) :
  TTLCache.find k (a ++ b) =
  match TTLCache.find k a with
  | Some l => Some l
  | None => TTLCache.find k b
  end.
Proof.
  induction a as [|x a IH]; simpl; [reflexivity|].
  destruct (pystr_eqb (TTLCache.lk_key x) k); [reflexivity | exact IH].
Qed.

Lemma find_remove (k : pystr) (c : TTLCache.t) :
  TTLCache.find k (TTLCache.remove k c) = None.
Proof.
  apply find_none. unfold TTLCache.remove. intros H.
  apply in_map_iff in H as (l & Hk & Hin).
  apply filter_In in Hin as [_ Hne].
  rewrite Hk, pystr_eqb_refl in Hne. discriminate.
Qed.

Lemma find_skipn_none (k : pystr) (n : nat) (c : TTLCache.t) :
  TTLCache.find k c = None -> TTLCache.find k (skipn n c) = None.
Proof.
  rewrite !find_none. intros H Hin. apply H.
  apply in_map_iff in Hin as (l & Hk & Hin).
  apply in_map_iff. exists l. split; [exact Hk|].
  rewrite <- (firstn_skipn n c). apply in_or_app. right; exact Hin.
Qed.

Lemma find_setitem (c : TTLCache.t) (k : pystr) (v : list Post.t) (t : Z) :
  TTLCache.find k (TTLCache.setitem c k v t) =
  Some {| TTLCache.lk_key := k; TTLCache.lk_value := v;
          TTLCache.lk_expires := t + TTLCache.ttl |}.
Proof.
  unfold TTLCache.setitem.
  destruct (TTLCache.find k (TTLCache.expire c t)) eqn:E.
  - rewrite find_app, find_remove. simpl. rewrite pystr_eqb_refl. reflexivity.
  - rewrite find_app, (find_skipn_none _ _ _ E). simpl.
    rewrite pystr_eqb_refl. reflexivity.
Qed.

Lemma remove_length_found (k : pystr) (c : TTLCache.t) (l : TTLCache.link) :
  TTLCache.find k c = Some l ->
  (List.length (TTLCache.remove k c) < List.length c)%nat.
Proof.
  unfold TTLCache.remove.
  induction c as [|x c IH]; simpl; [discriminate|].
  destruct (pystr_eqb (TTLCache.lk_key x) k) eqn:E; simpl.
  - intros _. pose proof (filter_length_le
      (fun l0 => negb (pystr_eqb (TTLCache.lk_key l0) k)) c). lia.
  - intros H. specialize (IH H). lia.
Qed.

(** ** The route *)

Lemma scrape_miss (w : World) (cache : TTLCache.t) (req : ScrapeRequest) :
  TTLCache.contains cache (cache_key_of req) (timer w 0) = false ->
  scrape w cache req =
  match fetch_items w req with
  | (l, Return its) =>
      (TTLCache.setitem cache (cache_key_of req) its (timer w 1),
       (l, Return {| cached := false; items := its |}))
  | (l, Raise e) => (cache, (l, Raise e))
  end.
Proof.
  intros Hmiss. unfold scrape. rewrite cache_key_returns. unfold ret.
  rewrite Hmiss. destruct (fetch_items w req) as [l [its|e]]; reflexivity.
Qed.

Lemma scrape_hit (w : World) (cache : TTLCache.t) (req : ScrapeRequest) :
  TTLCache.contains cache (cache_key_of req) (timer w 0) = true ->
  scrape w cache req =
  match TTLCache.getitem cache (cache_key_of req) (timer w 1) with
  | (cache', Return v) =>
      (cache', ([], Return {| cached := true; items := v |}))
  | (cache', Raise e) => (cache', ([], Raise e))
  end.
Proof.
  intros Hhit. unfold scrape. rewrite cache_key_returns. unfold ret.
  rewrite Hhit. reflexivity.
Qed.

(** A request whose platform is neither "reddit" nor "news" takes the last
    branch of the dispatch. *)
Lemma fetch_items_else (w : World) (req : ScrapeRequest) :
  platform req <> lit "reddit" ->
  platform req <> lit "news" ->
  fetch_items w req =
  (flag <- req_getattr req (lit "use_twitter_snscrape") ;;
   scrape_twitter w (keyword req) (clamp (timeframe_days req) 1 30)
                  (value_truthy flag)).
Proof.
  intros Hr Hn. unfold fetch_items.
  rewrite (pystr_eqb_neq _ _ Hr), (pystr_eqb_neq _ _ Hn). reflexivity.
Qed.

(** An expired or absent entry stays invisible at every later reading. *)
Lemma contains_false_later (c : TTLCache.t) (k : pystr) (t t' : Z) :
  TTLCache.contains c k t = false -> t <= t' ->
  TTLCache.contains c k t' = false.
Proof.
  unfold TTLCache.contains. destruct (TTLCache.find k c); [|reflexivity].
  rewrite !Z.ltb_ge. lia.
Qed.

(** ** The Twitter adapter *)

(** With the flag off the adapter returns at once: no call leaves the
    process. *)
Lemma scrape_twitter_disabled (w : World) (kw : pystr) (days : Z) :
  scrape_twitter w kw days false = ([], Return []).
Proof. reflexivity. Qed.

(** Whatever the subprocess raises is printed and swallowed. *)
Lemma scrape_twitter_subprocess_raises (w : World) (kw : pystr) (days : Z)
  (e : exn) :
  subprocess_run w (twitter_cmd w kw days) = Raise e ->
  scrape_twitter w kw days true =
  ([EvSubprocess (twitter_cmd w kw days); EvPrint e], Return []).
Proof.
  intros H. unfold scrape_twitter, try_except, bind, emit, lift, ret.
  cbn [negb]. fold (twitter_cmd w kw days). rewrite H. reflexivity.
Qed.

(** As long as the handler's [print] returns, the adapter itself does not
    raise. *)
Lemma scrape_twitter_returns (w : World) (kw : pystr) (days : Z)
  (flag : bool) :
  exists l posts, scrape_twitter w kw days flag = (l, Return posts).
Proof.
  destruct flag; [|exists [], []; reflexivity].
  unfold scrape_twitter, try_except. cbn [negb].
  match goal with |- context [match ?m with _ => _ end] => destruct m as [l [a|e]] end.
  - exists l, a; reflexivity.
  - cbn. eexists _, _; reflexivity.
Qed.

(** One well-formed line gives one post, whatever its date. *)
Lemma scrape_twitter_one_line (w : World) (kw : pystr) (days : Z)
  (line : pystr) (tw : tweet) :
  subprocess_run w (twitter_cmd w kw days) = Return [line] ->
  parse_tweet w line = Return tw ->
  scrape_twitter w kw days true =
  ([EvSubprocess (twitter_cmd w kw days)], Return [twitter_post tw]).
Proof.
  intros Hrun Hparse.
  unfold scrape_twitter, try_except, bind, emit, lift, ret.
  cbn [negb]. fold (twitter_cmd w kw days). rewrite Hrun.
  cbn [twitter_loop]. unfold bind, lift, ret. rewrite Hparse. reflexivity.
Qed.

Lemma twitter_loop_cap (w : World) (lines : list pystr) :
  forall (n : nat) l posts,
    (n < 100)%nat ->
    twitter_loop w lines n = (l, Return posts) ->
    (List.length posts + n <= 100)%nat.
Proof.
  induction lines as [|line rest IH]; intros n l posts Hn H.
  - apply ret_inv in H as [_ <-]. simpl; lia.
  - cbn [twitter_loop] in H.
    apply bind_returns in H as (l1 & tw & l2 & _ & H & ->).
    destruct (Nat.leb_spec 100 (S n)) as [Hfull | Hroom].
    + apply ret_inv in H as [_ <-]. simpl; lia.
    + apply bind_returns in H as (l3 & its & l4 & Hrec & H & ->).
      apply ret_inv in H as [_ <-].
      apply IH in Hrec; [simpl; lia | lia].
Qed.

Lemma scrape_twitter_cap (w : World) (kw : pystr) (days : Z) (flag : bool)
  (posts : list Post.t) :
  returned (scrape_twitter w kw days flag) = Some posts ->
  (List.length posts <= 100)%nat.
Proof.
  destruct flag; [|intros H; inversion H; simpl; lia].
  unfold returned, scrape_twitter, try_except. cbn [negb].
  match goal with
  | |- context [match ?m with _ => _ end] => destruct m as [l [a|e]] eqn:E
  end.
  - cbn. intros H; inversion H; subst.
    apply bind_returns in E as (l1 & u & l2 & _ & E & ->).
    apply bind_returns in E as (l3 & lines & l4 & _ & E & ->).
    apply twitter_loop_cap in E; lia.
  - cbn. intros H; inversion H; simpl; lia.
Qed.

(** ** C2: posts with an empty text *)

(** C2 (the code at a failing input): a feed entry with an empty title and
    no summary falls inside the window and is returned by the news adapter,
    and by the route, with an empty [text]; the Reddit loop has the test
    that would drop it ([scrape_reddit_text_nonempty]).  The Twitter
    adapter likewise passes an empty [content] through. *)
Theorem C2_news_keeps_empty_text :
  let e := {| fe_published_parsed := None; fe_title := Some [];
              fe_summary := None;
              fe_link := Some (lit "https://example.org/a") |} in
  let w := Fixture.with_feed Fixture.offline [e] in
  let tw := {| tw_id := JInt 1; tw_username := JStr (lit "u");
               tw_date := Fixture.now; tw_url := lit "https://x.example/1";
               tw_content := [] |} in
  let wt := Fixture.with_scraper Fixture.offline (Return [lit "{}"])
              (fun _ => Return tw) in
  option_map (map Post.text) (returned (scrape_news w (lit "climate") 7))
    = Some [[]] /\
  option_map (fun r => map Post.text (items r))
    (returned (snd (scrape w TTLCache.empty
                      (Fixture.request "climate" "news" 7))))
    = Some [[]] /\
  option_map (map Post.text)
    (returned (scrape_twitter wt (lit "climate") 7 true)) = Some [[]].
Proof. vm_compute. repeat split; reflexivity. Qed.

(** ** C3 and C10: the Twitter branch of the dispatch *)

Lemma scrape_else_raises (w : World) (cache : TTLCache.t)
  (req : ScrapeRequest) :
  platform req <> lit "reddit" ->
  platform req <> lit "news" ->
  TTLCache.contains cache (cache_key_of req) (timer w 0) = false ->
  scrape w cache req =
  (cache, ([], Raise (AttributeError (lit "use_twitter_snscrape")))).
Proof.
  intros Hr Hn Hmiss. rewrite (scrape_miss _ _ _ Hmiss).
  rewrite (fetch_items_else w req Hr Hn), req_getattr_flag. reflexivity.
Qed.

(** C3 (the code at a failing input): a fetch for platform "twitter" never
    reaches the adapter.  The route reads [req.use_twitter_snscrape], which
    the request model does not declare, and the AttributeError reaches the
    caller; nothing is returned and nothing is cached.  The adapter on its
    own behaves as claimed ([scrape_twitter_disabled],
    [scrape_twitter_subprocess_raises], [scrape_twitter_returns]). *)
Theorem C3_twitter_fetch_raises :
  scrape Fixture.offline TTLCache.empty (Fixture.request "climate" "twitter" 7)
  = (TTLCache.empty,
     ([], Raise (AttributeError (lit "use_twitter_snscrape")))).
Proof. vm_compute. reflexivity. Qed.

(** C10: a request whose platform is neither "reddit" nor "news" (any other
    string, the documented "twitter" included) is not rejected: on a cache
    miss the dispatch takes the Twitter branch, whose first step reads the
    attribute [use_twitter_snscrape] of the request.  The model declares no
    such field, so the read raises AttributeError, which is what the route
    ends with; the cache is left as it was. *)
Theorem C10_unknown_platform_takes_twitter_branch :
  forall (w : World) (cache : TTLCache.t) (req : ScrapeRequest),
    platform req <> lit "reddit" ->
    platform req <> lit "news" ->
    TTLCache.contains cache (cache_key_of req) (timer w 0) = false ->
    fetch_items w req =
      (flag <- req_getattr req (lit "use_twitter_snscrape") ;;
       scrape_twitter w (keyword req) (clamp (timeframe_days req) 1 30)
                      (value_truthy flag)) /\
    dict_get (lit "use_twitter_snscrape") (req_dict req) = None /\
    req_getattr req (lit "use_twitter_snscrape") =
      raise (AttributeError (lit "use_twitter_snscrape")) /\
    scrape w cache req =
      (cache, ([], Raise (AttributeError (lit "use_twitter_snscrape")))).
Proof.
  intros w cache req Hr Hn Hmiss.
  split; [apply fetch_items_else; assumption|].
  split; [reflexivity|].
  split; [apply req_getattr_flag|].
  apply scrape_else_raises; assumption.
Qed.

(** C10 at the platform "mastodon", on an empty cache. *)
Lemma C10_witness :
  let req := Fixture.request "climate" "mastodon" 7 in
  platform req <> lit "reddit" /\
  platform req <> lit "news" /\
  TTLCache.contains TTLCache.empty (cache_key_of req)
    (timer Fixture.offline 0) = false /\
  scrape Fixture.offline TTLCache.empty req =
    (TTLCache.empty,
     ([], Raise (AttributeError (lit "use_twitter_snscrape")))).
Proof.
  assert (Hr : platform (Fixture.request "climate" "mastodon" 7)
               <> lit "reddit") by (vm_compute; discriminate).
  assert (Hn : platform (Fixture.request "climate" "mastodon" 7)
               <> lit "news") by (vm_compute; discriminate).
  assert (Hm : TTLCache.contains TTLCache.empty
                 (cache_key_of (Fixture.request "climate" "mastodon" 7))
                 (timer Fixture.offline 0) = false) by reflexivity.
  cbv zeta.
  split; [exact Hr|]. split; [exact Hn|]. split; [exact Hm|].
  exact (proj2 (proj2 (proj2
    (C10_unknown_platform_takes_twitter_branch
       Fixture.offline TTLCache.empty
       (Fixture.request "climate" "mastodon" 7) Hr Hn Hm)))).
Defined.

(** ** C6: an upstream failure and the cache *)

Lemma scrape_fetch_raises (w : World) (cache : TTLCache.t)
  (req : ScrapeRequest) (l : list event) (e : exn) :
  TTLCache.contains cache (cache_key_of req) (timer w 0) = false ->
  fetch_items w req = (l, Raise e) ->
  scrape w cache req = (cache, (l, Raise e)).
Proof.
  intros Hmiss Hf. rewrite (scrape_miss _ _ _ Hmiss), Hf. reflexivity.
Qed.

(** Whenever the route ends with an HTTPException, the cache is the one it
    started with and the key was not in it. *)
Lemma scrape_http_exception_keeps_cache (w : World) (cache cache' : TTLCache.t)
  (req : ScrapeRequest) (l : list event) (status : Z) (detail : pystr) :
  scrape w cache req = (cache', (l, Raise (HTTPException status detail))) ->
  cache' = cache /\
  TTLCache.contains cache (cache_key_of req) (timer w 0) = false.
Proof.
  destruct (TTLCache.contains cache (cache_key_of req) (timer w 0)) eqn:Hc.
  - rewrite (scrape_hit _ _ _ Hc). unfold TTLCache.getitem.
    destruct (TTLCache.find _ _); [destruct (_ <? _)|]; intros H;
      inversion H.
  - rewrite (scrape_miss _ _ _ Hc).
    destruct (fetch_items w req) as [l' [its|e]]; intros H; inversion H; auto.
Qed.

(** What the news adapter can raise. *)
Lemma news_loop_no_http (now cutoff : datetime) (es : list feed_entry) :
  forall l e,
    news_loop now cutoff es = (l, Raise e) -> is_http_exception e = false.
Proof.
  induction es as [|h es IH]; intros l e H; [discriminate|].
  cbn [news_loop] in H.
  apply bind_raises in H as [(l1 & H) | (l1 & published & l2 & _ & H)].
  { destruct (fe_published_parsed h) as [f|]; [|discriminate].
    destruct (datetime_of_fields f); inversion H; reflexivity. }
  destruct (published <? cutoff); [exact (IH _ _ H)|].
  apply bind_raises in H as [(l3 & H) | (l3 & link & l4 & _ & H)].
  { destruct (fe_link h); inversion H; reflexivity. }
  apply bind_raises in H as [(l5 & H) | (l5 & ident & l6 & _ & H)].
  { unfold md5_hex in H. destruct (encode _); inversion H; reflexivity. }
  apply bind_raises in H as [(l7 & H) | (l7 & its & l8 & _ & H)].
  - exact (IH _ _ H).
  - discriminate.
Qed.

Lemma scrape_news_no_http (w : World) (kw : pystr) (days : Z)
  (l : list event) (e : exn) :
  scrape_news w kw days = (l, Raise e) -> is_http_exception e = false.
Proof.
  unfold scrape_news. intros H.
  apply bind_raises in H as [(l1 & H) | (l1 & q & l2 & _ & H)].
  { unfold quote in H. destruct (encode kw); inversion H; reflexivity. }
  apply bind_raises in H as [(l3 & H) | (l3 & u & l4 & _ & H)];
    [discriminate|].
  exact (news_loop_no_http _ _ _ _ _ H).
Qed.

Lemma scrape_news_no_entries (w : World) (kw q : pystr) (days : Z) :
  quote kw = ret q ->
  feedparser_parse w (news_url q) = [] ->
  scrape_news w kw days = ([EvFeedParse (news_url q)], Return []).
Proof.
  intros Hq He. unfold scrape_news. rewrite Hq, bind_ret_l.
  fold (news_url q). rewrite He. reflexivity.
Qed.

(** C6 (the code at a failing input): a news fetch whose upstream does not
    answer with a feed.  [feedparser.parse] does not raise on a non-success
    response or an unreachable host; it returns a result without entries,
    and the adapter reads nothing but the entries.  So the news adapter
    never ends with an HTTPException; with no entries it returns the empty
    list, which the route stores under the request's key like any result
    and serves back with [cached = true] until it expires.  The Reddit
    adapter has the test of the status that would raise: the same request
    for "reddit" at a 503 ends with HTTPException 502 and an untouched
    cache. *)
Theorem C6_news_upstream_failure_is_cached :
  (forall (w : World) (kw : pystr) (days : Z) (l : list event) (e : exn),
     scrape_news w kw days = (l, Raise e) -> is_http_exception e = false) /\
  (forall (w : World) (cache : TTLCache.t) (req : ScrapeRequest) (q : pystr),
     platform req = lit "news" ->
     TTLCache.contains cache (cache_key_of req) (timer w 0) = false ->
     quote (keyword req) = ret q ->
     feedparser_parse w (news_url q) = [] ->
     scrape w cache req =
       (TTLCache.setitem cache (cache_key_of req) [] (timer w 1),
        ([EvFeedParse (news_url q)],
         Return {| cached := false; items := [] |})) /\
     forall w2 : World,
       timer w2 0 < timer w 1 + TTLCache.ttl ->
       timer w2 1 < timer w 1 + TTLCache.ttl ->
       snd (scrape w2 (fst (scrape w cache req)) req) =
       ([], Return {| cached := true; items := [] |})) /\
  (let req := Fixture.request "climate" "news" 7 in
   let url := news_url (lit "climate") in
   feedparser_parse Fixture.offline url = [] /\
   scrape Fixture.offline TTLCache.empty req =
     ([{| TTLCache.lk_key := cache_key_of req; TTLCache.lk_value := [];
          TTLCache.lk_expires := 1 + TTLCache.ttl |}],
      ([EvFeedParse url], Return {| cached := false; items := [] |})) /\
   snd (scrape (Fixture.later Fixture.offline 1000)
          (fst (scrape Fixture.offline TTLCache.empty req)) req) =
     ([], Return {| cached := true; items := [] |}) /\
   scrape (Fixture.with_reddit Fixture.offline
             {| status_code := 503; json := Raise ValueError |})
          TTLCache.empty (Fixture.request "climate" "reddit" 7) =
     (TTLCache.empty,
      (reddit_events (lit "climate"),
       Raise (HTTPException 502 (lit "Reddit fetch failed"))))).
Proof.
  split; [exact scrape_news_no_http|]. split.
  - intros w cache req q Hp Hmiss Hq He.
    assert (Hf : fetch_items w req =
                 ([EvFeedParse (news_url q)], Return [])).
    { unfold fetch_items. rewrite Hp.
      change (pystr_eqb (lit "news") (lit "reddit")) with false.
      rewrite pystr_eqb_refl. cbv iota.
      apply scrape_news_no_entries; assumption. }
    assert (Hs : scrape w cache req =
                 (TTLCache.setitem cache (cache_key_of req) [] (timer w 1),
                  ([EvFeedParse (news_url q)],
                   Return {| cached := false; items := [] |}))).
    { rewrite (scrape_miss _ _ _ Hmiss), Hf. reflexivity. }
    split; [exact Hs|]. intros w2 Ht0 Ht1. rewrite Hs. cbn [fst].
    rewrite scrape_hit.
    + unfold TTLCache.getitem. rewrite find_setitem.
      cbn [TTLCache.lk_expires TTLCache.lk_value].
      apply Z.ltb_lt in Ht1. rewrite Ht1. reflexivity.
    + unfold TTLCache.contains. rewrite find_setitem.
      cbn [TTLCache.lk_expires]. apply Z.ltb_lt. exact Ht0.
  - vm_compute. repeat split; reflexivity.
Qed.

(** ** Text analytics *)

Example hashtags_of_two_texts :
  extract_hashtags FixtureNlp.plain [lit "Love #AI and #ML"; lit "#AI is huge"]
  = [lit "#AI"; lit "#ML"; lit "#AI"].
Proof. vm_compute. reflexivity. Qed.

Example hashtags_edge_cases :
  extract_hashtags FixtureNlp.plain [lit "##a #b#c_d # #"; lit "x#1"]
  = [lit "#a"; lit "#b"; lit "#c_d"; lit "#1"].
Proof. vm_compute. reflexivity. Qed.

Example keywords_fallback :
  returned (extract_keywords FixtureNlp.plain
              [lit "The cat and the dog"; lit "a Cat; THE end to it"])
  = Some [lit "the"; lit "cat"; lit "and"; lit "dog"; lit "end"].
Proof. vm_compute. reflexivity. Qed.

Lemma count_if_cons (f : pystr -> bool) (t : pystr) (l : list pystr) :
  count_if f (t :: l) = (if f t then 1 else 0) + count_if f l.
Proof.
  unfold count_if; cbn [filter]. destruct (f t); cbn [List.length]; lia.
Qed.

(** A score cannot be both at least 0.05 and at most -0.05. *)
Lemma positive_not_negative (nlp : Nlp) (t : pystr) :
  is_positive nlp t = true -> is_negative nlp t = false.
Proof.
  unfold is_positive, is_negative. intros Hp.
  destruct (Qle_bool (polarity_compound nlp t) (- (5 # 100))) eqn:Hn;
    [|reflexivity].
  apply Qle_bool_iff in Hp, Hn. exfalso.
  assert (H : (5 # 100 <= - (5 # 100))%Q) by (eapply Qle_trans; eassumption).
  revert H. unfold Qle; cbn. lia.
Qed.

Lemma sentiment_fold (nlp : Nlp) (texts : list pystr) :
  forall c : Sentiment,
    let c' := fold_left (sentiment_step nlp) texts c in
    positive c' = positive c + count_if (is_positive nlp) texts /\
    negative c' = negative c + count_if (is_negative nlp) texts /\
    neutral c' = neutral c + count_if (is_neutral nlp) texts.
Proof.
  induction texts as [|t ts IH]; intros c; cbv zeta.
  - unfold count_if; cbn. lia.
  - cbn [fold_left]. specialize (IH (sentiment_step nlp c t)). cbv zeta in IH.
    destruct IH as (Hp & Hn & Hz). rewrite Hp, Hn, Hz, !count_if_cons.
    pose proof (positive_not_negative nlp t) as Hex.
    unfold is_neutral. unfold sentiment_step.
    fold (is_positive nlp t). fold (is_negative nlp t).
    destruct (is_positive nlp t);
      [rewrite Hex by reflexivity | destruct (is_negative nlp t)];
      cbn [positive negative neutral negb andb]; lia.
Qed.

Lemma classes_partition (nlp : Nlp) (texts : list pystr) :
  count_if (is_positive nlp) texts + count_if (is_neutral nlp) texts +
  count_if (is_negative nlp) texts = Z.of_nat (List.length texts).
Proof.
  induction texts as [|t ts IH]; [reflexivity|].
  rewrite !count_if_cons. cbn [List.length]. rewrite Nat2Z.inj_succ.
  pose proof (positive_not_negative nlp t) as Hex.
  unfold is_neutral at 1.
  destruct (is_positive nlp t);
    [rewrite Hex by reflexivity | destruct (is_negative nlp t)];
    cbn [negb andb]; lia.
Qed.

Lemma extract_keywords_returns (nlp : Nlp) (texts : list pystr) :
  exists l kw, extract_keywords nlp texts = (l, Return kw).
Proof.
  unfold extract_keywords, bind, emit, ret.
  destruct (_HAS_YAKE nlp); eexists _, _; reflexivity.
Qed.

Lemma named_entities_returns (nlp : Nlp) (texts : list pystr) :
  exists l ents, named_entities nlp texts = (l, Return ents).
Proof.
  unfold named_entities, bind, emit, ret.
  destruct (_HAS_SPACY nlp); eexists _, _; reflexivity.
Qed.

(** The shape of [analyze]'s answer. *)
Lemma analyze_empty (nlp : Nlp) (req_texts : list pystr) :
  filtered req_texts = [] ->
  analyze nlp req_texts = ([], Return zero_report).
Proof. unfold analyze, filtered. intros ->. reflexivity. Qed.

Lemma analyze_nonempty (nlp : Nlp) (req_texts : list pystr) :
  filtered req_texts <> [] ->
  exists l kw ents,
    analyze nlp req_texts =
    (l ++ map EvVader (filtered req_texts),
     Return {| keywords := kw; entities := ents;
               hashtags := extract_hashtags nlp (filtered req_texts);
               sentiment :=
                 fold_left (sentiment_step nlp) (filtered req_texts)
                   {| positive := 0; neutral := 0; negative := 0 |};
               samples := Some (firstn 10 (filtered req_texts)) |}).
Proof.
  unfold analyze. fold (filtered req_texts).
  destruct (filtered req_texts) as [|t ts] eqn:E; [congruence|]. intros _.
  destruct (extract_keywords_returns nlp (t :: ts)) as (l1 & kw & ->).
  destruct (named_entities_returns nlp (t :: ts)) as (l2 & ents & ->).
  exists (l1 ++ l2), kw, ents.
  unfold bind, sentiment_scores, ret.
  rewrite app_nil_r, app_assoc. reflexivity.
Qed.

Example analyze_empty_list :
  analyze FixtureNlp.plain [] = ([], Return zero_report).
Proof. reflexivity. Qed.

Example analyze_whitespace_only :
  analyze FixtureNlp.plain [lit "   "; [9; 10; 160]; []] =
  ([], Return zero_report).
Proof. vm_compute. reflexivity. Qed.

Example analyze_three_texts :
  let r := analyze FixtureNlp.plain
             [lit "+ good #day"; lit "  "; lit "- bad"; lit " plain "] in
  option_map sentiment (returned r) =
    Some {| positive := 1; neutral := 1; negative := 1 |} /\
  option_map samples (returned r) =
    Some (Some [lit "+ good #day"; lit "- bad"; lit " plain "]) /\
  option_map hashtags (returned r) = Some [lit "#day"] /\
  trace r = [EvVader (lit "+ good #day"); EvVader (lit "- bad");
             EvVader (lit " plain ")].
Proof. vm_compute. repeat split; reflexivity. Qed.

(** ** C7: the sentiment counts *)

(** C7: [analyze] returns a report whose sentiment counts are, over the
    texts that are non-empty after trimming, the number of texts with
    compound score >= 0.05 (positive), the number with score <= -0.05
    (negative) and the number of the others (neutral), each text counted
    on its own; the three counts add up to the number of those texts. *)
Theorem C7_sentiment_counts_sum :
  forall (nlp : Nlp) (req_texts : list pystr),
    exists report,
      result (analyze nlp req_texts) = Return report /\
      positive (sentiment report) =
        count_if (is_positive nlp) (filtered req_texts) /\
      negative (sentiment report) =
        count_if (is_negative nlp) (filtered req_texts) /\
      neutral (sentiment report) =
        count_if (is_neutral nlp) (filtered req_texts) /\
      positive (sentiment report) + neutral (sentiment report) +
      negative (sentiment report) =
        Z.of_nat (List.length (filtered req_texts)).
Proof.
  intros nlp req_texts.
  destruct (filtered req_texts) as [|t ts] eqn:E.
  - exists zero_report. rewrite (analyze_empty nlp req_texts E).
    repeat split; reflexivity.
  - assert (Hne : filtered req_texts <> []) by (rewrite E; discriminate).
    destruct (analyze_nonempty nlp req_texts Hne) as (l & kw & ents & ->).
    eexists; split; [reflexivity|]. cbn [sentiment]. rewrite E.
    pose proof (sentiment_fold nlp (t :: ts)
                  {| positive := 0; neutral := 0; negative := 0 |}) as H.
    cbv zeta in H. destruct H as (Hp & Hn & Hz).
    cbn [positive negative neutral] in Hp, Hn, Hz.
    rewrite Hp, Hn, Hz.
    repeat split; try reflexivity.
    rewrite !Z.add_0_l. apply classes_partition.
Qed.

(** ** C8: analyze on an empty batch, and when a library raises *)

Lemma sentiment_step_count (nlp : Nlp) (counts : Sentiment) (t : pystr) :
  sentiment_step nlp counts t =
  sentiment_count counts (polarity_compound nlp t).
Proof. reflexivity. Qed.

Lemma sentiment_loop_returning (nlp : Nlp) (texts : list pystr) :
  forall counts : Sentiment,
    Raising.sentiment_loop (returning nlp) counts texts =
    (map EvVader texts, Return (fold_left (sentiment_step nlp) texts counts)).
Proof.
  induction texts as [|t ts IH]; intros counts; [reflexivity|].
  cbn [Raising.sentiment_loop returning call_vader map fold_left].
  unfold bind, emit, lift. rewrite IH, sentiment_step_count. reflexivity.
Qed.

(** With libraries that return, [Raising.analyze] is [analyze]. *)
Lemma analyze_returning (nlp : Nlp) (req_texts : list pystr) :
  Raising.analyze nlp (returning nlp) req_texts = analyze nlp req_texts.
Proof.
  unfold Raising.analyze, analyze.
  destruct (filter (fun t => truthy (strip t)) req_texts) as [|t ts];
    [reflexivity|].
  assert (Hk : Raising.extract_keywords nlp (returning nlp) (t :: ts) =
               extract_keywords nlp (t :: ts)).
  { unfold Raising.extract_keywords, extract_keywords.
    destruct (_HAS_YAKE nlp); reflexivity. }
  assert (He : Raising.named_entities nlp (returning nlp) (t :: ts) =
               named_entities nlp (t :: ts)).
  { unfold Raising.named_entities, named_entities.
    destruct (_HAS_SPACY nlp); reflexivity. }
  rewrite Hk, He. unfold Raising.sentiment_scores.
  rewrite sentiment_loop_returning. reflexivity.
Qed.

Lemma extract_keywords_result (nlp : Nlp) (calls : NlpCalls)
  (texts : list pystr) :
  Raising.extract_keywords nlp calls texts =
  if _HAS_YAKE nlp then
    ([EvYake (join (lit " ") texts)],
     match call_yake calls (join (lit " ") texts) with
     | Return kws =>
         Return (map fst (sorted_by (fun a b => Qle_bool (snd a) (snd b)) kws))
     | Raise e => Raise e
     end)
  else
    ret (map fst (most_common 20
           (counter (findall_words [] (lower nlp (join (lit " ") texts)))))).
Proof.
  unfold Raising.extract_keywords. destruct (_HAS_YAKE nlp); [|reflexivity].
  unfold bind, emit, lift, ret.
  destruct (call_yake calls (join (lit " ") texts)); reflexivity.
Qed.

Lemma named_entities_result (nlp : Nlp) (calls : NlpCalls)
  (texts : list pystr) :
  Raising.named_entities nlp calls texts =
  if _HAS_SPACY nlp then
    ([EvSpacy (join (lit " ") texts)],
     match call_spacy calls (join (lit " ") texts) with
     | Return ents =>
         Return (distinct
                   (map fst
                      (filter
                         (fun e => existsb (pystr_eqb (snd e)) entity_labels)
                         ents)))
     | Raise e => Raise e
     end)
  else ret [].
Proof.
  unfold Raising.named_entities. destruct (_HAS_SPACY nlp); [|reflexivity].
  unfold bind, emit, lift, ret. cbn [negb].
  destruct (call_spacy calls (join (lit " ") texts)); reflexivity.
Qed.

Lemma sentiment_loop_result (calls : NlpCalls) (texts : list pystr) :
  forall counts : Sentiment,
    match result (Raising.sentiment_loop calls counts texts) with
    | Return _ =>
        forall t, In t texts -> exists score, call_vader calls t = Return score
    | Raise e => exists t, In t texts /\ call_vader calls t = Raise e
    end.
Proof.
  induction texts as [|t ts IH]; intros counts.
  - cbn. intros t [].
  - cbn [Raising.sentiment_loop]. unfold bind, emit, lift, result.
    destruct (call_vader calls t) as [score|e] eqn:E.
    + specialize (IH (sentiment_count counts score)). unfold result in IH.
      destruct (Raising.sentiment_loop calls (sentiment_count counts score) ts)
        as [l [s|e]]; cbn [snd] in *.
      * intros t' [<- | Hin]; [eauto | auto].
      * destruct IH as (t' & Hin & Ht'). exists t'. split; [right|]; auto.
    + cbn [snd]. exists t. split; [left; reflexivity | exact E].
Qed.

Lemma sentiment_loop_trace (calls : NlpCalls) (t : pystr)
  (ts : list pystr) (counts : Sentiment) :
  trace (Raising.sentiment_loop calls counts (t :: ts)) <> [].
Proof.
  cbn [Raising.sentiment_loop]. unfold bind, emit, lift, trace.
  destruct (call_vader calls t) as [score|e]; [|discriminate].
  destruct (Raising.sentiment_loop calls (sentiment_count counts score) ts).
  discriminate.
Qed.

(** The three steps of [analyze] on a batch with a text left. *)
Lemma analyze_steps (nlp : Nlp) (calls : NlpCalls) (req_texts : list pystr) :
  filtered req_texts <> [] ->
  Raising.analyze nlp calls req_texts =
  (kw <- Raising.extract_keywords nlp calls (filtered req_texts) ;;
   ents <- Raising.named_entities nlp calls (filtered req_texts) ;;
   sent <- Raising.sentiment_scores calls (filtered req_texts) ;;
   ret {| keywords := kw; entities := ents;
          hashtags := extract_hashtags nlp (filtered req_texts);
          sentiment := sent;
          samples := Some (firstn 10 (filtered req_texts)) |}).
Proof.
  unfold Raising.analyze. fold (filtered req_texts).
  destruct (filtered req_texts); [congruence | reflexivity].
Qed.

Lemma keywords_step (nlp : Nlp) (calls : NlpCalls) (texts : list pystr) :
  match result (Raising.extract_keywords nlp calls texts) with
  | Return _ =>
      _HAS_YAKE nlp = true ->
      exists kws, call_yake calls (join (lit " ") texts) = Return kws
  | Raise e =>
      _HAS_YAKE nlp = true /\
      call_yake calls (join (lit " ") texts) = Raise e
  end.
Proof.
  rewrite extract_keywords_result.
  destruct (_HAS_YAKE nlp); cbn [result snd]; [|discriminate].
  destruct (call_yake calls (join (lit " ") texts)); eauto.
Qed.

Lemma entities_step (nlp : Nlp) (calls : NlpCalls) (texts : list pystr) :
  match result (Raising.named_entities nlp calls texts) with
  | Return _ =>
      _HAS_SPACY nlp = true ->
      exists ents, call_spacy calls (join (lit " ") texts) = Return ents
  | Raise e =>
      _HAS_SPACY nlp = true /\
      call_spacy calls (join (lit " ") texts) = Raise e
  end.
Proof.
  rewrite named_entities_result.
  destruct (_HAS_SPACY nlp); cbn [result snd]; [|discriminate].
  destruct (call_spacy calls (join (lit " ") texts)); eauto.
Qed.

Lemma analyze_outcome (nlp : Nlp) (calls : NlpCalls)
  (req_texts : list pystr) :
  filtered req_texts <> [] ->
  match result (Raising.analyze nlp calls req_texts) with
  | Return _ => calls_return nlp calls (filtered req_texts)
  | Raise e => call_raises nlp calls (filtered req_texts) e
  end.
Proof.
  intros Hne. rewrite (analyze_steps nlp calls req_texts Hne).
  pose proof (keywords_step nlp calls (filtered req_texts)) as Hk.
  pose proof (entities_step nlp calls (filtered req_texts)) as He.
  pose proof (sentiment_loop_result calls (filtered req_texts)
                {| positive := 0; neutral := 0; negative := 0 |}) as Hs.
  fold (Raising.sentiment_scores calls (filtered req_texts)) in Hs.
  unfold result in *. unfold calls_return, call_raises.
  destruct (Raising.extract_keywords nlp calls (filtered req_texts))
    as [l1 [kw|e1]]; cbn [bind snd] in *; [|left; exact Hk].
  destruct (Raising.named_entities nlp calls (filtered req_texts))
    as [l2 [ents|e2]]; cbn [bind snd] in *; [|right; left; exact He].
  destruct (Raising.sentiment_scores calls (filtered req_texts))
    as [l3 [sent|e3]]; cbn [bind ret snd] in *; [|right; right; exact Hs].
  split; [exact Hk|]. split; [exact He | exact Hs].
Qed.

Lemma analyze_trace (nlp : Nlp) (calls : NlpCalls) (req_texts : list pystr) :
  filtered req_texts <> [] ->
  trace (Raising.analyze nlp calls req_texts) <> [].
Proof.
  intros Hne. rewrite (analyze_steps nlp calls req_texts Hne).
  destruct (filtered req_texts) as [|t ts] eqn:Et; [congruence|].
  rewrite extract_keywords_result, named_entities_result.
  pose proof (sentiment_loop_trace calls t ts
                {| positive := 0; neutral := 0; negative := 0 |}) as Ht.
  fold (Raising.sentiment_scores calls (t :: ts)) in Ht.
  unfold trace in *.
  destruct (_HAS_YAKE nlp).
  { destruct (call_yake calls (join (lit " ") (t :: ts)));
      cbn [bind fst]; [|discriminate].
    match goal with
    | |- context [let (_, _) := ?m in _] => destruct m
    end. discriminate. }
  rewrite bind_ret_l.
  destruct (_HAS_SPACY nlp).
  { destruct (call_spacy calls (join (lit " ") (t :: ts)));
      cbn [bind fst]; [|discriminate].
    match goal with
    | |- context [let (_, _) := ?m in _] => destruct m
    end. discriminate. }
  rewrite bind_ret_l.
  destruct (Raising.sentiment_scores calls (t :: ts)) as [l [s|e]];
    cbn [bind ret fst] in *; [rewrite app_nil_r|]; exact Ht.
Qed.

Lemma calls_return_or_raise (nlp : Nlp) (calls : NlpCalls)
  (texts : list pystr) (e : exn) :
  calls_return nlp calls texts -> call_raises nlp calls texts e -> False.
Proof.
  intros (Hy & Hs & Hv) [(Hon & Hr) | [(Hon & Hr) | (t & Hin & Hr)]].
  - destruct (Hy Hon) as (kws & H). congruence.
  - destruct (Hs Hon) as (ents & H). congruence.
  - destruct (Hv t Hin) as (score & H). congruence.
Qed.

(** A document of [n] letters 'a', longer than spaCy's limit. *)
Lemma analyze_long_document (n : nat) :
  1000000 < Z.of_nat n ->
  filtered [repeat 97 n] = [repeat 97 n] /\
  result (Raising.analyze FixtureCalls.spacy_on FixtureCalls.limited
            [repeat 97 n]) = Raise ValueError.
Proof.
  intros Hn.
  assert (Hf : filtered [repeat 97 n] = [repeat 97 n]).
  { unfold filtered. cbn [filter].
    destruct (truthy (strip (repeat 97 n))) eqn:E; [reflexivity|].
    exfalso. destruct (strip (repeat 97 n)) eqn:Es; [|discriminate].
    apply strip_nil_iff in Es. destruct n as [|m]; [cbn in Hn; lia|].
    cbn in Es. discriminate. }
  split; [exact Hf|].
  rewrite analyze_steps by (rewrite Hf; discriminate).
  rewrite Hf, extract_keywords_result, named_entities_result.
  cbn [_HAS_YAKE _HAS_SPACY FixtureCalls.spacy_on].
  rewrite bind_ret_l.
  cbn [FixtureCalls.limited call_spacy join].
  rewrite repeat_length. apply Z.ltb_lt in Hn. rewrite Hn. reflexivity.
Qed.

(** C8 (as the code has it): when no text is left after trimming and
    filtering (an empty list, or texts that are all whitespace), [analyze]
    returns the zero-valued report and calls no library, whatever the
    libraries would do.  With a text left it calls them, with no handler
    around the calls: it returns a report exactly when every call it makes
    returns (yake and spaCy on the joined texts when they are loaded, VADER
    on each text), and an exception it ends with is one that a library
    raised. *)
Theorem C8_analyze_zero_report_or_library_outcome :
  forall (nlp : Nlp) (calls : NlpCalls) (req_texts : list pystr),
    (filtered req_texts = [] ->
       Raising.analyze nlp calls req_texts =
       ([], Return {| keywords := []; entities := []; hashtags := [];
                      sentiment := {| positive := 0; neutral := 0;
                                      negative := 0 |};
                      samples := None |})) /\
    ((forall t, In t req_texts -> strip t = []) -> filtered req_texts = []) /\
    (filtered req_texts <> [] ->
       ((exists report,
           result (Raising.analyze nlp calls req_texts) = Return report) <->
        calls_return nlp calls (filtered req_texts)) /\
       (forall e,
          result (Raising.analyze nlp calls req_texts) = Raise e ->
          call_raises nlp calls (filtered req_texts) e) /\
       trace (Raising.analyze nlp calls req_texts) <> []).
Proof.
  intros nlp calls req_texts. split; [|split].
  - unfold Raising.analyze, filtered. intros ->. reflexivity.
  - intros Hall. unfold filtered.
    induction req_texts as [|t ts IH]; [reflexivity|].
    cbn [filter]. rewrite (Hall t (or_introl eq_refl)). cbn [truthy].
    apply IH. intros t' Ht'. apply Hall. right; exact Ht'.
  - intros Hne.
    pose proof (analyze_outcome nlp calls req_texts Hne) as Ho.
    split; [|split].
    + split.
      * intros (report & Hr). rewrite Hr in Ho. exact Ho.
      * intros Hc.
        destruct (result (Raising.analyze nlp calls req_texts)) as [r|e];
          [eauto|].
        destruct (calls_return_or_raise _ _ _ _ Hc Ho).
    + intros e Hr. rewrite Hr in Ho. exact Ho.
    + apply analyze_trace; exact Hne.
Qed.

(** C8 (as claimed) fails on a batch of one text of 1,000,001 letters with
    a spaCy model loaded: the text is kept by the filter, spaCy refuses a
    document of that length, and [analyze] ends with its ValueError where
    the claim has it return a report. *)
Lemma C8_counterexample :
  filtered [repeat 97 (Z.to_nat 1000001)] = [repeat 97 (Z.to_nat 1000001)] /\
  result (Raising.analyze FixtureCalls.spacy_on FixtureCalls.limited
            [repeat 97 (Z.to_nat 1000001)]) = Raise ValueError.
Proof.
  apply analyze_long_document. rewrite Z2Nat.id; lia.
Qed.

Example analyze_short_document :
  option_map entities
    (returned (Raising.analyze FixtureCalls.spacy_on FixtureCalls.limited
                 [lit "hello"])) = Some [].
Proof. vm_compute. reflexivity. Qed.

(** ** C9: the samples field *)

(** C9 (as the code has it): [analyze] returns a report; when at least one
    text is left after filtering, its [samples] field is the first 10 of
    those texts, untouched and in their order; when none is left, the
    report has no [samples] field. *)
Theorem C9_samples_first_ten_when_nonempty :
  forall (nlp : Nlp) (req_texts : list pystr),
    exists report,
      result (analyze nlp req_texts) = Return report /\
      samples report =
        match filtered req_texts with
        | [] => None
        | _ :: _ => Some (firstn 10 (filtered req_texts))
        end.
Proof.
  intros nlp req_texts.
  destruct (filtered req_texts) as [|t ts] eqn:E.
  - exists zero_report. rewrite (analyze_empty nlp req_texts E).
    split; reflexivity.
  - assert (Hne : filtered req_texts <> []) by (rewrite E; discriminate).
    destruct (analyze_nonempty nlp req_texts Hne) as (l & kw & ents & ->).
    eexists; split; [reflexivity|]. cbn [samples]. rewrite E. reflexivity.
Qed.

(** C9 (as claimed) fails on an empty batch: the report comes back without
    a [samples] field, where the claim has it equal to the empty list of
    the first 10 filtered texts. *)
Lemma C9_counterexample :
  option_map samples (returned (analyze FixtureNlp.plain [])) = Some None /\
  option_map samples (returned (analyze FixtureNlp.plain [lit "  "]))
    = Some None /\
  firstn 10 (filtered [lit "  "]) = [].
Proof. vm_compute. repeat split; reflexivity. Qed.

(** ** C4: the caps and the recency filter *)

Lemma returned_inv {A} (m : M A) (a : A) :
  returned m = Some a -> exists l, m = (l, Return a).
Proof.
  destruct m as [l [a'|e]]; unfold returned; cbn; intros H; inversion H.
  exists l; reflexivity.
Qed.

Lemma scrape_news_first_entries (w : World) (kw : pystr) (days : Z) :
  scrape_news w kw days = scrape_news (first_entries 50 w) kw days.
Proof.
  unfold scrape_news. cbn [first_entries feedparser_parse utc_now].
  destruct (quote kw) as [l [q|e]]; [|reflexivity].
  unfold bind. rewrite firstn_firstn. reflexivity.
Qed.

Lemma scrape_news_returned (w : World) (kw : pystr) (days : Z)
  (posts : list Post.t) :
  returned (scrape_news w kw days) = Some posts ->
  exists url l,
    news_loop (utc_now w) (utc_now w - timedelta_days days)
      (firstn 50 (feedparser_parse w url)) = (l, Return posts).
Proof.
  intros H. apply returned_inv in H as (l & H). unfold scrape_news in H.
  apply bind_returns in H as (l1 & q & l2 & _ & H & ->).
  apply bind_returns in H as (l3 & u & l4 & _ & H & ->).
  eexists _, _; exact H.
Qed.

(** C4 (as the code has it): the news adapter cuts the feed to its first 50
    entries and only then filters by recency, so it looks at nothing beyond
    the 50th entry and returns at most 50 posts.  The Reddit adapter puts
    its limit of 100 in the upstream request and returns every child of the
    answer that passes its tests, with no cap of its own.  The Twitter
    adapter returns at most 100 posts. *)
Theorem C4_cap_before_filter :
  forall (w : World) (kw : pystr) (days : Z),
    scrape_news w kw days = scrape_news (first_entries 50 w) kw days /\
    (forall posts, returned (scrape_news w kw days) = Some posts ->
       (List.length posts <= 50)%nat) /\
    trace (scrape_reddit w kw days) =
      [EvHttpGet reddit_url reddit_headers
         [(lit "q", JStr kw); (lit "sort", JStr (lit "new"));
          (lit "limit", JInt 100)] 20] /\
    (forall posts, returned (scrape_reddit w kw days) = Some posts ->
       exists r children,
         requests_get w reddit_url reddit_headers (reddit_params kw) 20
           = Return r /\
         json r = Return children /\
         posts = map reddit_post
                   (filter (reddit_keeps (utc_now w - timedelta_days days))
                           children)) /\
    (forall flag posts,
       returned (scrape_twitter w kw days flag) = Some posts ->
       (List.length posts <= 100)%nat).
Proof.
  intros w kw days.
  split; [apply scrape_news_first_entries|].
  split.
  { intros posts H. apply scrape_news_returned in H as (url & l & H).
    apply news_loop_spec in H as [Hlen _].
    pose proof (firstn_le_length 50 (feedparser_parse w url)). lia. }
  split; [apply scrape_reddit_trace|].
  split.
  { intros posts H.
    apply scrape_reddit_returned in H as (r & cs & Hr & _ & Hj & ->).
    exists r, cs. rewrite reddit_loop_filter. auto. }
  intros flag posts. apply scrape_twitter_cap.
Qed.

(** C4 (as claimed) fails: with 50 stale entries ahead of a fresh one, the
    adapter returns nothing, where filtering first and capping after would
    return the fresh entry. *)
Lemma C4_counterexample :
  let w := Fixture.with_feed Fixture.offline
             (repeat Fixture.stale 50 ++ [Fixture.fresh]) in
  returned (scrape_news w (lit "climate") 7) = Some [] /\
  option_map (map Post.text)
    (returned (scrape_news_filter_then_cap w (lit "climate") 7))
    = Some [lit "fresh summary"].
Proof. vm_compute. split; reflexivity. Qed.

(** ** C5: the recency window *)

(** Truncation to whole seconds loses less than a second. *)
Lemma timestamp_int_bound (t : datetime) :
  t < (timestamp_int t + 1) * us_per_second.
Proof.
  unfold timestamp_int, us_per_second.
  pose proof (Z.quot_rem' t 1000000) as E.
  destruct (Z.le_gt_cases 0 t) as [Hpos | Hneg].
  - pose proof (Z.rem_bound_pos t 1000000 Hpos ltac:(lia)). lia.
  - assert (Hrem : Z.rem t 1000000 <= 0)
      by (apply Z.rem_nonpos; lia).
    lia.
Qed.

(** C5 (as the code has it): every post returned by the Reddit or the news
    adapter carries, truncated to whole seconds, an instant that is not
    before now - timeframe_days days, with now read once for the fetch;
    nothing bounds that instant from above.  For a news post the instant is
    the publish time of a feed entry or, for an entry without one, now
    itself. *)
Theorem C5_posts_not_before_cutoff :
  forall (w : World) (kw : pystr) (days : Z) (posts : list Post.t)
         (p : Post.t),
    In p posts ->
    (returned (scrape_reddit w kw days) = Some posts ->
     exists t,
       Post.created_utc p = timestamp_int t /\
       utc_now w - timedelta_days days <= t /\
       utc_now w - timedelta_days days
         < (Post.created_utc p + 1) * us_per_second) /\
    (returned (scrape_news w kw days) = Some posts ->
     exists t,
       Post.created_utc p = timestamp_int t /\
       utc_now w - timedelta_days days <= t /\
       utc_now w - timedelta_days days
         < (Post.created_utc p + 1) * us_per_second /\
       (t = utc_now w \/
        exists url e f,
          In e (firstn 50 (feedparser_parse w url)) /\
          fe_published_parsed e = Some f /\ datetime_of_fields f = Some t)).
Proof.
  intros w kw days posts p Hin. split.
  - intros Hr.
    apply scrape_reddit_returned in Hr as (r & cs & _ & _ & _ & ->).
    rewrite reddit_loop_filter in Hin.
    apply in_map_iff in Hin as (d & <- & Hd).
    apply filter_In in Hd as [_ Hk]. unfold reddit_keeps in Hk.
    apply andb_true_iff in Hk as [Hc _].
    apply negb_true_iff, Z.ltb_ge in Hc.
    exists (reddit_created d). cbn [Post.created_utc reddit_post].
    pose proof (timestamp_int_bound (reddit_created d)).
    repeat split; [exact Hc | lia].
  - intros Hn. apply scrape_news_returned in Hn as (url & l & Hn).
    apply news_loop_spec in Hn as [_ Hall].
    rewrite Forall_forall in Hall.
    destruct (Hall p Hin) as (t & Hc & Hle & Hfrom).
    exists t. pose proof (timestamp_int_bound t).
    repeat split; [exact Hc | exact Hle | rewrite Hc; lia |].
    destruct Hfrom as [-> | (e & f & He & Hf & Hd)]; [left; reflexivity|].
    right; exists url, e, f; auto.
Qed.

(** C5 at a Reddit listing of one child created an hour before now. *)
Lemma C5_witness :
  In (reddit_post FixtureC5.child) [reddit_post FixtureC5.child] /\
  returned (scrape_reddit (FixtureC5.listing [FixtureC5.child])
              (lit "climate") 7)
    = Some [reddit_post FixtureC5.child] /\
  exists t,
    Post.created_utc (reddit_post FixtureC5.child) = timestamp_int t /\
    utc_now (FixtureC5.listing [FixtureC5.child]) - timedelta_days 7 <= t /\
    utc_now (FixtureC5.listing [FixtureC5.child]) - timedelta_days 7
      < (Post.created_utc (reddit_post FixtureC5.child) + 1) * us_per_second.
Proof.
  assert (Hin : In (reddit_post FixtureC5.child)
                   [reddit_post FixtureC5.child]) by (left; reflexivity).
  assert (Hret : returned (scrape_reddit (FixtureC5.listing [FixtureC5.child])
                             (lit "climate") 7)
                 = Some [reddit_post FixtureC5.child])
    by (vm_compute; reflexivity).
  split; [exact Hin|]. split; [exact Hret|].
  exact (proj1
    (C5_posts_not_before_cutoff
       (FixtureC5.listing [FixtureC5.child]) (lit "climate") 7
       [reddit_post FixtureC5.child] (reddit_post FixtureC5.child) Hin)
    Hret).
Defined.

(** C5 (as claimed) fails on both sides of the window.  The Reddit adapter
    returns a child stamped an hour after now: nothing checks the upper
    end.  The Twitter adapter returns a tweet from 21 hours before the
    cutoff: it filters nothing itself, and the [since:] of its query names
    a day, not an instant. *)
Lemma C5_counterexample :
  let wr := FixtureC5.listing [FixtureC5.child_ahead] in
  let wt := FixtureC5.scraper in
  option_map (map Post.created_utc)
    (returned (scrape_reddit wr (lit "climate") 7)) = Some [1700003600] /\
  (1700003600 * us_per_second <=? utc_now wr) = false /\
  scrape_twitter wt (lit "climate") 1 true =
    ([EvSubprocess [lit "snscrape"; lit "--jsonl"; lit "twitter-search";
                    lit "climate since:2023-11-13 lang:en"]],
     Return [twitter_post FixtureC5.early_tweet]) /\
  Post.created_utc (twitter_post FixtureC5.early_tweet) = 1699837200 /\
  (utcnow wt - timedelta_days 1 <=? 1699837200 * us_per_second) = false.
Proof. vm_compute. repeat split; reflexivity. Qed.

(* ================================================================== *)
(** * Further properties of the code *)

(** ** What the adapters put in a post *)

Lemma md5_hex_returns (s ident : pystr) (l : list event) :
  md5_hex s = (l, Return ident) -> md5_hex s = ret ident.
Proof.
  unfold md5_hex. destruct (encode s); [|discriminate].
  intros H; apply ret_inv in H as [_ ->]. reflexivity.
Qed.

Lemma news_loop_posts (now cutoff : datetime) (es : list feed_entry) :
  forall l posts,
    news_loop now cutoff es = (l, Return posts) ->
    Forall (from_entry cutoff es) posts.
Proof.
  induction es as [|e es IH]; intros l posts H.
  - apply ret_inv in H as [_ <-]. constructor.
  - assert (Hweak : forall p, from_entry cutoff es p ->
                              from_entry cutoff (e :: es) p).
    { intros p (e' & pu & li & idt & Hin & Hp & Hl & Hm & Hc).
      exists e', pu, li, idt. simpl; auto 6. }
    cbn [news_loop] in H.
    apply bind_returns in H as (l1 & published & l2 & Hpub & H & ->).
    destruct (Z.ltb_spec published cutoff) as [Hlt | Hge].
    + eapply Forall_impl; [exact Hweak | eapply IH; exact H].
    + apply bind_returns in H as (l3 & link & l4 & Hlink & H & ->).
      apply bind_returns in H as (l5 & ident & l6 & Hid & H & ->).
      apply bind_returns in H as (l7 & its & l8 & Hrec & H & ->).
      apply ret_inv in H as [_ <-].
      constructor.
      * exists e, published, link, ident.
        destruct (fe_link e) as [lk|] eqn:El; [|discriminate].
        apply ret_inv in Hlink as [_ ->].
        apply md5_hex_returns in Hid.
        repeat split; simpl; auto.
      * eapply Forall_impl; [exact Hweak | eapply IH; exact Hrec].
Qed.

(** X1: every post of the Reddit adapter is labelled "reddit", has a
    non-empty text with no whitespace at either end and a permalink under
    https://reddit.com; every post of the news adapter is labelled "news",
    has no author, a text with no whitespace at either end (possibly
    empty), and as id the MD5 of its permalink, or of its text when the
    permalink is empty. *)
Theorem adapter_posts_shape :
  forall (w : World) (kw : pystr) (days : Z) (posts : list Post.t)
         (p : Post.t),
    In p posts ->
    (returned (scrape_reddit w kw days) = Some posts ->
     Post.platform p = lit "reddit" /\
     Post.text p <> [] /\
     strip (Post.text p) = Post.text p /\
     firstn 18 (Post.permalink p) = lit "https://reddit.com") /\
    (returned (scrape_news w kw days) = Some posts ->
     Post.platform p = lit "news" /\
     Post.author p = None /\
     strip (Post.text p) = Post.text p /\
     exists ident,
       Post.id p = Some (JStr ident) /\
       md5_hex (if truthy (Post.permalink p) then Post.permalink p
                else Post.text p) = ret ident).
Proof.
  intros w kw days posts p Hin. split.
  - intros Hr.
    apply scrape_reddit_returned in Hr as (r & cs & _ & _ & _ & ->).
    rewrite reddit_loop_filter in Hin.
    apply in_map_iff in Hin as (d & <- & Hd).
    apply filter_In in Hd as [_ Hk]. unfold reddit_keeps in Hk.
    apply andb_true_iff in Hk as [_ Ht].
    cbn [reddit_post Post.platform Post.text Post.permalink].
    split; [reflexivity|]. split; [apply truthy_nonempty; exact Ht|].
    split; [apply strip_idem | reflexivity].
  - intros Hn. apply scrape_news_returned in Hn as (url & l & Hn).
    apply news_loop_posts in Hn. rewrite Forall_forall in Hn.
    destruct (Hn p Hin) as (e & pu & li & idt & _ & -> & _ & Hm & _).
    cbn [news_post Post.platform Post.author Post.text Post.permalink Post.id].
    split; [reflexivity|]. split; [reflexivity|].
    split; [apply strip_idem|]. exists idt. split; [reflexivity | exact Hm].
Qed.

(** X1 at a Reddit listing of one child. *)
Lemma adapter_posts_shape_witness :
  In (reddit_post FixtureC5.child) [reddit_post FixtureC5.child] /\
  returned (scrape_reddit (FixtureC5.listing [FixtureC5.child])
              (lit "climate") 7)
    = Some [reddit_post FixtureC5.child] /\
  Post.platform (reddit_post FixtureC5.child) = lit "reddit" /\
  Post.text (reddit_post FixtureC5.child) <> [] /\
  strip (Post.text (reddit_post FixtureC5.child))
    = Post.text (reddit_post FixtureC5.child) /\
  firstn 18 (Post.permalink (reddit_post FixtureC5.child))
    = lit "https://reddit.com".
Proof.
  assert (Hin : In (reddit_post FixtureC5.child)
                   [reddit_post FixtureC5.child]) by (left; reflexivity).
  assert (Hret : returned (scrape_reddit (FixtureC5.listing [FixtureC5.child])
                             (lit "climate") 7)
                 = Some [reddit_post FixtureC5.child])
    by (vm_compute; reflexivity).
  split; [exact Hin|]. split; [exact Hret|].
  exact (proj1
    (adapter_posts_shape
       (FixtureC5.listing [FixtureC5.child]) (lit "climate") 7
       [reddit_post FixtureC5.child] (reddit_post FixtureC5.child) Hin)
    Hret).
Defined.

(** ** The Twitter adapter, line by line *)

Lemma twitter_loop_parse (w : World) (lines : list pystr) :
  forall n : nat,
    (n < 100)%nat ->
    twitter_loop w lines n =
    ([], match parse_lines w (firstn (100 - n) lines) with
         | Return tws => Return (map twitter_post tws)
         | Raise e => Raise e
         end).
Proof.
  induction lines as [|line rest IH]; intros n Hn.
  - rewrite firstn_nil. reflexivity.
  - cbn [twitter_loop]. destruct (100 - n)%nat as [|k] eqn:Ek; [lia|].
    cbn [firstn parse_lines]. unfold lift, bind.
    destruct (parse_tweet w line) as [tw|e]; [|reflexivity].
    destruct (Nat.leb_spec 100 (S n)) as [Hfull | Hroom].
    + assert (k = 0%nat) by lia. subst k. reflexivity.
    + rewrite (IH (S n) Hroom). replace (100 - S n)%nat with k by lia.
      destruct (parse_lines w (firstn k rest)); reflexivity.
Qed.

(** With a date in the calendar and a print that returns,
    [Raising.scrape_twitter] is [scrape_twitter]. *)
Lemma scrape_twitter_returning (w : World) (print : exn -> outcome unit)
  (kw : pystr) (days : Z) (flag : bool) :
  minus_days (utcnow w) days = Return (utcnow w - timedelta_days days) ->
  (forall e, print e = Return tt) ->
  Raising.scrape_twitter w print kw days flag = scrape_twitter w kw days flag.
Proof.
  intros Hd Hp. unfold Raising.scrape_twitter, scrape_twitter.
  destruct (negb flag); [reflexivity|].
  rewrite Hd, bind_lift_return.
  unfold try_except.
  match goal with |- context [match ?m with _ => _ end] => destruct m as [l [a|e]] end;
    [reflexivity|].
  unfold bind, emit, lift, ret. rewrite Hp. reflexivity.
Qed.

Lemma minus_days_value (dt : datetime) (days : Z) (d : datetime) :
  minus_days dt days = Return d -> d = dt - timedelta_days days.
Proof.
  unfold minus_days. destruct (_ && _); intros H; inversion H. reflexivity.
Qed.

(** X2: with the flag on, the Twitter adapter reads at most the first 100
    lines of the scraper's output and returns one post per line, in order;
    lines after the 100th are never parsed.  Whatever is raised inside the
    [try] is caught and handed to [print], and the result is then the empty
    list: the date of the query leaving the calendar (the scraper is not
    run then), the scraper failing, or one of those lines not parsing (the
    tweets parsed before it are dropped with it).  The only exception that
    leaves the adapter is one raised by that [print]. *)
Theorem scrape_twitter_by_lines :
  forall (w : World) (print : exn -> outcome unit) (kw : pystr) (days : Z),
    Raising.scrape_twitter w print kw days true =
    match minus_days (utcnow w) days with
    | Raise e => handled print [] e
    | Return _ =>
        match subprocess_run w (twitter_cmd w kw days) with
        | Raise e => handled print [EvSubprocess (twitter_cmd w kw days)] e
        | Return lines =>
            match parse_lines w (firstn 100 lines) with
            | Return tws =>
                ([EvSubprocess (twitter_cmd w kw days)],
                 Return (map twitter_post tws))
            | Raise e =>
                handled print [EvSubprocess (twitter_cmd w kw days)] e
            end
        end
    end /\
    forall l e',
      Raising.scrape_twitter w print kw days true = (l, Raise e') ->
      exists e, print e = Raise e'.
Proof.
  intros w print kw days.
  assert (Hh : forall l e,
            (let (l', o) := (emit (EvPrint e) ;;; lift (print e) ;;; ret [])
             in (l ++ l', o)) = handled print l e).
  { intros l e. unfold handled, bind, emit, lift, ret.
    destruct (print e) as [[]|e']; cbn [app]; rewrite ?app_nil_r;
      reflexivity. }
  assert (Heq : Raising.scrape_twitter w print kw days true =
    match minus_days (utcnow w) days with
    | Raise e => handled print [] e
    | Return _ =>
        match subprocess_run w (twitter_cmd w kw days) with
        | Raise e => handled print [EvSubprocess (twitter_cmd w kw days)] e
        | Return lines =>
            match parse_lines w (firstn 100 lines) with
            | Return tws =>
                ([EvSubprocess (twitter_cmd w kw days)],
                 Return (map twitter_post tws))
            | Raise e =>
                handled print [EvSubprocess (twitter_cmd w kw days)] e
            end
        end
    end).
  { unfold Raising.scrape_twitter. cbn [negb].
    destruct (minus_days (utcnow w) days) as [d|e] eqn:Ed.
    - apply minus_days_value in Ed. subst d.
      rewrite bind_lift_return. fold (twitter_cmd w kw days).
      unfold try_except, bind at 1, emit.
      unfold bind at 1, lift.
      destruct (subprocess_run w (twitter_cmd w kw days)) as [lines|e].
      + rewrite (twitter_loop_parse w lines 0) by lia.
        change (100 - 0)%nat with 100%nat.
        destruct (parse_lines w (firstn 100 lines)) as [tws|e];
          [reflexivity|].
        cbn [app]. apply (Hh [EvSubprocess (twitter_cmd w kw days)] e).
      + cbn [app]. apply (Hh [EvSubprocess (twitter_cmd w kw days)] e).
    - unfold try_except, lift at 1. cbn [bind]. apply (Hh [] e). }
  split; [exact Heq|].
  intros l e' H. rewrite Heq in H.
  assert (Hhandled : forall l0 e0, handled print l0 e0 = (l, Raise e') ->
                                   exists e, print e = Raise e').
  { intros l0 e0 H0. unfold handled in H0. exists e0.
    destruct (print e0); inversion H0. reflexivity. }
  destruct (minus_days (utcnow w) days); [|eauto].
  destruct (subprocess_run w (twitter_cmd w kw days)) as [lines|e]; [|eauto].
  destruct (parse_lines w (firstn 100 lines)); [discriminate | eauto].
Qed.

Example twitter_date_out_of_calendar :
  Raising.scrape_twitter FixtureC5.scraper FixtureConsole.console
    (lit "climate") 1000000 true =
  ([EvPrint (LibraryError (lit "OverflowError"))], Return []).
Proof. vm_compute. reflexivity. Qed.

Example twitter_print_raises :
  result (Raising.scrape_twitter Fixture.offline FixtureConsole.ascii_console
            (lit "climate") 7 true) = Raise UnicodeEncodeError.
Proof. vm_compute. reflexivity. Qed.

Example twitter_bad_third_line :
  let good := FixtureC5.early_tweet in
  let w := Fixture.with_scraper Fixture.offline
             (Return [lit "a"; lit "b"; lit "oops"; lit "c"])
             (fun line => if pystr_eqb line (lit "oops")
                          then Raise ValueError else Return good) in
  result (Raising.scrape_twitter w FixtureConsole.console (lit "climate") 1 true)
    = Return [].
Proof. vm_compute. reflexivity. Qed.

Example minus_days_calendar_bounds :
  minus_days Fixture.now 738837 = Return (-62135516800000000) /\
  minus_days Fixture.now 738838 = Raise (LibraryError (lit "OverflowError")) /\
  option_map date_isoformat
    (match minus_days Fixture.now (-2913221) with
     | Return d => Some d
     | Raise _ => None
     end) = Some (lit "9999-12-31") /\
  minus_days Fixture.now (-2913222)
    = Raise (LibraryError (lit "OverflowError")) /\
  minus_days Fixture.now 1000000000
    = Raise (LibraryError (lit "OverflowError")).
Proof. vm_compute. repeat split; reflexivity. Qed.

(** ** A malformed feed entry *)

Lemma news_loop_well_formed (now cutoff : datetime) (es : list feed_entry) :
  forall l posts,
    news_loop now cutoff es = (l, Return posts) ->
    forall e, In e es -> ~ malformed_entry now cutoff e.
Proof.
  induction es as [|h es IH]; intros l posts H e Hin; [destruct Hin|].
  cbn [news_loop] in H.
  apply bind_returns in H as (l1 & published & l2 & Hpub & H & ->).
  assert (Hrest : exists l' posts', news_loop now cutoff es = (l', Return posts')
                  /\ (cutoff <= published -> exists lk, fe_link h = Some lk)).
  { destruct (Z.ltb_spec published cutoff) as [Hlt | Hge].
    - exists l2, posts. split; [exact H | lia].
    - apply bind_returns in H as (l3 & link & l4 & Hlink & H & ->).
      apply bind_returns in H as (l5 & ident & l6 & _ & H & ->).
      apply bind_returns in H as (l7 & its & l8 & Hrec & _ & ->).
      exists l7, its. split; [exact Hrec|]. intros _.
      destruct (fe_link h) as [lk|]; [eauto | discriminate]. }
  destruct Hrest as (l' & posts' & Hrec & Hlk).
  destruct Hin as [<- | Hin]; [|exact (IH _ _ Hrec e Hin)].
  intros [(f & Hf & Hd) | (Hnl & [(Hnone & Hc) | (f & t & Hf & Hd & Hc)])].
  - rewrite Hf, Hd in Hpub. discriminate.
  - rewrite Hnone in Hpub. apply ret_inv in Hpub as [_ <-].
    destruct (Hlk Hc) as (lk & Hl). congruence.
  - rewrite Hf, Hd in Hpub. apply ret_inv in Hpub as [_ <-].
    destruct (Hlk Hc) as (lk & Hl). congruence.
Qed.

(** X3: one malformed entry among the first 50 of the feed (date fields
    out of range, or inside the window without a link) makes the news
    adapter raise: the entry is not skipped, and the posts of the other
    entries are lost with it. *)
Theorem scrape_news_malformed_entry_raises :
  forall (w : World) (kw q : pystr) (days : Z) (e : feed_entry),
    quote kw = ret q ->
    In e (firstn 50 (feedparser_parse w (news_url q))) ->
    malformed_entry (utc_now w) (utc_now w - timedelta_days days) e ->
    exists l ex, scrape_news w kw days = (l, Raise ex).
Proof.
  intros w kw q days e Hq Hin Hbad.
  unfold scrape_news. rewrite Hq, bind_ret_l. fold (news_url q).
  unfold bind at 1. cbn [emit].
  destruct (news_loop (utc_now w) (utc_now w - timedelta_days days)
              (firstn 50 (feedparser_parse w (news_url q))))
    as [l [posts|ex]] eqn:E.
  - exfalso. exact (news_loop_well_formed _ _ _ _ _ E e Hin Hbad).
  - eexists _, _; reflexivity.
Qed.

(** X3 at a feed whose second entry is undated and has no link. *)
Lemma scrape_news_malformed_entry_witness :
  let bad := {| fe_published_parsed := None; fe_title := Some (lit "t");
                fe_summary := None; fe_link := None |} in
  let w := Fixture.with_feed Fixture.offline [Fixture.fresh; bad] in
  quote (lit "climate") = ret (lit "climate") /\
  In bad (firstn 50 (feedparser_parse w (news_url (lit "climate")))) /\
  malformed_entry (utc_now w) (utc_now w - timedelta_days 7) bad /\
  exists l ex, scrape_news w (lit "climate") 7 = (l, Raise ex).
Proof.
  cbv zeta.
  set (bad := {| fe_published_parsed := None; fe_title := Some (lit "t");
                 fe_summary := None; fe_link := None |}).
  set (w := Fixture.with_feed Fixture.offline [Fixture.fresh; bad]).
  assert (Hq : quote (lit "climate") = ret (lit "climate"))
    by (vm_compute; reflexivity).
  assert (Hin : In bad (firstn 50 (feedparser_parse w (news_url (lit "climate")))))
    by (right; left; reflexivity).
  assert (Hbad : malformed_entry (utc_now w) (utc_now w - timedelta_days 7) bad).
  { right. split; [reflexivity|]. left. split; [reflexivity|].
    vm_compute. discriminate. }
  split; [exact Hq|]. split; [exact Hin|]. split; [exact Hbad|].
  exact (scrape_news_malformed_entry_raises w (lit "climate") (lit "climate")
           7 bad Hq Hin Hbad).
Defined.

(** ** The cache across requests *)

Lemma find_filter_none (k : pystr) (p : TTLCache.link -> bool)
  (c : TTLCache.t) :
  TTLCache.find k c = None -> TTLCache.find k (filter p c) = None.
Proof.
  rewrite !find_none. intros H Hin. apply H.
  apply in_map_iff in Hin as (l & Hk & Hin).
  apply filter_In in Hin as [Hin _]. apply in_map_iff; eauto.
Qed.

Lemma holds_find (c : TTLCache.t) (key : pystr) (v : list Post.t)
  (expires : Z) (n : nat) :
  holds c key v expires n ->
  exists l, TTLCache.find key c = Some l /\ TTLCache.lk_value l = v /\
            TTLCache.lk_expires l = expires.
Proof.
  intros (pre & l & post & -> & Hpre & Hk & Hv & He & _).
  exists l. rewrite find_app, Hpre. cbn [TTLCache.find].
  rewrite Hk, pystr_eqb_refl. auto.
Qed.

Lemma holds_weaken (c : TTLCache.t) (key : pystr) (v : list Post.t)
  (expires : Z) (n m : nat) :
  (n <= m)%nat -> holds c key v expires n -> holds c key v expires m.
Proof.
  intros Hnm (pre & l & post & H1 & H2 & H3 & H4 & H5 & H6).
  exists pre, l, post. repeat split; try assumption. lia.
Qed.

Lemma remove_other (k : pystr) (pre post : TTLCache.t) (l : TTLCache.link) :
  TTLCache.lk_key l <> k ->
  TTLCache.remove k (pre ++ l :: post) =
  TTLCache.remove k pre ++ l :: TTLCache.remove k post.
Proof.
  intros Hne. unfold TTLCache.remove. rewrite filter_app. cbn [filter].
  rewrite (pystr_eqb_neq _ _ Hne). reflexivity.
Qed.

Lemma getitem_keeps (c : TTLCache.t) (key : pystr) (v : list Post.t)
  (expires : Z) (n : nat) (k : pystr) (t : Z) :
  holds c key v expires n ->
  holds (fst (TTLCache.getitem c k t)) key v expires (S n).
Proof.
  intros H. unfold TTLCache.getitem.
  destruct (TTLCache.find k c) as [l'|] eqn:Ef;
    [|apply (holds_weaken _ _ _ _ n); [lia | exact H]].
  assert (Hc : holds (TTLCache.remove k c ++ [l']) key v expires (S n)).
  { destruct H as (pre & l & post & -> & Hpre & Hk & Hv & He & Hn).
    destruct (pystr_eqb (TTLCache.lk_key l) k) eqn:Ek.
    - apply pystr_eqb_spec in Ek.
      assert (l' = l).
      { rewrite find_app in Ef. rewrite <- Ek, Hk, Hpre in Ef.
        cbn [TTLCache.find] in Ef. rewrite Hk, pystr_eqb_refl in Ef.
        congruence. }
      subst l'. exists (TTLCache.remove k (pre ++ l :: post)), l, [].
      repeat split; try assumption; [|simpl; lia].
      rewrite <- Hk, Ek. apply find_remove.
    - assert (Hne : TTLCache.lk_key l <> k).
      { intros E. rewrite E, pystr_eqb_refl in Ek. discriminate. }
      rewrite (remove_other _ _ _ _ Hne), <- app_assoc. cbn [app].
      exists (TTLCache.remove k pre), l, (TTLCache.remove k post ++ [l']).
      repeat split; try assumption.
      + apply find_filter_none; exact Hpre.
      + rewrite length_app. cbn [List.length].
        pose proof (filter_length_le
          (fun l0 => negb (pystr_eqb (TTLCache.lk_key l0) k)) post) as Hle.
        unfold TTLCache.remove. lia. }
  destruct (t <? TTLCache.lk_expires l'); exact Hc.
Qed.

Lemma setitem_keeps (c : TTLCache.t) (key : pystr) (v : list Post.t)
  (expires : Z) (n : nat) (k : pystr) (its : list Post.t) (t : Z) :
  holds c key v expires n ->
  k <> key ->
  (List.length c <= TTLCache.maxsize)%nat ->
  (n < 127)%nat ->
  t < expires ->
  holds (TTLCache.setitem c k its t) key v expires (S n).
Proof.
  intros (pre & l & post & -> & Hpre & Hk & Hv & He & Hn) Hne Hlen Hfew Ht.
  assert (Hlk : TTLCache.lk_key l <> k) by congruence.
  unfold TTLCache.setitem.
  set (entry := {| TTLCache.lk_key := k; TTLCache.lk_value := its;
                   TTLCache.lk_expires := t + TTLCache.ttl |}).
  assert (Hexp : TTLCache.expire (pre ++ l :: post) t =
                 TTLCache.expire pre t ++ l :: TTLCache.expire post t).
  { unfold TTLCache.expire. rewrite filter_app. cbn [filter].
    rewrite He. apply Z.ltb_lt in Ht. rewrite Ht. reflexivity. }
  rewrite Hexp.
  pose proof (filter_length_le (fun l0 => t <? TTLCache.lk_expires l0) pre)
    as Hpl.
  pose proof (filter_length_le (fun l0 => t <? TTLCache.lk_expires l0) post)
    as Hql.
  fold (TTLCache.expire pre t) in Hpl. fold (TTLCache.expire post t) in Hql.
  assert (Hpre' : TTLCache.find key (TTLCache.expire pre t) = None)
    by (apply find_filter_none; exact Hpre).
  rewrite length_app in Hlen. cbn [List.length] in Hlen.
  unfold TTLCache.maxsize in *.
  destruct (TTLCache.find k (TTLCache.expire pre t ++ l :: TTLCache.expire post t)).
  - rewrite (remove_other _ _ _ _ Hlk), <- app_assoc. cbn [app].
    exists (TTLCache.remove k (TTLCache.expire pre t)), l,
           (TTLCache.remove k (TTLCache.expire post t) ++ [entry]).
    repeat split; try assumption.
    + apply find_filter_none; exact Hpre'.
    + rewrite length_app. cbn [List.length].
      pose proof (filter_length_le
        (fun l0 => negb (pystr_eqb (TTLCache.lk_key l0) k))
        (TTLCache.expire post t)) as Hle.
      unfold TTLCache.remove. lia.
  - rewrite length_app. cbn [List.length].
    destruct (TTLCache.expire pre t) as [|x pre'] eqn:Ep.
    + cbn [List.length app] in *.
      replace (S (0 + S (List.length (TTLCache.expire post t))) - 128)%nat
        with 0%nat by lia.
      cbn [skipn app].
      exists [], l, (TTLCache.expire post t ++ [entry]).
      repeat split; try assumption; try reflexivity.
      rewrite length_app. cbn [List.length]. lia.
    + cbn [List.length] in *.
      assert (Hx : TTLCache.find key pre' = None).
      { cbn [TTLCache.find] in Hpre'.
        destruct (pystr_eqb (TTLCache.lk_key x) key); [discriminate|].
        exact Hpre'. }
      destruct (Nat.eq_dec
                  (S (List.length pre') + S (List.length (TTLCache.expire post t)))
                  128) as [Hfull | Hroom].
      * rewrite Hfull. change (S 128 - 128)%nat with 1%nat.
        cbn [skipn app]. rewrite <- app_assoc. cbn [app].
        exists pre', l, (TTLCache.expire post t ++ [entry]).
        repeat split; try assumption.
        rewrite length_app. cbn [List.length]. lia.
      * replace (S (S (List.length pre') +
                    S (List.length (TTLCache.expire post t))) - 128)%nat
          with 0%nat by lia.
        cbn [skipn]. rewrite <- app_assoc. cbn [app].
        exists (x :: pre'), l, (TTLCache.expire post t ++ [entry]).
        repeat split; try assumption.
        rewrite length_app. cbn [List.length]. lia.
Qed.

Lemma getitem_length (c : TTLCache.t) (k : pystr) (t : Z) :
  (List.length (fst (TTLCache.getitem c k t)) <= List.length c)%nat.
Proof.
  unfold TTLCache.getitem.
  destruct (TTLCache.find k c) as [l|] eqn:E; [|cbn [fst]; lia].
  pose proof (remove_length_found _ _ _ E) as Hlt.
  destruct (t <? TTLCache.lk_expires l); cbn [fst];
    rewrite length_app; cbn [List.length]; lia.
Qed.

Lemma setitem_length (c : TTLCache.t) (k : pystr) (v : list Post.t) (t : Z) :
  (List.length c <= TTLCache.maxsize)%nat ->
  (List.length (TTLCache.setitem c k v t) <= TTLCache.maxsize)%nat.
Proof.
  intros Hlen. unfold TTLCache.setitem.
  pose proof (filter_length_le (fun l0 => t <? TTLCache.lk_expires l0) c)
    as Hle.
  fold (TTLCache.expire c t) in Hle.
  destruct (TTLCache.find k (TTLCache.expire c t)) as [l|] eqn:E.
  - pose proof (remove_length_found _ _ _ E) as Hlt.
    rewrite length_app. cbn [List.length]. lia.
  - rewrite length_app, length_skipn. cbn [List.length].
    unfold TTLCache.maxsize in *. lia.
Qed.

Lemma serve_length (c : TTLCache.t) (call : World * ScrapeRequest) :
  (List.length c <= TTLCache.maxsize)%nat ->
  (List.length (serve c call) <= TTLCache.maxsize)%nat.
Proof.
  intros Hlen. destruct call as [w req]. unfold serve. cbn [fst snd].
  destruct (TTLCache.contains c (cache_key_of req) (timer w 0)) eqn:Hc.
  - rewrite (scrape_hit _ _ _ Hc).
    pose proof (getitem_length c (cache_key_of req) (timer w 1)) as Hg.
    destruct (TTLCache.getitem c (cache_key_of req) (timer w 1))
      as [c' [v|e]]; cbn [fst] in *; lia.
  - rewrite (scrape_miss _ _ _ Hc).
    destruct (fetch_items w req) as [l [its|e]]; cbn [fst]; [|exact Hlen].
    apply setitem_length; exact Hlen.
Qed.

Lemma serve_keeps (c : TTLCache.t) (key : pystr) (v : list Post.t)
  (expires : Z) (n : nat) (w : World) (req : ScrapeRequest) :
  holds c key v expires n ->
  (List.length c <= TTLCache.maxsize)%nat ->
  (n < 127)%nat ->
  timer w 0 < expires ->
  timer w 1 < expires ->
  holds (serve c (w, req)) key v expires (S n).
Proof.
  intros H Hlen Hfew Ht0 Ht1. unfold serve. cbn [fst snd].
  destruct (TTLCache.contains c (cache_key_of req) (timer w 0)) eqn:Hc.
  - rewrite (scrape_hit _ _ _ Hc).
    pose proof (getitem_keeps c key v expires n (cache_key_of req)
                  (timer w 1) H) as Hg.
    destruct (TTLCache.getitem c (cache_key_of req) (timer w 1))
      as [c' [x|e]]; exact Hg.
  - rewrite (scrape_miss _ _ _ Hc).
    destruct (fetch_items w req) as [l [its|e]]; cbn [fst];
      [|apply (holds_weaken _ _ _ _ n); [lia | exact H]].
    apply setitem_keeps; try assumption.
    intros Ek. destruct (holds_find _ _ _ _ _ H) as (l0 & Hf & _ & He).
    unfold TTLCache.contains in Hc. rewrite Ek, Hf, He in Hc.
    apply Z.ltb_ge in Hc. lia.
Qed.

Lemma serve_all_keeps (key : pystr) (v : list Post.t) (expires : Z)
  (between : list (World * ScrapeRequest)) :
  forall (c : TTLCache.t) (n : nat),
    holds c key v expires n ->
    (List.length c <= TTLCache.maxsize)%nat ->
    (n + List.length between <= 127)%nat ->
    Forall (fun call => timer (fst call) 0 < expires /\
                        timer (fst call) 1 < expires) between ->
    holds (fold_left serve between c) key v expires
          (n + List.length between).
Proof.
  induction between as [|[w req] rest IH]; intros c n H Hlen Hfew Hall.
  - cbn [fold_left List.length]. rewrite Nat.add_0_r. exact H.
  - cbn [fold_left List.length] in *. inversion Hall as [|? ? [Ht0 Ht1] Hrest]; subst.
    cbn [fst] in Ht0, Ht1.
    replace (n + S (List.length rest))%nat
      with (S n + List.length rest)%nat by lia.
    apply IH; [|apply serve_length; exact Hlen | lia | exact Hrest].
    apply serve_keeps; try assumption. lia.
Qed.

(** X4: a fetch that misses the cache and succeeds answers with
    [cached = false]; the same request again, after fewer than 128 other
    requests were served in between, and while every reading of the timer
    since is within 600 seconds of the moment the result was stored, is
    answered from the cache with [cached = true] and the same items, and
    no call leaves the process.  The bound is the cache's size: 128 other
    keys stored in between evict the entry
    ([repeat_after_127_and_128_others]). *)
Theorem scrape_repeat_is_cached :
  forall (w1 w2 : World) (cache : TTLCache.t) (req : ScrapeRequest)
         (posts : list Post.t) (between : list (World * ScrapeRequest)),
    (List.length cache <= 128)%nat ->
    TTLCache.contains cache (cache_key_of req) (timer w1 0) = false ->
    returned (fetch_items w1 req) = Some posts ->
    (List.length between < 128)%nat ->
    Forall (fun call => timer (fst call) 0 < timer w1 1 + TTLCache.ttl /\
                        timer (fst call) 1 < timer w1 1 + TTLCache.ttl)
           between ->
    timer w2 0 < timer w1 1 + TTLCache.ttl ->
    timer w2 1 < timer w1 1 + TTLCache.ttl ->
    returned (snd (scrape w1 cache req))
      = Some {| cached := false; items := posts |} /\
    snd (scrape w2 (fold_left serve between (fst (scrape w1 cache req))) req)
      = ([], Return {| cached := true; items := posts |}).
Proof.
  intros w1 w2 cache req posts between Hlen Hmiss Hret Hfew Hall Ht0 Ht1.
  apply returned_inv in Hret as (l & Hf).
  rewrite (scrape_miss _ _ _ Hmiss), Hf. cbn [fst snd].
  split; [reflexivity|].
  set (c1 := TTLCache.setitem cache (cache_key_of req) posts (timer w1 1)).
  assert (H1 : holds c1 (cache_key_of req) posts
                 (timer w1 1 + TTLCache.ttl) 0).
  { subst c1. unfold TTLCache.setitem.
    set (entry := {| TTLCache.lk_key := cache_key_of req;
                     TTLCache.lk_value := posts;
                     TTLCache.lk_expires := timer w1 1 + TTLCache.ttl |}).
    destruct (TTLCache.find (cache_key_of req)
                (TTLCache.expire cache (timer w1 1))) eqn:E.
    - exists (TTLCache.remove (cache_key_of req)
                (TTLCache.expire cache (timer w1 1))), entry, [].
      repeat split; [apply find_remove | simpl; lia].
    - eexists _, entry, []. split; [reflexivity|].
      repeat split; [apply find_skipn_none; exact E | simpl; lia]. }
  assert (Hl1 : (List.length c1 <= TTLCache.maxsize)%nat)
    by (apply setitem_length; exact Hlen).
  pose proof (serve_all_keeps _ _ _ between c1 0%nat H1 Hl1
                ltac:(cbn; lia) Hall) as H2.
  destruct (holds_find _ _ _ _ _ H2) as (l2 & Hfind & Hv & He).
  rewrite scrape_hit.
  - unfold TTLCache.getitem. rewrite Hfind, He.
    apply Z.ltb_lt in Ht1. rewrite Ht1, Hv. reflexivity.
  - unfold TTLCache.contains. rewrite Hfind, He. apply Z.ltb_lt. exact Ht0.
Qed.

(** X4 at a news fetch repeated 1000 timer units later, a request for
    another keyword having been served in between. *)
Lemma scrape_repeat_is_cached_witness :
  let w := Fixture.with_feed Fixture.offline [Fixture.fresh] in
  let req := Fixture.request "climate" "news" 7 in
  let between := [(Fixture.later w 500, Fixture.request "weather" "news" 7)] in
  exists posts,
    returned (fetch_items w req) = Some posts /\
    (List.length between < 128)%nat /\
    timer (Fixture.later w 1000) 0 < timer w 1 + TTLCache.ttl /\
    snd (scrape (Fixture.later w 1000)
           (fold_left serve between (fst (scrape w TTLCache.empty req))) req)
      = ([], Return {| cached := true; items := posts |}).
Proof.
  cbv zeta.
  set (w := Fixture.with_feed Fixture.offline [Fixture.fresh]).
  set (req := Fixture.request "climate" "news" 7).
  set (between := [(Fixture.later w 500, Fixture.request "weather" "news" 7)]).
  destruct (returned (fetch_items w req)) as [posts|] eqn:E;
    [|vm_compute in E; discriminate].
  assert (Hlen : (List.length TTLCache.empty <= 128)%nat) by (simpl; lia).
  assert (Hfew : (List.length between < 128)%nat) by (simpl; lia).
  assert (Hall : Forall
            (fun call => timer (fst call) 0 < timer w 1 + TTLCache.ttl /\
                         timer (fst call) 1 < timer w 1 + TTLCache.ttl)
            between)
    by (constructor; [split; vm_compute; reflexivity | constructor]).
  assert (H0 : timer (Fixture.later w 1000) 0 < timer w 1 + TTLCache.ttl)
    by (vm_compute; reflexivity).
  assert (H1 : timer (Fixture.later w 1000) 1 < timer w 1 + TTLCache.ttl)
    by (vm_compute; reflexivity).
  exists posts. split; [reflexivity|]. split; [exact Hfew|].
  split; [exact H0|].
  exact (proj2 (scrape_repeat_is_cached w (Fixture.later w 1000)
                  TTLCache.empty req posts between Hlen eq_refl E Hfew Hall
                  H0 H1)).
Defined.

(** The bound of X4 is sharp: after 127 other requests the repeat is still
    answered from the cache, after 128 it is fetched again. *)
Example repeat_after_127_and_128_others :
  let w := Fixture.with_feed Fixture.offline [Fixture.fresh] in
  let req := Fixture.request "climate" "news" 7 in
  let c1 := fst (scrape w TTLCache.empty req) in
  option_map cached
    (returned (snd (scrape w (fold_left serve (others 127) c1) req)))
    = Some true /\
  option_map cached
    (returned (snd (scrape w (fold_left serve (others 128) c1) req)))
    = Some false.
Proof. vm_compute. split; reflexivity. Qed.

(** X5: once 600 seconds have passed since a result was stored, the same
    request is a miss again: it goes back to the adapter, and what it
    answers has [cached = false]. *)
Theorem scrape_after_ttl_refetches :
  forall (w1 w2 : World) (cache : TTLCache.t) (req : ScrapeRequest)
         (posts : list Post.t),
    TTLCache.contains cache (cache_key_of req) (timer w1 0) = false ->
    returned (fetch_items w1 req) = Some posts ->
    timer w1 1 + TTLCache.ttl <= timer w2 0 ->
    snd (scrape w2 (fst (scrape w1 cache req)) req) =
    match fetch_items w2 req with
    | (l, Return its) => (l, Return {| cached := false; items := its |})
    | (l, Raise e) => (l, Raise e)
    end.
Proof.
  intros w1 w2 cache req posts Hmiss Hret Ht.
  apply returned_inv in Hret as (l & Hf).
  rewrite (scrape_miss _ _ _ Hmiss), Hf. cbn [fst].
  rewrite scrape_miss.
  - destruct (fetch_items w2 req) as [l' [its|e]]; reflexivity.
  - unfold TTLCache.contains. rewrite find_setitem. cbn [TTLCache.lk_expires].
    apply Z.ltb_ge. exact Ht.
Qed.

(** X5 at a news fetch repeated 600 seconds later. *)
Lemma scrape_after_ttl_refetches_witness :
  let w := Fixture.with_feed Fixture.offline [Fixture.fresh] in
  let w' := Fixture.later w (1 + TTLCache.ttl) in
  let req := Fixture.request "climate" "news" 7 in
  exists posts,
    returned (fetch_items w req) = Some posts /\
    timer w 1 + TTLCache.ttl <= timer w' 0 /\
    returned (snd (scrape w' (fst (scrape w TTLCache.empty req)) req))
      = Some {| cached := false; items := posts |}.
Proof.
  cbv zeta.
  set (w := Fixture.with_feed Fixture.offline [Fixture.fresh]).
  set (req := Fixture.request "climate" "news" 7).
  destruct (returned (fetch_items w req)) as [posts|] eqn:E;
    [|vm_compute in E; discriminate].
  assert (Ht : timer w 1 + TTLCache.ttl
               <= timer (Fixture.later w (1 + TTLCache.ttl)) 0)
    by (vm_compute; discriminate).
  exists posts. split; [reflexivity|]. split; [exact Ht|].
  rewrite (scrape_after_ttl_refetches w (Fixture.later w (1 + TTLCache.ttl))
             TTLCache.empty req posts eq_refl E Ht).
  change (fetch_items (Fixture.later w (1 + TTLCache.ttl)) req)
    with (fetch_items w req).
  apply returned_inv in E as (l & ->). reflexivity.
Defined.

(** X18: on a cache miss, a fetch whose adapter raises ends with that
    exception for the caller, leaves the cache exactly as it was, and the
    cache holds no live entry for the request's key, then or at any later
    reading of the timer.  The upstream failure the adapters raise on is
    Reddit answering with a status other than 200: the fetch then ends with
    HTTPException 502. *)
Theorem scrape_failure_not_cached :
  forall (w : World) (cache : TTLCache.t) (req : ScrapeRequest),
    TTLCache.contains cache (cache_key_of req) (timer w 0) = false ->
    (forall l e,
       fetch_items w req = (l, Raise e) ->
       scrape w cache req = (cache, (l, Raise e)) /\
       forall t, timer w 0 <= t ->
         TTLCache.contains (fst (scrape w cache req)) (cache_key_of req) t
         = false) /\
    (forall r,
       platform req = lit "reddit" ->
       requests_get w reddit_url reddit_headers
         (reddit_params (keyword req)) 20 = Return r ->
       status_code r <> 200 ->
       scrape w cache req =
       (cache, (reddit_events (keyword req),
                Raise (HTTPException 502 (lit "Reddit fetch failed"))))).
Proof.
  intros w cache req Hmiss. split.
  - intros l e Hf.
    pose proof (scrape_fetch_raises w cache req l e Hmiss Hf) as Hs.
    split; [exact Hs|]. intros t Ht. rewrite Hs. cbn [fst].
    eapply contains_false_later; eassumption.
  - intros r Hp Hget Hstatus.
    apply scrape_fetch_raises; [exact Hmiss|].
    unfold fetch_items. rewrite Hp, pystr_eqb_refl.
    apply scrape_reddit_not_200 with (r := r); assumption.
Qed.

(** X18 at a Reddit answer with status 429, on an empty cache. *)
Lemma scrape_failure_not_cached_witness :
  let w := Fixture.with_reddit Fixture.offline
             {| status_code := 429; json := Raise ValueError |} in
  let req := Fixture.request "climate" "reddit" 7 in
  TTLCache.contains TTLCache.empty (cache_key_of req) (timer w 0) = false /\
  platform req = lit "reddit" /\
  status_code {| status_code := 429; json := Raise ValueError |} <> 200 /\
  scrape w TTLCache.empty req =
    (TTLCache.empty,
     (reddit_events (keyword req),
      Raise (HTTPException 502 (lit "Reddit fetch failed")))).
Proof.
  cbv zeta.
  assert (Hs : status_code {| status_code := 429; json := Raise ValueError |}
               <> 200) by (cbn; discriminate).
  split; [reflexivity|]. split; [reflexivity|]. split; [exact Hs|].
  exact (proj2
    (scrape_failure_not_cached
       (Fixture.with_reddit Fixture.offline
          {| status_code := 429; json := Raise ValueError |})
       TTLCache.empty (Fixture.request "climate" "reddit" 7) eq_refl)
    {| status_code := 429; json := Raise ValueError |}
    eq_refl eq_refl Hs).
Defined.

Lemma NoDup_map_filter {K V} (key : V -> K) (keep : V -> bool)
  (c : list V) :
  NoDup (map key c) -> NoDup (map key (filter keep c)).
Proof.
  induction c as [|x c IH]; simpl; [auto|].
  intros H; inversion H as [|? ? Hx Hl]; subst.
  destruct (keep x); simpl; [|auto].
  constructor; [|auto]. intros Hin. apply Hx.
  apply in_map_iff in Hin as (y & Hy & Hin).
  apply filter_In in Hin as [Hin _]. apply in_map_iff; eauto.
Qed.

Lemma NoDup_map_skipn {A B} (f : A -> B) (n : nat) (l : list A) :
  NoDup (map f l) -> NoDup (map f (skipn n l)).
Proof.
  intros H. rewrite <- (firstn_skipn n l), map_app in H.
  apply NoDup_app_remove_l in H. exact H.
Qed.

Lemma NoDup_snoc {A} (l : list A) (x : A) :
  NoDup l -> ~ In x l -> NoDup (l ++ [x]).
Proof.
  induction l as [|y l IH]; simpl; intros Hl Hx.
  - constructor; [intros [] | constructor].
  - inversion Hl as [|? ? Hy Hl']; subst. constructor.
    + intros Hin. apply in_app_or in Hin as [Hin | [-> | []]]; tauto.
    + apply IH; tauto.
Qed.

Lemma getitem_ok (calls : list (World * ScrapeRequest)) (c : TTLCache.t)
  (k : pystr) (t : Z) :
  cache_ok calls c -> cache_ok calls (fst (TTLCache.getitem c k t)).
Proof.
  intros (Hlen & Hnd & Hall). unfold TTLCache.getitem.
  destruct (TTLCache.find k c) as [l|] eqn:E; [|repeat split; assumption].
  assert (Hc : cache_ok calls (TTLCache.remove k c ++ [l])).
  { destruct (find_some _ _ _ E) as [Hin Hk].
    pose proof (remove_length_found _ _ _ E) as Hlt.
    split; [|split].
    - rewrite length_app. simpl. lia.
    - rewrite map_app. simpl. apply NoDup_snoc.
      + apply NoDup_map_filter; exact Hnd.
      + rewrite Hk. apply find_none, find_remove.
    - apply Forall_app. split.
      + unfold TTLCache.remove. rewrite Forall_forall in *.
        intros x Hx. apply filter_In in Hx as [Hx _]. auto.
      + constructor; [|constructor]. rewrite Forall_forall in Hall. auto. }
  destruct (t <? TTLCache.lk_expires l); exact Hc.
Qed.

Lemma setitem_ok (calls : list (World * ScrapeRequest)) (c : TTLCache.t)
  (k : pystr) (v : list Post.t) (t : Z) :
  cache_ok calls c ->
  entry_from calls {| TTLCache.lk_key := k; TTLCache.lk_value := v;
                      TTLCache.lk_expires := t + TTLCache.ttl |} ->
  cache_ok calls (TTLCache.setitem c k v t).
Proof.
  intros (Hlen & Hnd & Hall) Hentry. unfold TTLCache.setitem.
  set (c1 := TTLCache.expire c t).
  assert (Hlen1 : (List.length c1 <= TTLCache.maxsize)%nat).
  { subst c1. unfold TTLCache.expire.
    pose proof (filter_length_le
      (fun l => t <? TTLCache.lk_expires l) c). lia. }
  assert (Hnd1 : NoDup (map TTLCache.lk_key c1))
    by (apply NoDup_map_filter; exact Hnd).
  assert (Hall1 : Forall (entry_from calls) c1).
  { subst c1. unfold TTLCache.expire. rewrite Forall_forall in *.
    intros x Hx. apply filter_In in Hx as [Hx _]. auto. }
  destruct (TTLCache.find k c1) as [l|] eqn:E.
  - pose proof (remove_length_found _ _ _ E) as Hlt.
    split; [|split].
    + rewrite length_app. simpl. lia.
    + rewrite map_app. simpl. apply NoDup_snoc.
      * apply NoDup_map_filter; exact Hnd1.
      * apply find_none, find_remove.
    + apply Forall_app. split; [|constructor; [exact Hentry | constructor]].
      unfold TTLCache.remove. rewrite Forall_forall in *.
      intros x Hx. apply filter_In in Hx as [Hx _]. auto.
  - split; [|split].
    + rewrite length_app, length_skipn. simpl.
      unfold TTLCache.maxsize in *. lia.
    + rewrite map_app. simpl. apply NoDup_snoc.
      * apply NoDup_map_skipn; exact Hnd1.
      * apply find_none, find_skipn_none; exact E.
    + apply Forall_app. split; [|constructor; [exact Hentry | constructor]].
      rewrite Forall_forall in *. intros x Hx. apply Hall1.
      rewrite <- (firstn_skipn (S (List.length c1) - TTLCache.maxsize) c1).
      apply in_or_app. right; exact Hx.
Qed.

Lemma entry_from_more (calls : list (World * ScrapeRequest))
  (call : World * ScrapeRequest) (l : TTLCache.link) :
  entry_from calls l -> entry_from (calls ++ [call]) l.
Proof.
  intros (w & req & Hin & H). exists w, req.
  split; [apply in_or_app; left; exact Hin | exact H].
Qed.

Lemma serve_ok (calls : list (World * ScrapeRequest)) (c : TTLCache.t)
  (call : World * ScrapeRequest) :
  cache_ok calls c -> cache_ok (calls ++ [call]) (serve c call).
Proof.
  intros (Hlen & Hnd & Hall). destruct call as [w req].
  assert (Hok : cache_ok (calls ++ [(w, req)]) c).
  { repeat split; try assumption.
    eapply Forall_impl; [|exact Hall]. intros l; apply entry_from_more. }
  unfold serve. cbn [fst snd].
  destruct (TTLCache.contains c (cache_key_of req) (timer w 0)) eqn:Hc.
  - rewrite (scrape_hit _ _ _ Hc).
    pose proof (getitem_ok (calls ++ [(w, req)]) c (cache_key_of req)
                  (timer w 1) Hok) as Hg.
    destruct (TTLCache.getitem c (cache_key_of req) (timer w 1))
      as [c' [v|e]]; exact Hg.
  - rewrite (scrape_miss _ _ _ Hc).
    destruct (fetch_items w req) as [l [its|e]] eqn:Hf; cbn [fst];
      [|exact Hok].
    apply setitem_ok; [exact Hok|].
    exists w, req.
    cbn [TTLCache.lk_key TTLCache.lk_value TTLCache.lk_expires].
    split; [apply in_or_app; right; left; reflexivity|].
    split; [reflexivity|]. split; [|reflexivity].
    unfold returned. rewrite Hf. reflexivity.
Qed.

Lemma cache_after_snoc (calls : list (World * ScrapeRequest))
  (call : World * ScrapeRequest) :
  cache_after (calls ++ [call]) = serve (cache_after calls) call.
Proof. unfold cache_after. rewrite fold_left_app. reflexivity. Qed.

Lemma cache_after_ok (calls : list (World * ScrapeRequest)) :
  cache_ok calls (cache_after calls).
Proof.
  induction calls as [|call calls IH] using rev_ind.
  - repeat split; [simpl; lia | constructor | constructor].
  - rewrite cache_after_snoc. apply serve_ok. exact IH.
Qed.

Lemma fetch_items_returned_platform (w : World) (req : ScrapeRequest)
  (posts : list Post.t) :
  returned (fetch_items w req) = Some posts ->
  platform req = lit "reddit" \/ platform req = lit "news".
Proof.
  unfold fetch_items.
  destruct (pystr_eqb (platform req) (lit "reddit")) eqn:Er;
    [apply pystr_eqb_spec in Er; auto|].
  destruct (pystr_eqb (platform req) (lit "news")) eqn:En;
    [apply pystr_eqb_spec in En; auto|].
  rewrite req_getattr_flag. discriminate.
Qed.

(** X6: whatever requests a process has served, its cache holds at most
    128 entries, at most one per key, and every entry is the list an
    adapter returned for a "reddit" or "news" request of that history with
    that key, due to expire 600 seconds after it was stored.  Nothing is
    ever stored for another platform, or for a fetch that raised. *)
Theorem cache_invariant :
  forall calls : list (World * ScrapeRequest),
    (List.length (cache_after calls) <= 128)%nat /\
    NoDup (map TTLCache.lk_key (cache_after calls)) /\
    forall l, In l (cache_after calls) ->
      exists w req,
        In (w, req) calls /\
        TTLCache.lk_key l = cache_key_of req /\
        returned (fetch_items w req) = Some (TTLCache.lk_value l) /\
        TTLCache.lk_expires l = timer w 1 + 600 * 1000000000 /\
        (platform req = lit "reddit" \/ platform req = lit "news").
Proof.
  intros calls. destruct (cache_after_ok calls) as (Hlen & Hnd & Hall).
  split; [exact Hlen|]. split; [exact Hnd|].
  intros l Hin. rewrite Forall_forall in Hall.
  destruct (Hall l Hin) as (w & req & Hc & Hk & Hv & He).
  exists w, req. repeat split; try assumption.
  eapply fetch_items_returned_platform; exact Hv.
Qed.

Example cache_after_three_requests :
  let w := Fixture.with_feed Fixture.offline [Fixture.fresh] in
  map TTLCache.lk_key
    (cache_after [(w, Fixture.request "climate" "news" 7);
                  (Fixture.later w 10, Fixture.request "climate" "twitter" 7);
                  (Fixture.later w 20, Fixture.request "ai" "news" 7);
                  (Fixture.later w 30, Fixture.request "climate" "news" 7)])
  = [cache_key_of (Fixture.request "ai" "news" 7);
     cache_key_of (Fixture.request "climate" "news" 7)].
Proof. vm_compute. reflexivity. Qed.

(** ** The shape of the digests *)

Lemma hex_length (k : nat) (n : Z) : List.length (hex k n) = k.
Proof.
  revert n; induction k as [|k IH]; intros n; simpl; [reflexivity|].
  rewrite length_app, IH. simpl. lia.
Qed.

Lemma hex_is_lower_hex (k : nat) (n : Z) :
  Forall (fun c => is_lower_hex c = true) (hex k n).
Proof.
  revert n; induction k as [|k IH]; intros n; simpl; [constructor|].
  apply Forall_app. split; [apply IH|]. constructor; [|constructor].
  assert (H : 0 <= Z.land n 15 < 16).
  { change 15 with (Z.ones 4). rewrite Z.land_ones by lia.
    apply Z.mod_pos_bound; reflexivity. }
  unfold is_lower_hex, hex_digit.
  destruct (Z.ltb_spec (Z.land n 15) 10);
    apply orb_true_iff; [left | right]; apply andb_true_iff;
    split; apply Z.leb_le; lia.
Qed.

Lemma flat_map_hex_length (k : nat) (l : list Z) :
  List.length (flat_map (hex k) l) = (k * List.length l)%nat.
Proof.
  induction l as [|x l IH]; simpl; [lia|].
  rewrite length_app, hex_length, IH. lia.
Qed.

Lemma flat_map_hex_is_lower_hex (k : nat) (l : list Z) :
  Forall (fun c => is_lower_hex c = true) (flat_map (hex k) l).
Proof.
  induction l as [|x l IH]; simpl; [constructor|].
  apply Forall_app. split; [apply hex_is_lower_hex | exact IH].
Qed.

Lemma fold_left_length {A B} (f : list A -> B -> list A) (l : list B) :
  (forall st b, List.length (f st b) = List.length st) ->
  forall st, List.length (fold_left f l st) = List.length st.
Proof.
  intros Hf. induction l as [|b l IH]; intros st; simpl; [reflexivity|].
  rewrite IH. apply Hf.
Qed.

Lemma sha256_round_length (st : list Z) (kw : Z * Z) :
  List.length (Sha256.round st kw) = List.length st.
Proof.
  unfold Sha256.round.
  do 9 (destruct st as [|? st]; try reflexivity).
Qed.

Lemma sha256_compress_length (st block : list Z) :
  List.length (Sha256.compress st block) = List.length st.
Proof.
  unfold Sha256.compress. rewrite length_map, length_combine.
  rewrite (fold_left_length Sha256.round _ sha256_round_length). lia.
Qed.

Lemma sha256_hexdigest_length (msg : pybytes) :
  List.length (Sha256.hexdigest msg) = 64%nat.
Proof.
  unfold Sha256.hexdigest, Sha256.digest_words.
  rewrite flat_map_hex_length.
  rewrite (fold_left_length Sha256.compress _ sha256_compress_length).
  reflexivity.
Qed.

Lemma md5_step_length (block st : list Z) (i : Z) :
  List.length (Md5.step block st i) = List.length st.
Proof.
  unfold Md5.step.
  do 5 (destruct st as [|? st]; try reflexivity).
  repeat match goal with
  | |- context [if ?b then _ else _] => destruct b
  end; reflexivity.
Qed.

Lemma md5_compress_length (st block : list Z) :
  List.length (Md5.compress st block) = List.length st.
Proof.
  unfold Md5.compress. rewrite length_map, length_combine.
  rewrite (fold_left_length (Md5.step block) _ (md5_step_length block)). lia.
Qed.

Lemma le_bytes_length (k : nat) (n : Z) : List.length (Md5.le_bytes k n) = k.
Proof.
  revert n; induction k as [|k IH]; intros n; simpl; [reflexivity|].
  rewrite IH. reflexivity.
Qed.

Lemma md5_hexdigest_length (msg : pybytes) :
  List.length (Md5.hexdigest msg) = 32%nat.
Proof.
  unfold Md5.hexdigest. rewrite flat_map_hex_length.
  assert (H : forall l : list Z,
             List.length (flat_map (Md5.le_bytes 4) l)
             = (4 * List.length l)%nat).
  { induction l as [|x l IH]; [reflexivity|].
    cbn [flat_map]. rewrite length_app, le_bytes_length, IH.
    cbn [List.length]. lia. }
  rewrite H.
  rewrite (fold_left_length Md5.compress _ md5_compress_length).
  reflexivity.
Qed.

(** X7: for every request, whatever characters its keyword and platform
    hold, computing the cache key does not raise, and the key is a string
    of 64 lowercase hexadecimal digits. *)
Theorem cache_key_is_64_hex_digits :
  forall req : ScrapeRequest,
    exists key,
      _cache_key (lit "scrape") (req_dict req) = ([], Return key) /\
      List.length key = 64%nat /\
      Forall (fun c => is_lower_hex c = true) key.
Proof.
  intros req. exists (cache_key_of req).
  split; [apply cache_key_returns|]. unfold cache_key_of.
  split; [apply sha256_hexdigest_length|].
  unfold Sha256.hexdigest. apply flat_map_hex_is_lower_hex.
Qed.

(** X8: the id of every post of the news adapter is a string of 32
    lowercase hexadecimal digits. *)
Theorem news_id_is_32_hex_digits :
  forall (w : World) (kw : pystr) (days : Z) (posts : list Post.t)
         (p : Post.t),
    returned (scrape_news w kw days) = Some posts ->
    In p posts ->
    exists ident,
      Post.id p = Some (JStr ident) /\
      List.length ident = 32%nat /\
      Forall (fun c => is_lower_hex c = true) ident.
Proof.
  intros w kw days posts p Hn Hin.
  apply scrape_news_returned in Hn as (url & l & Hn).
  apply news_loop_posts in Hn. rewrite Forall_forall in Hn.
  destruct (Hn p Hin) as (e & pu & li & idt & _ & -> & _ & Hm & _).
  exists idt. split; [reflexivity|].
  unfold md5_hex in Hm.
  destruct (encode _) as [b|]; [|discriminate].
  apply ret_inv in Hm as [_ <-].
  split; [apply md5_hexdigest_length|].
  unfold Md5.hexdigest. apply flat_map_hex_is_lower_hex.
Qed.

(** X8 at a feed of one fresh entry. *)
Lemma news_id_is_32_hex_digits_witness :
  let w := Fixture.with_feed Fixture.offline [Fixture.fresh] in
  exists posts p ident,
    returned (scrape_news w (lit "climate") 7) = Some posts /\
    In p posts /\
    Post.id p = Some (JStr ident) /\ List.length ident = 32%nat.
Proof.
  cbv zeta.
  set (w := Fixture.with_feed Fixture.offline [Fixture.fresh]).
  destruct (returned (scrape_news w (lit "climate") 7)) as [posts|] eqn:E;
    [|vm_compute in E; discriminate].
  destruct posts as [|p rest] eqn:Ep; [vm_compute in E; discriminate|].
  assert (Hin : In p (p :: rest)) by (left; reflexivity).
  destruct (news_id_is_32_hex_digits w (lit "climate") 7 (p :: rest) p E Hin)
    as (ident & Hid & Hlen & _).
  exists (p :: rest), p, ident. auto.
Defined.

(** ** The order of the payload's keys *)

Lemma pystr_ltb_irrefl (a : pystr) : pystr_ltb a a = false.
Proof.
  induction a as [|x a IH]; simpl; [reflexivity|].
  rewrite Z.ltb_irrefl, Z.eqb_refl, IH. reflexivity.
Qed.

Lemma pystr_ltb_trans (a b c : pystr) :
  pystr_ltb a b = true -> pystr_ltb b c = true -> pystr_ltb a c = true.
Proof.
  revert b c; induction a as [|x a IH]; intros [|y b] [|z c]; simpl;
    try discriminate; auto.
  rewrite !orb_true_iff, !andb_true_iff, !Z.ltb_lt, !Z.eqb_eq.
  intros [Hxy | [Hxy Hab]] [Hyz | [Hyz Hbc]]; try (left; lia).
  right. split; [lia | eapply IH; eassumption].
Qed.

Lemma pystr_ltb_total (a b : pystr) :
  a <> b -> pystr_ltb a b = true \/ pystr_ltb b a = true.
Proof.
  revert b; induction a as [|x a IH]; intros [|y b] Hne; simpl; auto;
    try congruence.
  rewrite !orb_true_iff, !andb_true_iff, !Z.ltb_lt, !Z.eqb_eq.
  destruct (Z.lt_trichotomy x y) as [H | [H | H]]; [tauto | | tauto].
  subst y. assert (Hab : a <> b) by congruence.
  destruct (IH b Hab); tauto.
Qed.

Lemma pystr_ltb_asym (a b : pystr) :
  pystr_ltb a b = true -> pystr_ltb b a = false.
Proof.
  intros H. destruct (pystr_ltb b a) eqn:E; [|reflexivity].
  pose proof (pystr_ltb_trans _ _ _ H E) as Haa.
  rewrite pystr_ltb_irrefl in Haa. discriminate.
Qed.

Lemma insert_item_cons (a h : pystr * value) (t : Json.dict) :
  insert_item a (h :: t) =
  if pystr_ltb (fst a) (fst h) then a :: h :: t else h :: insert_item a t.
Proof. reflexivity. Qed.

Lemma insert_item_comm (a b : pystr * value) (l : Json.dict) :
  fst a <> fst b ->
  insert_item a (insert_item b l) = insert_item b (insert_item a l).
Proof.
  intros Hne.
  assert (Hab : (pystr_ltb (fst a) (fst b) = true /\
                 pystr_ltb (fst b) (fst a) = false) \/
                (pystr_ltb (fst b) (fst a) = true /\
                 pystr_ltb (fst a) (fst b) = false)).
  { destruct (pystr_ltb_total _ _ Hne) as [H | H];
      [left | right]; (split; [exact H | apply pystr_ltb_asym; exact H]). }
  induction l as [|h t IH].
  - cbn [insert_item]. destruct Hab as [[H1 H2] | [H1 H2]];
      rewrite H1, H2; reflexivity.
  - rewrite (insert_item_cons b h t), (insert_item_cons a h t).
    destruct (pystr_ltb (fst b) (fst h)) eqn:Ebh;
    destruct (pystr_ltb (fst a) (fst h)) eqn:Eah;
    rewrite ?insert_item_cons, ?Ebh, ?Eah.
    + destruct Hab as [[H1 H2] | [H1 H2]]; rewrite H1, H2;
        rewrite ?insert_item_cons, ?Ebh, ?Eah; reflexivity.
    + destruct (pystr_ltb (fst a) (fst b)) eqn:Eab.
      * rewrite (pystr_ltb_trans _ _ _ Eab Ebh) in Eah. discriminate.
      * rewrite ?insert_item_cons, ?Eah. reflexivity.
    + destruct (pystr_ltb (fst b) (fst a)) eqn:Eba.
      * rewrite (pystr_ltb_trans _ _ _ Eba Eah) in Ebh. discriminate.
      * rewrite ?insert_item_cons, ?Ebh. reflexivity.
    + rewrite IH. reflexivity.
Qed.

Lemma sort_items_permutation (d d' : Json.dict) :
  Permutation d d' -> NoDup (map fst d) -> sort_items d = sort_items d'.
Proof.
  induction 1 as [|x l l' Hp IH|x y l|l l' l'' Hp1 IH1 Hp2 IH2];
    intros Hnd.
  - reflexivity.
  - cbn [sort_items fold_right]. fold (sort_items l) (sort_items l').
    inversion Hnd; subst. rewrite IH by assumption. reflexivity.
  - cbn [sort_items fold_right]. fold (sort_items l).
    apply insert_item_comm.
    inversion Hnd as [|? ? Hy _]; subst. simpl in Hy. intros E.
    apply Hy. left. congruence.
  - rewrite IH1 by assumption. apply IH2.
    eapply Permutation_NoDup; [|exact Hnd]. apply Permutation_map. exact Hp1.
Qed.

(** X9: the cache key of a payload does not depend on the order in which
    the payload lists its (distinct) keys. *)
Theorem cache_key_order_independent :
  forall (prefix : pystr) (d d' : Json.dict),
    NoDup (map fst d) ->
    Permutation d d' ->
    _cache_key prefix d = _cache_key prefix d'.
Proof.
  intros prefix d d' Hnd Hp. unfold _cache_key, dumps_sorted.
  rewrite (sort_items_permutation d d' Hp Hnd). reflexivity.
Qed.

(** X9 at a request's fields in reverse order. *)
Lemma cache_key_order_independent_witness :
  let d := req_dict (Fixture.request "climate" "news" 7) in
  NoDup (map fst d) /\
  Permutation d (rev d) /\
  _cache_key (lit "scrape") d = _cache_key (lit "scrape") (rev d).
Proof.
  cbv zeta.
  set (d := req_dict (Fixture.request "climate" "news" 7)).
  assert (Hnd : NoDup (map fst d)).
  { repeat constructor; simpl; intros H;
      repeat (destruct H as [H | H]; [vm_compute in H; discriminate|]);
      exact H. }
  assert (Hp : Permutation d (rev d)) by apply Permutation_rev.
  split; [exact Hnd|]. split; [exact Hp|].
  exact (cache_key_order_independent (lit "scrape") d (rev d) Hnd Hp).
Defined.

(** ** Hashtags *)

Lemma flush_tag_ok (nlp : Nlp) (cur : option pystr) :
  partial_tag nlp cur -> Forall (is_tag nlp) (flush_tag cur).
Proof.
  destruct cur as [tag|]; simpl; [|constructor].
  intros (body & -> & Hw). destruct body as [|c body]; simpl; [constructor|].
  constructor; [|constructor]. exists (c :: body).
  repeat split; [discriminate | exact Hw].
Qed.

Lemma findall_hashtags_ok (nlp : Nlp) (s : pystr) :
  forall cur, partial_tag nlp cur ->
    Forall (is_tag nlp) (findall_hashtags nlp cur s).
Proof.
  induction s as [|c s IH]; intros cur Hcur; cbn [findall_hashtags].
  - apply flush_tag_ok; exact Hcur.
  - destruct (is_word nlp c) eqn:Hc.
    + destruct cur as [tag|]; apply IH; [|exact I].
      destruct Hcur as (body & -> & Hw). exists (body ++ [c]).
      split; [reflexivity|]. rewrite forallb_app, Hw. simpl.
      rewrite Hc. reflexivity.
    + destruct (c =? 35); apply Forall_app;
        (split; [apply flush_tag_ok; exact Hcur | apply IH]).
      * exists []. split; reflexivity.
      * exact I.
Qed.

Lemma findall_hashtags_none (nlp : Nlp) (s : pystr) :
  existsb (Z.eqb 35) s = false -> findall_hashtags nlp None s = [].
Proof.
  induction s as [|c s IH]; [reflexivity|].
  cbn [existsb findall_hashtags]. rewrite Z.eqb_sym.
  destruct (c =? 35); cbn [orb]; intros H; [discriminate H|].
  destruct (is_word nlp c); cbn [flush_tag app]; auto.
Qed.

(** X10: every hashtag [extract_hashtags] returns is '#' followed by one
    or more word characters, and a batch in which no text contains '#'
    gives no hashtag. *)
Theorem extract_hashtags_well_formed :
  forall (nlp : Nlp) (texts : list pystr),
    Forall (is_tag nlp) (extract_hashtags nlp texts) /\
    (forallb (fun t => negb (existsb (Z.eqb 35) t)) texts = true ->
     extract_hashtags nlp texts = []).
Proof.
  intros nlp texts. unfold extract_hashtags. split.
  - induction texts as [|t ts IH]; simpl; [constructor|].
    apply Forall_app. split; [|exact IH].
    apply findall_hashtags_ok. exact I.
  - induction texts as [|t ts IH]; simpl; [reflexivity|].
    rewrite andb_true_iff, negb_true_iff. intros [Ht Hts].
    rewrite (findall_hashtags_none nlp t Ht), IH by exact Hts. reflexivity.
Qed.

(** ** Named entities *)

Lemma distinct_in (l : list pystr) (x : pystr) :
  In x (distinct l) <-> In x l.
Proof.
  induction l as [|y l IH]; simpl; [tauto|].
  rewrite filter_In, IH, negb_true_iff.
  split.
  - intros [H | [H _]]; auto.
  - intros [H | H]; [auto|].
    destruct (pystr_eqb y x) eqn:E.
    + apply pystr_eqb_spec in E. auto.
    + right. split; auto.
Qed.

Lemma distinct_nodup (l : list pystr) : NoDup (distinct l).
Proof.
  induction l as [|y l IH]; simpl; constructor.
  - rewrite filter_In, pystr_eqb_refl. intros [_ H]. discriminate.
  - apply NoDup_filter. exact IH.
Qed.

(** X11: without spaCy, [named_entities] returns the empty list and calls
    nothing.  With it, the model is called once on the texts joined by
    spaces, and the result holds, without repetition, exactly the texts of
    the entities labelled ORG, PRODUCT, PERSON, GPE or EVENT. *)
Theorem named_entities_distinct_allowed :
  forall (nlp : Nlp) (texts : list pystr),
    (_HAS_SPACY nlp = false -> named_entities nlp texts = ([], Return [])) /\
    (_HAS_SPACY nlp = true ->
     exists ents,
       named_entities nlp texts =
         ([EvSpacy (join (lit " ") texts)], Return ents) /\
       NoDup ents /\
       forall x, In x ents <->
         exists label,
           In (x, label) (nlp_ents nlp (join (lit " ") texts)) /\
           In label entity_labels).
Proof.
  intros nlp texts. unfold named_entities. split; intros ->; [reflexivity|].
  cbn [negb]. eexists. split; [reflexivity|].
  split; [apply distinct_nodup|].
  intros x. rewrite distinct_in, in_map_iff. split.
  - intros ([y label] & Hx & Hin). simpl in Hx; subst y.
    apply filter_In in Hin as [Hin Hl]. exists label. split; [exact Hin|].
    apply existsb_exists in Hl as (lb & Hlb & Heq). cbn [snd] in Heq.
    apply pystr_eqb_spec in Heq. subst lb. exact Hlb.
  - intros (label & Hin & Hl). exists (x, label). split; [reflexivity|].
    apply filter_In. split; [exact Hin|].
    apply existsb_exists. exists label. split; [exact Hl|].
    cbn [snd]. apply pystr_eqb_refl.
Qed.

(** ** Blank texts *)

Lemma filter_idem {A} (f : A -> bool) (l : list A) :
  filter f (filter f l) = filter f l.
Proof.
  induction l as [|x l IH]; simpl; [reflexivity|].
  destruct (f x) eqn:E; simpl; rewrite ?E, IH; reflexivity.
Qed.

(** X12: [analyze] keeps a text exactly when it has a character that is not
    whitespace, and the texts it drops have no influence: the answer to a
    batch is the answer to its kept texts. *)
Theorem analyze_ignores_blank_texts :
  forall (nlp : Nlp) (req_texts : list pystr),
    analyze nlp req_texts = analyze nlp (filtered req_texts) /\
    forall t, In t (filtered req_texts) <->
              In t req_texts /\ forallb isspace t = false.
Proof.
  intros nlp req_texts. split.
  - unfold analyze, filtered. rewrite filter_idem. reflexivity.
  - intros t. unfold filtered. rewrite filter_In.
    assert (H : truthy (strip t) = true <-> forallb isspace t = false).
    { rewrite truthy_nonempty, strip_nil_iff.
      destruct (forallb isspace t); split; congruence. }
    rewrite H. tauto.
Qed.

(** ** Sorting by a key *)

Section SortedBy.
Context {A : Type} (leb : A -> A -> bool).
Hypothesis leb_total : forall a b, leb a b = false -> leb b a = true.
Hypothesis leb_trans :
  forall a b c, leb a b = true -> leb b c = true -> leb a c = true.

Lemma insert_by_perm (x : A) (l : list A) :
  Permutation (insert_by leb x l) (x :: l).
Proof.
  induction l as [|y l IH]; simpl; [reflexivity|].
  destruct (leb x y); [reflexivity|].
  rewrite IH. apply perm_swap.
Qed.

Lemma sorted_by_perm (l : list A) : Permutation (sorted_by leb l) l.
Proof.
  induction l as [|x l IH]; simpl; [reflexivity|].
  fold (sorted_by leb l). rewrite insert_by_perm, IH. reflexivity.
Qed.

Lemma insert_by_sorted (x : A) (l : list A) :
  StronglySorted (fun a b => leb a b = true) l ->
  StronglySorted (fun a b => leb a b = true) (insert_by leb x l).
Proof.
  induction 1 as [|y l Hs IH Hy]; simpl.
  - constructor; constructor.
  - destruct (leb x y) eqn:E.
    + constructor; [constructor; assumption|].
      constructor; [exact E|].
      rewrite Forall_forall in *. intros z Hz.
      eapply leb_trans; [exact E | auto].
    + constructor; [exact IH|].
      rewrite Forall_forall in *. intros z Hz.
      apply (Permutation_in _ (insert_by_perm x l)) in Hz.
      destruct Hz as [<- | Hz]; [apply leb_total; exact E | auto].
Qed.

Lemma sorted_by_sorted (l : list A) :
  StronglySorted (fun a b => leb a b = true) (sorted_by leb l).
Proof.
  induction l as [|x l IH]; simpl; [constructor|].
  apply insert_by_sorted. exact IH.
Qed.
End SortedBy.

Lemma StronglySorted_app_inv {A} (R : A -> A -> Prop) (a b : list A) :
  StronglySorted R (a ++ b) ->
  StronglySorted R a /\ forall x y, In x a -> In y b -> R x y.
Proof.
  induction a as [|h a IH]; simpl; intros H.
  - split; [constructor | intros x y []].
  - inversion H as [|? ? Hs Hall]; subst.
    destruct (IH Hs) as [Ha Hab]. rewrite Forall_forall in Hall. split.
    + constructor; [exact Ha|]. apply Forall_forall. intros z Hz.
      apply Hall. apply in_or_app; left; exact Hz.
    + intros x y [<- | Hx] Hy; [|auto].
      apply Hall. apply in_or_app; right; exact Hy.
Qed.

Lemma StronglySorted_map {A B} (R : A -> A -> Prop) (R' : B -> B -> Prop)
  (f : A -> B) (l : list A) :
  (forall a b, In a l -> In b l -> R a b -> R' (f a) (f b)) ->
  StronglySorted R l -> StronglySorted R' (map f l).
Proof.
  intros Hf Hs. induction Hs as [|x l Hs IH Hx]; simpl; constructor.
  - apply IH. intros a b Ha Hb. apply Hf; right; assumption.
  - rewrite Forall_forall in *. intros y Hy.
    apply in_map_iff in Hy as (z & <- & Hz).
    apply Hf; [left; reflexivity | right; exact Hz | auto].
Qed.

(** ** Counting words *)

Lemma pystr_eqb_sym (a b : pystr) : pystr_eqb a b = pystr_eqb b a.
Proof.
  destruct (pystr_eqb a b) eqn:E.
  - apply pystr_eqb_spec in E. subst. symmetry. apply pystr_eqb_refl.
  - destruct (pystr_eqb b a) eqn:E'; [|reflexivity].
    apply pystr_eqb_spec in E'. subst. rewrite pystr_eqb_refl in E.
    discriminate.
Qed.

Lemma lookup_counter_add (w w' : pystr) (cnt : list (pystr * Z)) :
  lookup w' (counter_add w cnt) =
  lookup w' cnt + (if pystr_eqb w' w then 1 else 0).
Proof.
  induction cnt as [|[w0 n] cnt IH]; cbn [counter_add lookup].
  - rewrite (pystr_eqb_sym w w'). destruct (pystr_eqb w' w); reflexivity.
  - destruct (pystr_eqb w0 w) eqn:E0; cbn [lookup].
    + apply pystr_eqb_spec in E0. subst w0.
      rewrite (pystr_eqb_sym w w').
      destruct (pystr_eqb w' w); lia.
    + destruct (pystr_eqb w0 w') eqn:E1; [|exact IH].
      apply pystr_eqb_spec in E1. subst w0.
      rewrite E0. lia.
Qed.

Lemma counter_add_keys (w k : pystr) (cnt : list (pystr * Z)) :
  In k (map fst (counter_add w cnt)) <-> k = w \/ In k (map fst cnt).
Proof.
  induction cnt as [|[w0 n] cnt IH]; cbn [counter_add].
  - simpl. intuition.
  - destruct (pystr_eqb w0 w) eqn:E0.
    + apply pystr_eqb_spec in E0. subst w0. simpl. intuition.
    + simpl. rewrite IH. intuition.
Qed.

Lemma counter_add_nodup (w : pystr) (cnt : list (pystr * Z)) :
  NoDup (map fst cnt) -> NoDup (map fst (counter_add w cnt)).
Proof.
  induction cnt as [|[w0 n] cnt IH]; cbn [counter_add]; intros H.
  - repeat constructor. intros [].
  - inversion H as [|? ? Hx Hl]; subst.
    destruct (pystr_eqb w0 w) eqn:E0; simpl; constructor; auto.
    rewrite counter_add_keys. intros [-> | Hin]; [|tauto].
    rewrite pystr_eqb_refl in E0. discriminate.
Qed.

Lemma counter_fold (words : list pystr) :
  forall cnt,
    let cnt' := fold_left (fun c w => counter_add w c) words cnt in
    (NoDup (map fst cnt) -> NoDup (map fst cnt')) /\
    (forall k, In k (map fst cnt') <-> In k words \/ In k (map fst cnt)) /\
    (forall k, lookup k cnt' = lookup k cnt + occurrences k words).
Proof.
  induction words as [|w ws IH]; intros cnt; cbv zeta; cbn [fold_left].
  - split; [auto|]. split; [intros k; simpl; tauto|].
    intros k. unfold occurrences. simpl. lia.
  - destruct (IH (counter_add w cnt)) as (Hnd & Hkeys & Hlk). cbv zeta in *.
    split; [intros H; apply Hnd, counter_add_nodup, H|].
    split.
    + intros k. rewrite Hkeys, counter_add_keys. simpl. intuition.
    + intros k. rewrite Hlk, lookup_counter_add.
      unfold occurrences. cbn [filter].
      destruct (pystr_eqb k w); cbn [List.length]; lia.
Qed.

Lemma lookup_in (k : pystr) (n : Z) (cnt : list (pystr * Z)) :
  NoDup (map fst cnt) -> In (k, n) cnt -> lookup k cnt = n.
Proof.
  induction cnt as [|[w0 m] cnt IH]; simpl; [tauto|].
  intros H [E | Hin]; inversion H as [|? ? Hx Hl]; subst.
  - inversion E; subst. rewrite pystr_eqb_refl. reflexivity.
  - destruct (pystr_eqb w0 k) eqn:E0; [|auto].
    apply pystr_eqb_spec in E0. subst w0. exfalso. apply Hx.
    apply in_map_iff. exists (k, n). auto.
Qed.

(** What the counter of a list of words holds. *)
Lemma counter_spec (words : list pystr) :
  NoDup (map fst (counter words)) /\
  (forall k n, In (k, n) (counter words) ->
               In k words /\ n = occurrences k words) /\
  (forall k, In k words -> In (k, occurrences k words) (counter words)).
Proof.
  unfold counter.
  destruct (counter_fold words []) as (Hnd & Hkeys & Hlk). cbv zeta in *.
  assert (Hn : NoDup (map fst (fold_left (fun c w => counter_add w c) words [])))
    by (apply Hnd; constructor).
  split; [exact Hn|]. split.
  - intros k n Hin. split.
    + assert (Hk : In k (map fst (fold_left (fun c w => counter_add w c)
                                    words [])))
        by (apply in_map_iff; exists (k, n); auto).
      apply Hkeys in Hk as [Hk | []]. exact Hk.
    + rewrite <- (lookup_in k n _ Hn Hin), Hlk. simpl. lia.
  - intros k Hk.
    assert (Hin : In k (map fst (fold_left (fun c w => counter_add w c)
                                   words [])))
      by (apply Hkeys; left; exact Hk).
    apply in_map_iff in Hin as ([k' n] & Hfst & Hin). simpl in Hfst. subst k'.
    rewrite <- (lookup_in k n _ Hn Hin) in Hin at 1.
    rewrite Hlk in Hin. simpl in Hin. exact Hin.
Qed.

(** ** Keywords *)

Lemma findall_words_ok (s : pystr) :
  forall cur,
    forallb is_ascii_letter cur = true ->
    Forall is_long_word (findall_words cur s).
Proof.
  assert (Hflush : forall cur, forallb is_ascii_letter cur = true ->
                               Forall is_long_word (flush_word cur)).
  { intros cur Hcur. unfold flush_word.
    destruct (Nat.leb_spec 3 (List.length cur)); constructor;
      [split; assumption | constructor]. }
  induction s as [|c s IH]; intros cur Hcur; cbn [findall_words].
  - apply Hflush; exact Hcur.
  - destruct (is_ascii_letter c) eqn:Hc.
    + apply IH. rewrite forallb_app, Hcur. simpl. rewrite Hc. reflexivity.
    + apply Forall_app. split; [apply Hflush; exact Hcur|].
      apply IH. reflexivity.
Qed.

Lemma NoDup_firstn {A} (n : nat) (l : list A) : NoDup l -> NoDup (firstn n l).
Proof.
  intros H. rewrite <- (firstn_skipn n l) in H.
  apply NoDup_app_remove_r in H. exact H.
Qed.

(** X13: without yake, [extract_keywords] calls no library and returns at
    most 20 keywords, all different, each a run of three or more ASCII
    letters found in the lowercased texts; they come by decreasing number
    of occurrences, and no word left out occurs more often than a word
    returned. *)
Theorem extract_keywords_fallback :
  forall (nlp : Nlp) (texts : list pystr),
    _HAS_YAKE nlp = false ->
    exists kws,
      extract_keywords nlp texts = ([], Return kws) /\
      (List.length kws <= 20)%nat /\
      NoDup kws /\
      Forall (fun k => In k (fallback_words nlp texts) /\ is_long_word k) kws /\
      StronglySorted
        (fun a b => occurrences b (fallback_words nlp texts)
                    <= occurrences a (fallback_words nlp texts)) kws /\
      (forall k w,
         In k kws -> In w (fallback_words nlp texts) -> ~ In w kws ->
         occurrences w (fallback_words nlp texts)
         <= occurrences k (fallback_words nlp texts)).
Proof.
  intros nlp texts Hy. unfold extract_keywords. rewrite Hy.
  fold (fallback_words nlp texts).
  set (words := fallback_words nlp texts).
  set (leb := fun a b : pystr * Z => snd b <=? snd a).
  unfold most_common. fold leb.
  set (ranked := sorted_by leb (counter words)).
  destruct (counter_spec words) as (Hnd & Hin & Hall).
  assert (Hperm : Permutation ranked (counter words))
    by apply sorted_by_perm.
  assert (Htotal : forall a b, leb a b = false -> leb b a = true).
  { intros a b. unfold leb. rewrite Z.leb_gt, Z.leb_le. lia. }
  assert (Htrans : forall a b c, leb a b = true -> leb b c = true ->
                                 leb a c = true).
  { intros a b c. unfold leb. rewrite !Z.leb_le. lia. }
  assert (Hsorted : StronglySorted (fun a b => leb a b = true) ranked)
    by (apply sorted_by_sorted; assumption).
  assert (Hsub : forall x, In x (firstn 20 ranked) -> In x (counter words)).
  { intros x Hx. apply (Permutation_in _ Hperm).
    rewrite <- (firstn_skipn 20 ranked). apply in_or_app; left; exact Hx. }
  eexists. split; [reflexivity|].
  split; [rewrite length_map; apply firstn_le_length|].
  split.
  { rewrite <- firstn_map. apply NoDup_firstn.
    eapply Permutation_NoDup; [|exact Hnd].
    apply Permutation_map, Permutation_sym, Hperm. }
  split.
  { apply Forall_forall. intros k Hk.
    apply in_map_iff in Hk as ([k' n] & Hfst & Hk). simpl in Hfst; subst k'.
    destruct (Hin k n (Hsub _ Hk)) as [Hw _]. split; [exact Hw|].
    pose proof (findall_words_ok (lower nlp (join (lit " ") texts)) []
                  eq_refl) as Hlong.
    rewrite Forall_forall in Hlong. apply Hlong. exact Hw. }
  rewrite <- (firstn_skipn 20 ranked) in Hsorted.
  apply StronglySorted_app_inv in Hsorted as [Htop Hrest].
  split.
  { eapply StronglySorted_map; [|exact Htop].
    intros [a na] [b nb] Ha Hb Hab. cbn [fst].
    destruct (Hin a na (Hsub _ Ha)) as [_ <-].
    destruct (Hin b nb (Hsub _ Hb)) as [_ <-].
    unfold leb in Hab. cbn [snd] in Hab. apply Z.leb_le. exact Hab. }
  intros k w Hk Hw Hnw.
  apply in_map_iff in Hk as ([k' n] & Hfst & Hk). simpl in Hfst; subst k'.
  destruct (Hin k n (Hsub _ Hk)) as [_ Hn].
  pose proof (Hall w Hw) as Hwc.
  apply (Permutation_in _ (Permutation_sym Hperm)) in Hwc.
  rewrite <- (firstn_skipn 20 ranked) in Hwc.
  apply in_app_or in Hwc as [Hwc | Hwc].
  - exfalso. apply Hnw. apply in_map_iff.
    exists (w, occurrences w words). auto.
  - specialize (Hrest _ _ Hk Hwc). unfold leb in Hrest. cbn [snd] in Hrest.
    apply Z.leb_le in Hrest. lia.
Qed.

(** X13 at the plain configuration. *)
Lemma extract_keywords_fallback_witness :
  _HAS_YAKE FixtureNlp.plain = false /\
  exists kws,
    extract_keywords FixtureNlp.plain [lit "The cat and the dog"]
      = ([], Return kws) /\
    (List.length kws <= 20)%nat /\ NoDup kws.
Proof.
  split; [reflexivity|].
  destruct (extract_keywords_fallback FixtureNlp.plain
              [lit "The cat and the dog"] eq_refl)
    as (kws & He & Hlen & Hnd & _).
  exists kws. auto.
Defined.

(** X14: with yake, [extract_keywords] calls it once on the texts joined by
    spaces and returns its keywords, all of them, reordered by increasing
    score. *)
Theorem extract_keywords_yake :
  forall (nlp : Nlp) (texts : list pystr),
    _HAS_YAKE nlp = true ->
    exists ranked,
      extract_keywords nlp texts =
        ([EvYake (join (lit " ") texts)], Return (map fst ranked)) /\
      Permutation ranked
        (yake_extract_keywords nlp (join (lit " ") texts)) /\
      StronglySorted (fun a b => (snd a <= snd b)%Q) ranked.
Proof.
  intros nlp texts Hy. unfold extract_keywords. rewrite Hy.
  set (leb := fun a b : pystr * Q => Qle_bool (snd a) (snd b)).
  exists (sorted_by leb (yake_extract_keywords nlp (join (lit " ") texts))).
  split; [reflexivity|]. split; [apply sorted_by_perm|].
  assert (Htotal : forall a b, leb a b = false -> leb b a = true).
  { intros a b. unfold leb. intros H. apply Qle_bool_iff.
    destruct (Qlt_le_dec (snd a) (snd b)) as [Hlt | Hle]; [|exact Hle].
    apply Qlt_le_weak, Qle_bool_iff in Hlt. congruence. }
  assert (Htrans : forall a b c, leb a b = true -> leb b c = true ->
                                 leb a c = true).
  { intros a b c. unfold leb. rewrite !Qle_bool_iff. apply Qle_trans. }
  pose proof (sorted_by_sorted leb Htotal Htrans
                (yake_extract_keywords nlp (join (lit " ") texts))) as Hs.
  eapply StronglySorted_map with (f := fun x => x) in Hs.
  - rewrite map_id in Hs. exact Hs.
  - intros a b _ _ H. apply Qle_bool_iff. exact H.
Qed.

(** X14 at a yake that scores three keywords. *)
Lemma extract_keywords_yake_witness :
  let nlp := {| _HAS_YAKE := true;
                yake_extract_keywords := fun _ =>
                  [(lit "dog", (3 # 10)%Q); (lit "cat", (1 # 10)%Q);
                   (lit "end", (2 # 10)%Q)];
                _HAS_SPACY := false;
                nlp_ents := nlp_ents FixtureNlp.plain;
                polarity_compound := polarity_compound FixtureNlp.plain;
                isalnum := isalnum FixtureNlp.plain;
                lower := lower FixtureNlp.plain |} in
  _HAS_YAKE nlp = true /\
  returned (extract_keywords nlp [lit "dog cat end"])
    = Some [lit "cat"; lit "end"; lit "dog"] /\
  exists ranked,
    extract_keywords nlp [lit "dog cat end"] =
      ([EvYake (lit "dog cat end")], Return (map fst ranked)) /\
    StronglySorted (fun a b => (snd a <= snd b)%Q) ranked.
Proof.
  cbv zeta.
  set (nlp := {| _HAS_YAKE := true;
                 yake_extract_keywords := fun _ =>
                   [(lit "dog", (3 # 10)%Q); (lit "cat", (1 # 10)%Q);
                    (lit "end", (2 # 10)%Q)];
                 _HAS_SPACY := false;
                 nlp_ents := nlp_ents FixtureNlp.plain;
                 polarity_compound := polarity_compound FixtureNlp.plain;
                 isalnum := isalnum FixtureNlp.plain;
                 lower := lower FixtureNlp.plain |}).
  split; [reflexivity|]. split; [vm_compute; reflexivity|].
  destruct (extract_keywords_yake nlp [lit "dog cat end"] eq_refl)
    as (ranked & He & _ & Hs).
  exists ranked. split; [exact He | exact Hs].
Defined.

(** ** The keyword in the feed URL *)

Lemma lor_below (n a b : Z) :
  0 <= n -> 0 <= a < 2 ^ n -> 0 <= b < 2 ^ n -> 0 <= Z.lor a b < 2 ^ n.
Proof.
  intros Hn Ha Hb.
  assert (H0 : 0 <= Z.lor a b) by (apply Z.lor_nonneg; lia).
  split; [exact H0|].
  destruct (Z.eq_dec (Z.lor a b) 0) as [-> | Hne]; [lia|].
  apply Z.log2_lt_pow2; [lia|].
  rewrite Z.log2_lor by lia.
  assert (La : Z.log2 a < n).
  { destruct (Z.eq_dec a 0) as [-> | Hz].
    - simpl. destruct (Z.eq_dec n 0) as [-> | Hnz]; [|lia].
      exfalso. simpl in Ha, Hb. assert (a0 : b = 0) by lia. subst b.
      apply Hne. reflexivity.
    - apply Z.log2_lt_pow2; lia. }
  assert (Lb : Z.log2 b < n).
  { destruct (Z.eq_dec b 0) as [-> | Hz].
    - simpl. destruct (Z.eq_dec n 0) as [-> | Hnz]; [|lia].
      exfalso. simpl in Ha. assert (a0 : a = 0) by lia. subst a.
      apply Hne. reflexivity.
    - apply Z.log2_lt_pow2; lia. }
  lia.
Qed.

Lemma shiftr_below (c k m : Z) :
  0 <= k -> 0 <= c < m * 2 ^ k -> 0 <= Z.shiftr c k < m.
Proof.
  intros Hk Hc. rewrite Z.shiftr_div_pow2 by exact Hk.
  assert (0 < 2 ^ k) by (apply Z.pow_pos_nonneg; lia).
  split; [apply Z.div_pos; lia|].
  apply Z.div_lt_upper_bound; lia.
Qed.

Lemma land_63_below (x : Z) : 0 <= Z.land x 63 < 64.
Proof.
  change 63 with (Z.ones 6). rewrite Z.land_ones by lia.
  apply Z.mod_pos_bound; reflexivity.
Qed.

Lemma continuation_byte (x : Z) : 0 <= Z.lor 128 (Z.land x 63) < 256.
Proof.
  pose proof (land_63_below x).
  apply (lor_below 8); [lia | lia | simpl; lia].
Qed.

(** UTF-8 encodes a code point into bytes, and refuses only surrogates. *)
Lemma utf8_char_bytes (c : Z) :
  code_point c ->
  match utf8_char c with
  | Some bs => Forall (fun b => 0 <= b < 256) bs
  | None => surrogate c
  end.
Proof.
  unfold code_point, utf8_char. intros Hc.
  destruct (Z.ltb_spec c 128); [repeat constructor; lia|].
  destruct (Z.ltb_spec c 2048).
  { constructor; [|constructor; [apply continuation_byte | constructor]].
    pose proof (shiftr_below c 6 32 ltac:(lia) ltac:(simpl; lia)).
    apply (lor_below 8); [lia | lia | simpl; lia]. }
  destruct ((55296 <=? c) && (c <=? 57343)) eqn:Es.
  { apply andb_true_iff in Es as [H1 H2].
    apply Z.leb_le in H1, H2. unfold surrogate. lia. }
  destruct (Z.ltb_spec c 65536).
  { constructor;
      [|constructor; [apply continuation_byte |
        constructor; [apply continuation_byte | constructor]]].
    pose proof (shiftr_below c 12 16 ltac:(lia) ltac:(simpl; lia)).
    apply (lor_below 8); [lia | lia | simpl; lia]. }
  constructor;
    [|constructor; [apply continuation_byte |
      constructor; [apply continuation_byte |
        constructor; [apply continuation_byte | constructor]]]].
  pose proof (shiftr_below c 18 5 ltac:(lia) ltac:(simpl; lia)).
  apply (lor_below 8); [lia | lia | simpl; lia].
Qed.

Lemma encode_bytes (s : pystr) :
  Forall code_point s ->
  match encode s with
  | Some bs => Forall (fun b => 0 <= b < 256) bs
  | None => Exists surrogate s
  end.
Proof.
  induction 1 as [|c s Hc _ IH]; cbn [encode]; [constructor|].
  pose proof (utf8_char_bytes c Hc) as Hb.
  destruct (utf8_char c) as [b|]; [|left; exact Hb].
  destruct (encode s) as [bs|]; [|right; exact IH].
  apply Forall_app. split; assumption.
Qed.

Lemma upper_hex_digit_safe (d : Z) :
  0 <= d < 16 -> quote_safe (upper_hex_digit d) = true.
Proof.
  intros Hd. unfold upper_hex_digit, quote_safe.
  rewrite !orb_true_iff, !andb_true_iff, !Z.leb_le.
  destruct (Z.ltb_spec d 10); lia.
Qed.

Lemma quote_byte_url_chars (b : Z) :
  0 <= b < 256 -> Forall (fun c => url_char c = true) (quote_byte b).
Proof.
  intros Hb. unfold quote_byte, url_char.
  destruct (quote_safe b) eqn:Es.
  - constructor; [rewrite Es; reflexivity | constructor].
  - constructor; [reflexivity|].
    constructor; [rewrite upper_hex_digit_safe; [reflexivity|] |].
    + apply (shiftr_below b 4 16); simpl; lia.
    + constructor; [|constructor]. rewrite upper_hex_digit_safe; [reflexivity|].
      change 15 with (Z.ones 4). rewrite Z.land_ones by lia.
      apply Z.mod_pos_bound; reflexivity.
Qed.

Lemma bind_silent {A B} (m : M A) (k : A -> M B) :
  fst m = [] -> (forall a, fst (k a) = []) -> fst (bind m k) = [].
Proof.
  destruct m as [l [a|e]]; cbn [fst bind]; intros -> Hk; [|reflexivity].
  specialize (Hk a). destruct (k a) as [l' o]. cbn [fst] in *. subst l'.
  reflexivity.
Qed.

Lemma news_loop_trace (now cutoff : datetime) (es : list feed_entry) :
  fst (news_loop now cutoff es) = [].
Proof.
  induction es as [|e es IH]; [reflexivity|].
  cbn [news_loop]. apply bind_silent.
  - destruct (fe_published_parsed e) as [f|]; [|reflexivity].
    destruct (datetime_of_fields f); reflexivity.
  - intros published. destruct (published <? cutoff); [exact IH|].
    apply bind_silent; [destruct (fe_link e); reflexivity|].
    intros link. apply bind_silent.
    + unfold md5_hex. destruct (encode _); reflexivity.
    + intros ident. apply bind_silent; [exact IH|]. reflexivity.
Qed.

(** X15: for a keyword of proper code points, the news adapter either asks
    the feed parser, once, for the fixed Google News search URL in which
    the keyword stands percent-encoded (only unreserved characters, '/'
    and '%'), or, when the keyword holds a surrogate, raises
    UnicodeEncodeError before any call is made. *)
Theorem scrape_news_url_is_escaped :
  forall (w : World) (kw : pystr) (days : Z),
    Forall code_point kw ->
    (exists q,
       quote kw = ret q /\
       Forall (fun c => url_char c = true) q /\
       trace (scrape_news w kw days) = [EvFeedParse (news_url q)]) \/
    (Exists surrogate kw /\
     scrape_news w kw days = ([], Raise UnicodeEncodeError)).
Proof.
  intros w kw days Hkw. pose proof (encode_bytes kw Hkw) as Hb.
  unfold scrape_news, quote. destruct (encode kw) as [bs|].
  - left. exists (flat_map quote_byte bs). split; [reflexivity|]. split.
    + induction Hb as [|b bs Hb0 _ IH]; simpl; [constructor|].
      apply Forall_app. split; [apply quote_byte_url_chars; exact Hb0 | exact IH].
    + rewrite bind_ret_l. fold (news_url (flat_map quote_byte bs)).
      unfold bind at 1. cbn [emit]. unfold trace.
      pose proof (news_loop_trace (utc_now w) (utc_now w - timedelta_days days)
                    (firstn 50 (feedparser_parse w
                                  (news_url (flat_map quote_byte bs))))) as Ht.
      destruct (news_loop _ _ _) as [l o]. cbn [fst] in *. subst l.
      reflexivity.
  - right. split; [exact Hb | reflexivity].
Qed.

(** X15 at the keyword "climate change". *)
Lemma scrape_news_url_is_escaped_witness :
  Forall code_point (lit "climate change") /\
  exists q,
    quote (lit "climate change") = ret q /\
    Forall (fun c => url_char c = true) q /\
    trace (scrape_news Fixture.offline (lit "climate change") 7)
      = [EvFeedParse (news_url q)].
Proof.
  assert (Hcp : Forall code_point (lit "climate change"))
    by (repeat constructor; discriminate).
  split; [exact Hcp|].
  destruct (scrape_news_url_is_escaped Fixture.offline
              (lit "climate change") 7 Hcp) as [H | [_ H]];
    [exact H | vm_compute in H; discriminate].
Defined.

(** ** The hashed text determines the request *)

Lemma app_inv_same_length {A} (a b t1 t2 : list A) :
  List.length a = List.length b -> a ++ t1 = b ++ t2 -> a = b /\ t1 = t2.
Proof.
  revert b; induction a as [|x a IH]; intros [|y b] Hlen H;
    try discriminate; simpl in *; [auto|].
  inversion H; subst. destruct (IH b) as [-> ->]; auto.
Qed.

Lemma hex_digit_inj (d1 d2 : Z) :
  0 <= d1 < 16 -> 0 <= d2 < 16 -> hex_digit d1 = hex_digit d2 -> d1 = d2.
Proof.
  unfold hex_digit. intros H1 H2.
  destruct (Z.ltb_spec d1 10), (Z.ltb_spec d2 10); lia.
Qed.

Lemma hex_inj (k : nat) :
  forall n1 n2,
    hex k n1 = hex k n2 ->
    n1 mod 16 ^ Z.of_nat k = n2 mod 16 ^ Z.of_nat k.
Proof.
  induction k as [|k IH]; intros n1 n2 H.
  - simpl. rewrite !Z.mod_1_r. reflexivity.
  - cbn [hex] in H. apply app_inj_tail in H as [Hhi Hlo].
    apply IH in Hhi.
    assert (Hd : forall n, Z.land n 15 = n mod 16).
    { intros n. change 15 with (Z.ones 4). rewrite Z.land_ones by lia.
      reflexivity. }
    rewrite !Hd in Hlo.
    apply hex_digit_inj in Hlo;
      try (apply Z.mod_pos_bound; reflexivity).
    rewrite !Z.shiftr_div_pow2 in Hhi by lia. change (2 ^ 4) with 16 in Hhi.
    rewrite Nat2Z.inj_succ, Z.pow_succ_r by lia.
    assert (Hp : 0 < 16 ^ Z.of_nat k) by (apply Z.pow_pos_nonneg; lia).
    rewrite !Z.rem_mul_r by lia. rewrite Hhi, Hlo. reflexivity.
Qed.

Lemma hex4_inj (n1 n2 : Z) :
  0 <= n1 < 65536 -> 0 <= n2 < 65536 -> hex 4 n1 = hex 4 n2 -> n1 = n2.
Proof.
  intros H1 H2 H. apply hex_inj in H. change (16 ^ Z.of_nat 4) with 65536 in H.
  rewrite !Z.mod_small in H by lia. exact H.
Qed.

(** Below 1024 the surrogate bases are joined without carry. *)
Lemma surrogate_bases (x : Z) :
  0 <= x < 1024 ->
  Z.lor 55296 x = 55296 + x /\ Z.lor 56320 x = 56320 + x.
Proof.
  intros Hx.
  assert (Hall : forallb (fun y => (Z.lor 55296 y =? 55296 + y) &&
                                   (Z.lor 56320 y =? 56320 + y))
                   (map Z.of_nat (seq 0 1024)) = true)
    by (vm_compute; reflexivity).
  rewrite forallb_forall in Hall.
  specialize (Hall x). rewrite andb_true_iff, !Z.eqb_eq in Hall.
  apply Hall. apply in_map_iff. exists (Z.to_nat x).
  split; [lia | apply in_seq; lia].
Qed.

Lemma surrogate_halves (n : Z) :
  0 <= n < 1048576 ->
  high_surrogate n = 55296 + n / 1024 /\
  low_surrogate n = 56320 + n mod 1024.
Proof.
  intros Hn. unfold high_surrogate, low_surrogate.
  change 1023 with (Z.ones 10). rewrite !Z.land_ones by lia.
  rewrite Z.shiftr_div_pow2 by lia. change (2 ^ 10) with 1024.
  assert (H1 : 0 <= n / 1024 < 1024).
  { split; [apply Z.div_pos; lia | apply Z.div_lt_upper_bound; lia]. }
  rewrite (Z.mod_small (n / 1024)) by lia.
  pose proof (Z.mod_pos_bound n 1024 ltac:(lia)) as H2.
  split; [apply (surrogate_bases _ H1) | apply (surrogate_bases _ H2)].
Qed.

Lemma escape_char_form (c : Z) : scalar c -> escape_form c (escape_char c).
Proof.
  intros [Hc Hs]. unfold escape_char.
  destruct (Z.eqb_spec c 92) as [-> | H92];
    [apply (EfShort 92 92); left; reflexivity|].
  destruct (Z.eqb_spec c 34) as [-> | H34];
    [apply (EfShort 34 34); right; left; reflexivity|].
  destruct (Z.eqb_spec c 8) as [-> | H8];
    [apply (EfShort 8 98); do 2 right; left; reflexivity|].
  destruct (Z.eqb_spec c 12) as [-> | H12];
    [apply (EfShort 12 102); do 3 right; left; reflexivity|].
  destruct (Z.eqb_spec c 10) as [-> | H10];
    [apply (EfShort 10 110); do 4 right; left; reflexivity|].
  destruct (Z.eqb_spec c 13) as [-> | H13];
    [apply (EfShort 13 114); do 5 right; left; reflexivity|].
  destruct (Z.eqb_spec c 9) as [-> | H9];
    [apply (EfShort 9 116); do 6 right; left; reflexivity|].
  destruct ((32 <=? c) && (c <=? 126)) eqn:Ep.
  { apply andb_true_iff in Ep as [H1 H2]. apply Z.leb_le in H1, H2.
    apply EfPlain; lia. }
  destruct (Z.ltb_spec c 65536).
  - apply (EfHex c (hex 4 c)); [reflexivity | lia | exact Hs].
  - cbv zeta.
    apply (EfPair c (hex 4 (high_surrogate (c - 65536)))
                    (hex 4 (low_surrogate (c - 65536))));
      [reflexivity | reflexivity | lia].
Qed.

Lemma short_escapes_spec (c x : Z) :
  In (c, x) short_escapes ->
  x <> 117 /\
  (x = 92 -> c = 92) /\ (x = 34 -> c = 34) /\ (x = 98 -> c = 8) /\
  (x = 102 -> c = 12) /\ (x = 110 -> c = 10) /\ (x = 114 -> c = 13) /\
  (x = 116 -> c = 9) /\
  (x = 92 \/ x = 34 \/ x = 98 \/ x = 102 \/ x = 110 \/ x = 114 \/ x = 116).
Proof.
  unfold short_escapes. intros H.
  repeat (destruct H as [H | H];
          [injection H as <- <-; repeat split; intros; lia|]).
  destruct H.
Qed.

Lemma short_escapes_inj (c1 c2 x : Z) :
  In (c1, x) short_escapes -> In (c2, x) short_escapes -> c1 = c2.
Proof.
  intros H1 H2. apply short_escapes_spec in H1, H2.
  destruct H1 as (_ & a1 & a2 & a3 & a4 & a5 & a6 & a7 & D).
  destruct H2 as (_ & b1 & b2 & b3 & b4 & b5 & b6 & b7 & _).
  destruct D as [E | [E | [E | [E | [E | [E | E]]]]]].
  - rewrite (a1 E), (b1 E). reflexivity.
  - rewrite (a2 E), (b2 E). reflexivity.
  - rewrite (a3 E), (b3 E). reflexivity.
  - rewrite (a4 E), (b4 E). reflexivity.
  - rewrite (a5 E), (b5 E). reflexivity.
  - rewrite (a6 E), (b6 E). reflexivity.
  - rewrite (a7 E), (b7 E). reflexivity.
Qed.

Lemma short_escapes_letter (c x : Z) :
  In (c, x) short_escapes -> x <> 117.
Proof. intros H. apply short_escapes_spec in H. tauto. Qed.

Lemma surrogate_range (n : Z) :
  0 <= n < 1048576 ->
  55296 <= high_surrogate n < 56320 /\ 56320 <= low_surrogate n < 57344.
Proof.
  intros Hn. destruct (surrogate_halves n Hn) as [-> ->].
  assert (0 <= n / 1024 < 1024).
  { split; [apply Z.div_pos; lia | apply Z.div_lt_upper_bound; lia]. }
  pose proof (Z.mod_pos_bound n 1024 ltac:(lia)). lia.
Qed.

Lemma escape_form_inj (c1 c2 : Z) (e1 e2 t1 t2 : pystr) :
  escape_form c1 e1 -> escape_form c2 e2 ->
  e1 ++ t1 = e2 ++ t2 -> c1 = c2 /\ t1 = t2.
Proof.
  intros F1 F2 H.
  destruct F1 as [x1 Hx1 | Hr1 Hq1 Hb1 | h1 Eh1 Hr1 Hs1 | h1 l1 Eh1 El1 Hr1];
  destruct F2 as [x2 Hx2 | Hr2 Hq2 Hb2 | h2 Eh2 Hr2 Hs2 | h2 l2 Eh2 El2 Hr2];
  rewrite <- ?app_comm_cons, <- ?app_assoc, <- ?app_comm_cons in H;
  cbn [app] in H.
  - injection H as Hx Ht. subst x2. split; [|exact Ht].
    eapply short_escapes_inj; eassumption.
  - injection H as Hc _. lia.
  - injection H as Hx _. apply short_escapes_letter in Hx1. lia.
  - injection H as Hx _. apply short_escapes_letter in Hx1. lia.
  - injection H as Hc _. lia.
  - injection H as Hc Ht. auto.
  - injection H as Hc _. lia.
  - injection H as Hc _. lia.
  - injection H as Hx _. apply short_escapes_letter in Hx2. lia.
  - injection H as Hc _. lia.
  - injection H as H.
    apply app_inv_same_length in H as [Hh Ht];
      [|subst h1 h2; rewrite !hex_length; reflexivity].
    subst h1 h2. split; [apply hex4_inj; assumption | exact Ht].
  - injection H as H.
    apply app_inv_same_length in H as [Hh _];
      [|subst h1 h2; rewrite !hex_length; reflexivity].
    subst h1 h2.
    pose proof (surrogate_range (c2 - 65536) ltac:(lia)) as [Hhi _].
    apply hex4_inj in Hh; [|lia|lia].
    exfalso. apply Hs1. unfold surrogate. lia.
  - injection H as Hx _. apply short_escapes_letter in Hx2. lia.
  - injection H as Hc _. lia.
  - injection H as H.
    apply app_inv_same_length in H as [Hh _];
      [|subst h1 h2; rewrite !hex_length; reflexivity].
    subst h1 h2.
    pose proof (surrogate_range (c1 - 65536) ltac:(lia)) as [Hhi _].
    apply hex4_inj in Hh; [|lia|lia].
    exfalso. apply Hs2. unfold surrogate. lia.
  - injection H as H.
    apply app_inv_same_length in H as [Hh H];
      [|subst h1 h2; rewrite !hex_length; reflexivity].
    injection H as H.
    apply app_inv_same_length in H as [Hl Ht];
      [|subst l1 l2; rewrite !hex_length; reflexivity].
    subst h1 h2 l1 l2.
    pose proof (surrogate_range (c1 - 65536) ltac:(lia)) as [Hhi1 Hlo1].
    pose proof (surrogate_range (c2 - 65536) ltac:(lia)) as [Hhi2 Hlo2].
    apply hex4_inj in Hh; [|lia|lia]. apply hex4_inj in Hl; [|lia|lia].
    destruct (surrogate_halves (c1 - 65536) ltac:(lia)) as [E1 E2].
    destruct (surrogate_halves (c2 - 65536) ltac:(lia)) as [E3 E4].
    rewrite E1, E3 in Hh. rewrite E2, E4 in Hl.
    split; [|exact Ht].
    pose proof (Z.div_mod (c1 - 65536) 1024 ltac:(lia)).
    pose proof (Z.div_mod (c2 - 65536) 1024 ltac:(lia)). lia.
Qed.

Lemma escape_form_head (c : Z) (e t t' : pystr) :
  escape_form c e -> e ++ t <> 34 :: t'.
Proof.
  intros F H. destruct F as [x Hx | | |]; cbn [app] in H;
    injection H as Hc; lia.
Qed.

Lemma escaped_inj (s1 : pystr) :
  forall (s2 r1 r2 : pystr),
    Forall scalar s1 -> Forall scalar s2 ->
    flat_map escape_char s1 ++ 34 :: r1 = flat_map escape_char s2 ++ 34 :: r2 ->
    s1 = s2 /\ r1 = r2.
Proof.
  induction s1 as [|c1 s1 IH]; intros [|c2 s2] r1 r2 H1 H2 H;
    cbn [flat_map] in H.
  - injection H as H. auto.
  - exfalso. inversion H2 as [|? ? Hc _]; subst.
    rewrite <- app_assoc in H. symmetry in H.
    exact (escape_form_head c2 _ _ _ (escape_char_form c2 Hc) H).
  - exfalso. inversion H1 as [|? ? Hc _]; subst.
    rewrite <- app_assoc in H.
    exact (escape_form_head c1 _ _ _ (escape_char_form c1 Hc) H).
  - inversion H1 as [|? ? Hc1 Hs1]; inversion H2 as [|? ? Hc2 Hs2]; subst.
    rewrite <- !app_assoc in H.
    apply (escape_form_inj c1 c2 _ _ _ _ (escape_char_form c1 Hc1)
             (escape_char_form c2 Hc2)) in H as [-> H].
    destruct (IH s2 r1 r2 Hs1 Hs2 H) as [-> ->]. auto.
Qed.

Lemma encode_str_inj (s1 s2 r1 r2 : pystr) :
  Forall scalar s1 -> Forall scalar s2 ->
  encode_str s1 ++ r1 = encode_str s2 ++ r2 -> s1 = s2 /\ r1 = r2.
Proof.
  intros H1 H2 H. unfold encode_str in H.
  rewrite <- !app_assoc in H. cbn [app] in H. injection H as H.
  exact (escaped_inj s1 s2 r1 r2 H1 H2 H).
Qed.

(** X16: two requests whose keyword and platform hold only Unicode scalar
    values are hashed from the same text only when they are the same
    request, field for field; the cache key being the SHA-256 of that
    text, distinct requests share a cache entry only through a SHA-256
    collision. *)
Theorem key_text_determines_request :
  forall r1 r2 : ScrapeRequest,
    Forall scalar (keyword r1) -> Forall scalar (platform r1) ->
    Forall scalar (keyword r2) -> Forall scalar (platform r2) ->
    key_text r1 = key_text r2 ->
    r1 = r2.
Proof.
  intros [kw1 pl1 d1] [kw2 pl2 d2]. cbn [keyword platform].
  intros Hk1 Hp1 Hk2 Hp2 H.
  unfold key_text in H. rewrite !dumps_req_dict in H.
  unfold payload_head in H. cbn [keyword platform timeframe_days] in H.
  rewrite <- !app_assoc in H.
  do 4 apply app_inv_head in H.
  apply encode_str_inj in H as [-> H]; [|assumption|assumption].
  do 3 apply app_inv_head in H.
  apply encode_str_inj in H as [-> H]; [|assumption|assumption].
  do 3 apply app_inv_head in H.
  apply app_inv_tail in H. apply str_of_int_inj in H. subst d2. reflexivity.
Qed.

(** X16 at two requests that differ in [timeframe_days]: their texts
    differ. *)
Lemma key_text_determines_request_witness :
  let r1 := Fixture.request "climate" "news" 400 in
  let r2 := Fixture.request "climate" "news" 30 in
  Forall scalar (keyword r1) /\ Forall scalar (platform r1) /\
  Forall scalar (keyword r2) /\ Forall scalar (platform r2) /\
  (key_text r1 = key_text r2 -> r1 = r2) /\
  pystr_eqb (key_text r1) (key_text r2) = false.
Proof.
  cbv zeta.
  assert (Hs : forall s, Forall (fun c => 0 <= c < 128) s -> Forall scalar s).
  { intros s. apply Forall_impl. intros c Hc. unfold scalar, surrogate. lia. }
  assert (Hk : Forall scalar (lit "climate"))
    by (apply Hs; repeat constructor; discriminate).
  assert (Hp : Forall scalar (lit "news"))
    by (apply Hs; repeat constructor; discriminate).
  split; [exact Hk|]. split; [exact Hp|].
  split; [exact Hk|]. split; [exact Hp|].
  split; [|vm_compute; reflexivity].
  exact (key_text_determines_request
           (Fixture.request "climate" "news" 400)
           (Fixture.request "climate" "news" 30) Hk Hp Hk Hp).
Defined.

(** Without the restriction the text is not one-to-one: a character above
    the basic plane and its two surrogates, as two characters, are escaped
    alike. *)
Example key_text_surrogate_pair :
  key_text {| keyword := [128512]; platform := lit "news";
              timeframe_days := 7 |} =
  key_text {| keyword := [55357; 56832]; platform := lit "news";
              timeframe_days := 7 |}.
Proof. vm_compute. reflexivity. Qed.

(** ** Ties in the ranking *)

Lemma insert_by_stable {A} (leb : A -> A -> bool) (p : A -> bool)
  (x : A) (l : list A) :
  (forall y, p x = true -> p y = true -> leb x y = true) ->
  filter p (insert_by leb x l) = filter p (x :: l).
Proof.
  intros Hp. induction l as [|y l IH]; [reflexivity|].
  cbn [insert_by]. destruct (leb x y) eqn:E; [reflexivity|].
  cbn [filter] in *. destruct (p y) eqn:Py.
  - destruct (p x) eqn:Px.
    + rewrite (Hp y eq_refl Py) in E. discriminate.
    + rewrite IH. reflexivity.
  - exact IH.
Qed.

(** Sorting keeps the order of the elements of one class, when any two
    elements of the class may stand in either order. *)
Lemma sorted_by_stable {A} (leb : A -> A -> bool) (p : A -> bool)
  (l : list A) :
  (forall x y, p x = true -> p y = true -> leb x y = true) ->
  filter p (sorted_by leb l) = filter p l.
Proof.
  intros Hp. induction l as [|x l IH]; [reflexivity|].
  cbn [sorted_by fold_right]. fold (sorted_by leb l).
  rewrite insert_by_stable by (intros y; apply Hp).
  cbn [filter]. rewrite IH. reflexivity.
Qed.

Lemma filter_firstn_prefix {A} (p : A -> bool) (n : nat) (l : list A) :
  exists m, filter p (firstn n l) = firstn m (filter p l).
Proof.
  revert n; induction l as [|x l IH]; intros n.
  - exists 0%nat. rewrite firstn_nil. reflexivity.
  - destruct n as [|n]; [exists 0%nat; reflexivity|].
    destruct (IH n) as (m & Hm). cbn [firstn filter].
    destruct (p x); [exists (S m); cbn [firstn]; rewrite Hm | exists m];
      auto.
Qed.

Lemma counter_add_order (w : pystr) (cnt : list (pystr * Z)) :
  map fst (counter_add w cnt) =
  if known (map fst cnt) w then map fst cnt else map fst cnt ++ [w].
Proof.
  induction cnt as [|[w0 n] cnt IH]; [reflexivity|].
  cbn [counter_add map fst known existsb] in *.
  rewrite (pystr_eqb_sym w w0).
  destruct (pystr_eqb w0 w); [reflexivity|]. cbn [orb map fst].
  rewrite IH. unfold known. destruct (existsb (pystr_eqb w) (map fst cnt));
    reflexivity.
Qed.

Lemma filter_filter_weaker {A} (p q : A -> bool) (l : list A) :
  (forall x, p x = true -> q x = true) ->
  filter p (filter q l) = filter p l.
Proof.
  intros H. induction l as [|x l IH]; [reflexivity|]. cbn [filter].
  destruct (q x) eqn:Q; cbn [filter].
  - rewrite IH. reflexivity.
  - destruct (p x) eqn:P; [rewrite (H x P) in Q; discriminate | exact IH].
Qed.

(** The counter lists the words in the order of their first occurrence. *)
Lemma counter_fold_order (words : list pystr) :
  forall cnt,
    map fst (fold_left (fun c w => counter_add w c) words cnt) =
    map fst cnt ++
    filter (fun w => negb (known (map fst cnt) w)) (distinct words).
Proof.
  induction words as [|w ws IH]; intros cnt; cbn [fold_left distinct].
  - rewrite app_nil_r. reflexivity.
  - rewrite IH, counter_add_order. cbn [filter].
    destruct (known (map fst cnt) w) eqn:K; cbn [negb].
    + f_equal. symmetry. apply filter_filter_weaker.
      intros x Hx. apply negb_true_iff in Hx. apply negb_true_iff.
      destruct (pystr_eqb w x) eqn:E; [|reflexivity].
      apply pystr_eqb_spec in E. subst x. congruence.
    + rewrite <- app_assoc. cbn [app]. f_equal. f_equal.
      rewrite <- (filter_filter_weaker
                    (fun x => negb (known (map fst cnt ++ [w]) x))
                    (fun y => negb (pystr_eqb w y)) (distinct ws)).
      * apply filter_ext_in. intros x Hx.
        apply filter_In in Hx as [_ Hq]. apply negb_true_iff in Hq.
        unfold known. rewrite existsb_app. cbn [existsb].
        rewrite orb_false_r, negb_orb, (pystr_eqb_sym x w), Hq.
        cbn [negb]. rewrite andb_true_r. reflexivity.
      * intros x. unfold known. rewrite existsb_app. cbn [existsb].
        rewrite orb_false_r, negb_orb, andb_true_iff.
        rewrite (pystr_eqb_sym x w). tauto.
Qed.

Lemma counter_order (words : list pystr) :
  map fst (counter words) = distinct words.
Proof.
  unfold counter. rewrite counter_fold_order. cbn [map app known existsb negb].
  induction (distinct words) as [|x l IH]; [reflexivity|].
  cbn [filter]. rewrite IH. reflexivity.
Qed.

Lemma filter_map_fst {A B} (q : A -> bool) (p : A * B -> bool)
  (l : list (A * B)) :
  (forall kv, In kv l -> q (fst kv) = p kv) ->
  filter q (map fst l) = map fst (filter p l).
Proof.
  induction l as [|kv l IH]; intros H; [reflexivity|].
  cbn [map filter]. rewrite (H kv (or_introl eq_refl)).
  rewrite IH by (intros x Hx; apply H; right; exact Hx).
  destruct (p kv); reflexivity.
Qed.

(** X17: in the fallback ranking, keywords that occur equally often stand
    in the order in which they first appear in the texts: for each count,
    the returned keywords with that count are the first of the words with
    that count, taken in order of first occurrence. *)
Theorem extract_keywords_ties_first_seen :
  forall (nlp : Nlp) (texts : list pystr) (n : Z),
    _HAS_YAKE nlp = false ->
    exists kws m,
      extract_keywords nlp texts = ([], Return kws) /\
      filter (fun k => occurrences k (fallback_words nlp texts) =? n) kws =
      firstn m
        (filter (fun k => occurrences k (fallback_words nlp texts) =? n)
                (distinct (fallback_words nlp texts))).
Proof.
  intros nlp texts n Hy. unfold extract_keywords. rewrite Hy.
  fold (fallback_words nlp texts).
  set (words := fallback_words nlp texts).
  set (leb := fun a b : pystr * Z => snd b <=? snd a).
  unfold most_common. fold leb.
  set (p := fun kv : pystr * Z => snd kv =? n).
  destruct (counter_spec words) as (Hnd & Hin & _).
  assert (Hperm : Permutation (sorted_by leb (counter words)) (counter words))
    by apply sorted_by_perm.
  destruct (filter_firstn_prefix p 20 (sorted_by leb (counter words)))
    as (m & Hm).
  eexists. exists m. split; [reflexivity|].
  rewrite (filter_map_fst _ p).
  - rewrite Hm, sorted_by_stable.
    + rewrite <- firstn_map. f_equal.
      rewrite <- (filter_map_fst
                    (fun k => occurrences k words =? n) p (counter words)).
      * rewrite counter_order. reflexivity.
      * intros [k c] Hk. destruct (Hin k c Hk) as [_ ->]. reflexivity.
    + intros x y Px Py. unfold p, leb in *.
      apply Z.eqb_eq in Px, Py. apply Z.leb_le. lia.
  - intros [k c] Hk. unfold p. cbn [fst snd].
    assert (Hc : In (k, c) (counter words)).
    { apply (Permutation_in _ Hperm).
      rewrite <- (firstn_skipn 20 (sorted_by leb (counter words))).
      apply in_or_app; left; exact Hk. }
    destruct (Hin k c Hc) as [_ ->]. reflexivity.
Qed.

(** X17 at a text with three words that occur once. *)
Lemma extract_keywords_ties_first_seen_witness :
  _HAS_YAKE FixtureNlp.plain = false /\
  returned (extract_keywords FixtureNlp.plain [lit "dog cat end cat"])
    = Some [lit "cat"; lit "dog"; lit "end"] /\
  exists kws m,
    extract_keywords FixtureNlp.plain [lit "dog cat end cat"]
      = ([], Return kws) /\
    filter (fun k => occurrences k
                       (fallback_words FixtureNlp.plain
                          [lit "dog cat end cat"]) =? 1) kws =
    firstn m
      (filter (fun k => occurrences k
                          (fallback_words FixtureNlp.plain
                             [lit "dog cat end cat"]) =? 1)
              (distinct (fallback_words FixtureNlp.plain
                           [lit "dog cat end cat"]))).
Proof.
  split; [reflexivity|]. split; [vm_compute; reflexivity|].
  exact (extract_keywords_ties_first_seen FixtureNlp.plain
           [lit "dog cat end cat"] 1 eq_refl).
Defined.
